(** * dataset.py: the dataset-access layer of vq-vae-2-pytorch

    A shallow embedding of [src/dataset.py]: the read-only LMDB reader
    [LMDBDataset] and the CUB image/caption loader [CUBDataset], with the
    properties of their construction, indexing, length and collation.

    Python values are modelled as the code uses them: integers as [Z],
    [str] and [bytes] as [string], lists as [list], a raised exception as
    the [Raise] branch of [result].  Code that reads the global [random]
    module runs in the monad [Py], which threads the generator's state. *)

From Stdlib Require Import ZArith String Ascii List Lia.
From stdpp Require Import base option list gmap strings pretty.

Open Scope string_scope.
Open Scope list_scope.
Open Scope Z_scope.

(** ** Python core *)

(** The exception classes that the modelled code and its collaborators
    raise.  [OtherError] stands for a library-specific class. *)
Inductive exn : Type :=
| ValueError
| TypeError
| IndexError
| KeyError
| AttributeError
| AssertionError
| FileNotFoundError
| IOError
| RuntimeError
| OtherError (name : string).

Inductive result (A : Type) : Type :=
| Ok (a : A)
| Raise (e : exn).
Arguments Ok {A} a.
Arguments Raise {A} e.

#[global] Instance exn_eq_dec : EqDecision exn.
Proof. solve_decision. Defined.

#[global] Instance result_ret : MRet result := @Ok.
#[global] Instance result_bind : MBind result :=
  fun A B f m => match m with Ok a => f a | Raise e => Raise e end.
#[global] Instance result_fmap : FMap result :=
  fun A B f m => match m with Ok a => Ok (f a) | Raise e => Raise e end.

Definition is_Ok {A} (r : result A) : Prop :=
  match r with Ok _ => True | Raise _ => False end.

Definition raises {A} (r : result A) : Prop :=
  match r with Ok _ => False | Raise _ => True end.

(** [for x in xs: ys.append(f(x))], stopping at the first exception. *)
Fixpoint mapM {A B} (f : A -> result B) (xs : list A) : result (list B) :=
  match xs with
  | [] => Ok []
  | x :: xs' => y ← f x; ys ← mapM f xs'; Ok (y :: ys)
  end.

(** [l[idx]] on a Python list: a negative index counts from the end, an
    index outside [[-len, len)] raises [IndexError]. *)
Definition list_getitem {A} (l : list A) (idx : Z) : result A :=
  let n := Z.of_nat (length l) in
  let i := if idx <? 0 then idx + n else idx in
  if (i <? 0) || (n <=? i) then Raise IndexError
  else match l !! Z.to_nat i with
       | Some x => Ok x
       | None => Raise IndexError
       end.

(** [str(index)] for an [int]: decimal digits, with a leading minus sign. *)
Definition str (index : Z) : string := pretty index.

(** [s.encode('utf-8')] for the ASCII text that [str] produces: the same
    bytes. *)
Definition encode_utf8 (s : string) : string := s.

(** ** os.path (POSIX flavour) *)

Module os_path.

Definition sep : ascii := "/"%char.
Definition extsep : ascii := "."%char.

Definition startswith_sep (s : string) : bool :=
  match s with
  | String c _ => bool_decide (c = sep)
  | EmptyString => false
  end.

Fixpoint endswith_sep (s : string) : bool :=
  match s with
  | EmptyString => false
  | String c EmptyString => bool_decide (c = sep)
  | String _ s' => endswith_sep s'
  end.

(** One step of [posixpath.join]: an absolute component restarts the path,
    otherwise a separator is added unless the path is empty or ends in one. *)
Definition join2 (path b : string) : string :=
  if startswith_sep b then b
  else if bool_decide (path = "") || endswith_sep path then (path ++ b)%string
  else (path ++ String sep b)%string.

Definition join (a : string) (p : list string) : string :=
  fold_left join2 p a.

(** [rfind]: the position of the last occurrence of [c], if any. *)
Fixpoint rfind_from (c : ascii) (s : string) (pos : nat) (last : option nat)
  : option nat :=
  match s with
  | EmptyString => last
  | String d s' =>
      rfind_from c s' (S pos) (if bool_decide (d = c) then Some pos else last)
  end.

Definition rfind (c : ascii) (s : string) : option nat := rfind_from c s 0 None.

Definition drop_string (n : nat) (s : string) : string :=
  String.substring n (String.length s - n) s.

Definition take_string (n : nat) (s : string) : string :=
  String.substring 0 n s.

(** [posixpath.basename]: what follows the last separator. *)
Definition basename (p : string) : string :=
  match rfind sep p with
  | Some i => drop_string (S i) p
  | None => p
  end.

(** Is there a character other than the dot in [p[from:to]]? *)
Fixpoint has_non_dot (p : string) (from to : nat) : bool :=
  match p with
  | EmptyString => false
  | String c p' =>
      match to with
      | O => false
      | S to' =>
          match from with
          | O => negb (bool_decide (c = extsep)) || has_non_dot p' O to'
          | S from' => has_non_dot p' from' to'
          end
      end
  end.

(** [posixpath.splitext]: split at the last dot of the last component,
    unless that component consists of leading dots up to there. *)
Definition splitext (p : string) : string * string :=
  let filenameIndex := match rfind sep p with Some i => S i | None => O end in
  match rfind extsep p with
  | Some dotIndex =>
      if bool_decide (filenameIndex <= dotIndex)%nat
         && has_non_dot p filenameIndex dotIndex
      then (take_string dotIndex p, drop_string dotIndex p)
      else (p, "")
  | None => (p, "")
  end.

(** Does [s] consist of separators only? *)
Fixpoint all_sep (s : string) : bool :=
  match s with
  | EmptyString => true
  | String c s' => bool_decide (c = sep) && all_sep s'
  end.

(** [s.rstrip('/')] *)
Fixpoint rstrip_sep (s : string) : string :=
  match s with
  | EmptyString => EmptyString
  | String c s' => if all_sep s then EmptyString else String c (rstrip_sep s')
  end.

(** [posixpath.split]: the part up to and including the last separator,
    with its trailing separators stripped unless it is made of separators
    only, and the part after the last separator. *)
Definition split (p : string) : string * string :=
  let i := match rfind sep p with Some i => S i | None => O end in
  let head := take_string i p in
  let tail := drop_string i p in
  let head :=
    if negb (bool_decide (head = "")) && negb (all_sep head)
    then rstrip_sep head else head in
  (head, tail).

End os_path.

(** ** Text files *)

Definition LF : ascii := "010"%char.
Definition CR : ascii := "013"%char.

(** Universal-newlines translation of a file opened in text mode with the
    default [newline=None]: [\r\n] and a lone [\r] are read as [\n]. *)
Fixpoint translate_newlines (s : string) : string :=
  match s with
  | EmptyString => EmptyString
  | String c s' =>
      if bool_decide (c = CR) then
        match s' with
        | String d s'' =>
            if bool_decide (d = LF) then String LF (translate_newlines s'')
            else String LF (translate_newlines s')
        | EmptyString => String LF EmptyString
        end
      else String c (translate_newlines s')
  end.

(** The lines of a text, each with its terminator; [cur] is the line being
    read.  A last line without terminator is a line too. *)
Fixpoint lines_from (cur : string) (s : string) : list string :=
  match s with
  | EmptyString => if bool_decide (cur = "") then [] else [cur]
  | String c s' =>
      if bool_decide (c = LF) then (cur ++ String LF "")%string :: lines_from "" s'
      else lines_from (cur ++ String c "")%string s'
  end.

(** [fp.readlines()] on a file whose decoded content is [content]. *)
Definition readlines (content : string) : list string :=
  lines_from "" (translate_newlines content).

(** A blank line: nothing but its terminator. *)
Definition blank_line (l : string) : bool :=
  bool_decide (l = String LF "") || bool_decide (l = "").

(** ** The random module *)

(** The generator behind [random.choice]: [randbelow g n] is the draw of
    [_randbelow(n)] in state [g] with the state that follows; for a positive
    [n] the draw lies in [[0, n)]. *)
Class RandomSource := {
  RandomState : Type;
  randbelow : RandomState -> nat -> nat * RandomState;
  randbelow_lt : forall g n, (0 < n)%nat -> (fst (randbelow g n) < n)%nat
}.

(** A replayable source for tests: the state is a counter, the draw is the
    counter reduced modulo the bound. *)
Definition counter_randbelow (g n : nat) : nat * nat := (Nat.modulo g n, S g).

Lemma counter_randbelow_lt g n :
  (0 < n)%nat -> (fst (counter_randbelow g n) < n)%nat.
Proof. intros Hn; simpl. apply Nat.mod_upper_bound; lia. Qed.

Definition counter_source : RandomSource := {|
  RandomState := nat;
  randbelow := counter_randbelow;
  randbelow_lt := counter_randbelow_lt
|}.

(** Python code that may read the global generator: a computation takes
    the generator's state and gives a value or an exception, with the state
    that follows. *)
Section PyMonad.
Context {R : RandomSource}.

Definition Py (A : Type) : Type := RandomState -> result A * RandomState.

Definition py_ret {A} (a : A) : Py A := fun g => (Ok a, g).

Definition py_bind {A B} (m : Py A) (f : A -> Py B) : Py B :=
  fun g => match m g with
           | (Ok a, g') => f a g'
           | (Raise e, g') => (Raise e, g')
           end.

(** Code that does not touch the generator. *)
Definition lift {A} (r : result A) : Py A := fun g => (r, g).

(** [random.choice(seq)]: [IndexError] on an empty sequence, otherwise
    [seq[_randbelow(len(seq))]]. *)
Definition random_choice {A} (seq : list A) : Py A :=
  fun g =>
    match seq with
    | [] => (Raise IndexError, g)
    | _ :: _ =>
        let '(i, g') := randbelow g (length seq) in
        (list_getitem seq (Z.of_nat i), g')
    end.
End PyMonad.

Notation "'let*' x ':=' m 'in' k" := (py_bind m (fun x => k))
  (at level 10, x name, m at level 100, k at level 200).

(** ** lmdb and the record codec *)

Module lmdb.

(** The content of an opened store: the value bytes under each key. *)
Record Environment := { records : gmap string string }.

(** [bool(env)]: an [Environment] defines neither [__bool__] nor
    [__len__], so it is always true. *)
Definition truthy (env : Environment) : bool := true.

(** [txn.get(key)] in a read transaction: the value, [None] when the key
    is not in the store. *)
Definition txn_get (env : Environment) (key : string) : option string :=
  records env !! key.

End lmdb.

(** [CodeRow = namedtuple('CodeRow', ['top', 'bottom', 'filename'])] *)
Record CodeRow (ndarray : Type) := {
  top : ndarray;
  bottom : ndarray;
  filename : string
}.
Arguments top {ndarray} _.
Arguments bottom {ndarray} _.
Arguments filename {ndarray} _.

Module LMDBDataset.
Section LMDBDataset.
Context {ndarray tensor : Type}.

(** The collaborators: [lmdb.open(path, max_readers=32, readonly=True,
    lock=False, readahead=False, meminit=False)]; [int(b.decode('utf-8'))];
    [pickle.loads] on bytes; [torch.from_numpy]. *)
Variable lmdb_open : string -> result lmdb.Environment.
Variable int_of_bytes : string -> result Z.
Variable unpickle : string -> result (CodeRow ndarray).
Variable from_numpy : ndarray -> tensor.

(** [pickle.loads(data)] needs a bytes-like object: on [None], which is
    what [txn.get] gives for a missing key, it raises [TypeError]. *)
Definition pickle_loads (data : option string) : result (CodeRow ndarray) :=
  match data with
  | None => Raise TypeError
  | Some b => unpickle b
  end.

Record t := {
  env : lmdb.Environment;
  length : Z
}.

Definition __init__ (path : string) : result t :=
  env ← lmdb_open path;
  if negb (lmdb.truthy env) then Raise IOError
  else
    match lmdb.txn_get env (encode_utf8 "length") with
    | None => Raise AttributeError
    | Some b => n ← int_of_bytes b; Ok {| env := env; length := n |}
    end.

Definition __len__ (self : t) : Z := length self.

Definition __getitem__ (self : t) (index : Z)
  : result (tensor * tensor * string) :=
  let key := encode_utf8 (str index) in
  row ← pickle_loads (lmdb.txn_get (env self) key);
  Ok (from_numpy (top row), from_numpy (bottom row), filename row).

End LMDBDataset.
End LMDBDataset.

(** ** pandas *)

Module pd.

(** A [Series]: the index labels with their values, in row order.  A
    [DataFrame] read with [header=None, index_col=0] from a two-column
    file is kept as its index with its column [1]. *)
Definition Series (A : Type) : Type := list (Z * A).
Definition DataFrame (A : Type) : Type := list (Z * A).

(** [df.index], [df[1]], and the values of a series in row order (what
    iterating it or [to_numpy()] gives). *)
Definition index {A} (df : DataFrame A) : list Z := map fst df.
Definition col1 {A} (df : DataFrame A) : Series A := df.
Definition values {A} (s : Series A) : list A := map snd s.

(** [pd.Series(data, index=index)]: the values are attached to the labels
    by position; [ValueError] when the lengths differ. *)
Definition mk_Series {A} (data : list A) (index : list Z)
  : result (Series A) :=
  if bool_decide (length data = length index) then Ok (zip index data)
  else Raise ValueError.

Definition rows_with_label {A} (s : Series A) (k : Z) : list (Z * A) :=
  List.filter (fun row => bool_decide (row.1 = k)) s.

(** [s.loc[keys]] with a list of labels: for each key in turn, every row
    that carries it; [KeyError] when a key labels no row. *)
Definition loc {A} (s : Series A) (keys : list Z) : result (Series A) :=
  rows ← mapM (fun k => match rows_with_label s k with
                        | [] => Raise KeyError
                        | r => Ok r
                        end) keys;
  Ok (concat rows).

(** [s == code] *)
Definition eq_scalar (s : Series Z) (code : Z) : Series bool :=
  map (fun row => (row.1, bool_decide (row.2 = code))) s.

(** [index[mask]] with a boolean series: the mask is turned into a plain
    boolean array and applied by position, its own labels playing no
    part; [IndexError] when the lengths differ. *)
Definition index_getitem {A} (index : list A) (mask : Series bool)
  : result (list A) :=
  if bool_decide (length mask = length index) then
    Ok (map fst (List.filter snd (zip index (values mask))))
  else Raise IndexError.

End pd.

(** ** PIL, numpy, torch and the tokenizer *)

Module PIL.

Inductive Mode : Type :=
| M1 | L | P | I | F | LA | PA | RGB | RGBA | CMYK | YCbCr | LAB | HSV.

Definition bands (m : Mode) : nat :=
  match m with
  | M1 | L | P | I | F => 1
  | LA | PA => 2
  | RGB | YCbCr | LAB | HSV => 3
  | RGBA | CMYK => 4
  end.

Record Image := {
  mode : Mode;
  width : nat;
  height : nat;
  pixels : list Z
}.

End PIL.

(** [np.array(image).shape]: [(height, width)] for a single-band image,
    [(height, width, bands)] otherwise. *)
Definition np_array_shape (im : PIL.Image) : list nat :=
  if bool_decide (PIL.bands (PIL.mode im) = 1%nat)
  then [PIL.height im; PIL.width im]
  else [PIL.height im; PIL.width im; PIL.bands (PIL.mode im)].

Module torch.

(** A tensor: its shape and its elements in row-major order (each element
    by its bit pattern). *)
Record Tensor := {
  shape : list nat;
  data : list Z
}.

(** [torch.stack(tensors, dim=0)]: [RuntimeError] on an empty list or when
    two tensors differ in shape. *)
Definition stack (tensors : list Tensor) : result Tensor :=
  match tensors with
  | [] => Raise RuntimeError
  | t0 :: _ =>
      if forallb (fun t => bool_decide (shape t = shape t0)) tensors then
        Ok {| shape := length tensors :: shape t0;
              data := concat (map data tensors) |}
      else Raise RuntimeError
  end.

End torch.

(** What an example carries as its image: the PIL image as opened, or the
    tensor a transform made of it. *)
Inductive Img : Type :=
| PILImg (im : PIL.Image)
| TensorImg (t : torch.Tensor).

(** [torch.stack] on Python objects: [TypeError] unless all are tensors. *)
Definition torch_stack (xs : list Img) : result torch.Tensor :=
  ts ← mapM (fun x => match x with
                      | TensorImg t => Ok t
                      | PILImg _ => Raise TypeError
                      end) xs;
  torch.stack ts.

(** What the tokenizer returns with [return_tensors='pt']: one row of
    token ids and one row of mask per text. *)
Record BatchEncoding := {
  input_ids : list (list Z);
  attention_mask : list (list Z)
}.

(** A tokenizer by its call contract: [tokenizer_call texts max_length] is
    [tokenizer(texts, padding=True, add_special_tokens=True,
    truncation=True, max_length=max_length, return_tensors='pt')], and a
    returned encoding has one row per text. *)
Record Tokenizer := {
  tokenizer_call : list string -> Z -> result BatchEncoding;
  tokenizer_rows : forall texts max_length enc,
    tokenizer_call texts max_length = Ok enc ->
    length (input_ids enc) = length texts
}.

(** ** The world outside the program *)

(** The root directory and the libraries as the loader sees them:
    [os.path.isdir]; [pd.read_csv(path, header=None, index_col=0, sep=' ')]
    for a table whose column [1] holds text, resp. integers;
    [Image.open] (with the decoding it leads to); the decoded content of the
    text files that exist; [AutoTokenizer.from_pretrained]; and
    [T.Resize(size)(img)]. *)
Record World := {
  isdir : string -> bool;
  read_csv_str : string -> result (pd.DataFrame string);
  read_csv_int : string -> result (pd.DataFrame Z);
  Image_open : string -> result PIL.Image;
  text_files : gmap string string;
  from_pretrained : string -> result Tokenizer;
  Resize : nat * nat -> Img -> result Img
}.

(** [open(path, 'r')] followed by reading the whole file. *)
Definition open_read (w : World) (path : string) : result string :=
  match text_files w !! path with
  | Some content => Ok content
  | None => Raise FileNotFoundError
  end.

(** ** ImageFileDataset *)

Module ImageFileDataset.

(** The attributes of torchvision's [ImageFolder] that [__getitem__]
    reads: the (path, class index) pairs found under the root, the image
    loader, and the two optional transforms. *)
Record t := {
  samples : list (string * Z);
  loader : string -> result PIL.Image;
  transform : option (Img -> result Img);
  target_transform : option (Z -> result Z)
}.

(** [super().__getitem__(index)], the method of [DatasetFolder]: load the
    image at [samples[index]] and apply the transforms. *)
Definition super_getitem (self : t) (index : Z) : result (Img * Z) :=
  '(path, target) ← list_getitem (samples self) index;
  sample ← PILImg <$> loader self path;
  sample ← match transform self with
           | Some f => f sample
           | None => Ok sample
           end;
  target ← match target_transform self with
           | Some f => f target
           | None => Ok target
           end;
  Ok (sample, target).

Definition __getitem__ (self : t) (index : Z) : result (Img * Z * string) :=
  '(sample, target) ← super_getitem self index;
  '(path, _) ← list_getitem (samples self) index;
  let '(dirs, filename) := os_path.split path in
  let '(_, class_name) := os_path.split dirs in
  let filename := os_path.join class_name [filename] in
  Ok (sample, target, filename).

End ImageFileDataset.

(** ** CUBDataset *)

Module CUBDataset.

Definition TRAIN_CODE : Z := 0.
Definition TEST_CODE : Z := 1.

Section Attributes.
Context {R : RandomSource}.

(** The attributes of an instance.  The transform is an arbitrary
    callable: it may read and advance the global generator (as the random
    transforms of torchvision built on the [random] module do), so it is a
    computation of [Py]. *)
Record t := {
  root : string;
  mode : string;
  transform : option (Img -> Py Img);
  pretrained : string;
  tokenizer : Tokenizer;
  max_length : Z;
  images : pd.Series string;
  text_annotations : pd.Series string;
  filtered_images : list string;
  filtered_annotations : list string
}.

End Attributes.

(** An assembled example, as [__getitem__] returns it. *)
Definition Example : Type := Img * Img * string.

(** [self.TRAIN_CODE if self.mode == 'train' else self.TEST_CODE] *)
Definition filter_code (mode : string) : Z :=
  if bool_decide (mode = "train") then TRAIN_CODE else TEST_CODE.

(** The first loop of [__init__]: for each image path with its class
    name, append the image file and the annotation file to the two lists. *)
Fixpoint collect_paths (root : string) (rows : list (string * string))
    (images text_annotations : list string) : list string * list string :=
  match rows with
  | [] => (images, text_annotations)
  | (img_path, cls_) :: rest =>
      let img_name := os_path.basename (os_path.splitext img_path).1 in
      let annotation_path :=
        os_path.join root ["text_c10"; cls_; (img_name ++ ".txt")%string] in
      collect_paths root rest
        (images ++ [os_path.join root ["images"; img_path]])
        (text_annotations ++ [annotation_path])
  end.

(** The second loop of [__init__] ("Remove grayscale images"): a pair
    whose decoded array has two dimensions is skipped, any other is
    appended to both lists. *)
Fixpoint remove_grayscale (w : World) (pairs : list (string * string))
    (filtered_images filtered_annotations : list string)
  : result (list string * list string) :=
  match pairs with
  | [] => Ok (filtered_images, filtered_annotations)
  | (img_path, annotation) :: rest =>
      im ← Image_open w img_path;
      let i_shape := np_array_shape im in
      if bool_decide (length i_shape = 2%nat) then
        remove_grayscale w rest filtered_images filtered_annotations
      else
        remove_grayscale w rest (filtered_images ++ [img_path])
                         (filtered_annotations ++ [annotation])
  end.

(** The tables of the root directory, read in the order of the source. *)
Definition read_tables (w : World) (root : string)
  : result (pd.DataFrame string * pd.DataFrame Z
            * pd.DataFrame Z * pd.DataFrame string) :=
  let image_mapping_path := os_path.join root ["images.txt"] in
  let split_mapping_path := os_path.join root ["train_test_split.txt"] in
  let cls_mapping_path := os_path.join root ["image_class_labels.txt"] in
  let cls_label_mapping_path := os_path.join root ["classes.txt"] in
  img_path_map ← read_csv_str w image_mapping_path;
  train_test_map ← read_csv_int w split_mapping_path;
  img_label_map ← read_csv_int w cls_mapping_path;
  label_cls_map ← read_csv_str w cls_label_mapping_path;
  Ok (img_path_map, train_test_map, img_label_map, label_cls_map).

(** [pd.Series(label_cls_map.loc[img_label_map[1]][1].to_numpy(),
    index=index)] *)
Definition class_names (index : list Z) (img_label_map : pd.DataFrame Z)
    (label_cls_map : pd.DataFrame string) : result (pd.Series string) :=
  named ← pd.loc (pd.col1 label_cls_map) (pd.values (pd.col1 img_label_map));
  pd.mk_Series (pd.values named) index.

(** "Select image subset based on the splitting mode" *)
Definition select_split {A} (mode : string) (index : list Z)
    (train_test_map : pd.DataFrame Z) (images text_annotations : pd.Series A)
  : result (pd.Series A * pd.Series A) :=
  let filter_code := filter_code mode in
  valid_inds ← pd.index_getitem index
                 (pd.eq_scalar (pd.col1 train_test_map) filter_code);
  images ← pd.loc images valid_inds;
  text_annotations ← pd.loc text_annotations valid_inds;
  Ok (images, text_annotations).

Section Methods.
Context {R : RandomSource}.
Variable w : World.

(** [__init__]; it never touches the generator. *)
Definition __init__ (root mode : string)
    (transform : option (Img -> Py Img)) (pretrained : string)
    (max_length : Z) : Py t :=
  lift (
    if negb (isdir w root) then Raise ValueError
    else
      tokenizer ← from_pretrained w pretrained;
      '(img_path_map, train_test_map, img_label_map, label_cls_map)
        ← read_tables w root;
      let index := pd.index img_path_map in
      img_cls_map ← class_names index img_label_map label_cls_map;
      let '(images, text_annotations) :=
        collect_paths root
          (zip (pd.values (pd.col1 img_path_map)) (pd.values img_cls_map))
          [] [] in
      images ← pd.mk_Series images index;
      text_annotations ← pd.mk_Series text_annotations index;
      '(images, text_annotations)
        ← select_split mode index train_test_map images text_annotations;
      '(filtered_images, filtered_annotations)
        ← remove_grayscale w
            (zip (pd.values images) (pd.values text_annotations)) [] [];
      Ok {| root := root; mode := mode; transform := transform;
            pretrained := pretrained; tokenizer := tokenizer;
            max_length := max_length;
            images := images; text_annotations := text_annotations;
            filtered_images := filtered_images;
            filtered_annotations := filtered_annotations |}).

(** [__getitem__]: the two paths, the image with the transform applied
    (the transform is called before the annotation file is opened and may
    itself use the generator), its 128x128 view, and one line of the
    annotation file drawn with [random.choice]. *)
Definition __getitem__ (self : t) (idx : Z) : Py Example :=
  let* img_path := lift (list_getitem (filtered_images self) idx) in
  let* annotation_path := lift (list_getitem (filtered_annotations self) idx) in
  let* img := lift (PILImg <$> Image_open w img_path) in
  let* img := match transform self with
              | Some f => f img
              | None => py_ret img
              end in
  let* img_low_res := lift (Resize w (128%nat, 128%nat) img) in
  let* fp := lift (open_read w annotation_path) in
  let lines := readlines fp in
  let* annotation := random_choice lines in
  py_ret (img, img_low_res, annotation).

End Methods.

(** The batch unzipped into three names ([zip] over the starred batch):
    the three columns of the batch; with an empty batch [zip] yields
    nothing and the assignment to three names raises [ValueError]. *)
Definition zip_star (batch : list Example)
  : result (list Img * list Img * list string) :=
  match batch with
  | [] => Raise ValueError
  | _ :: _ => Ok (map (fun ex => ex.1.1) batch,
                  map (fun ex => ex.1.2) batch,
                  map (fun ex => ex.2) batch)
  end.

(** [collate_fn].  The first name, [imgs_low_res], receives the first
    components of the examples, which [__getitem__] fills with the
    full-size image, and [imgs] the second ones. *)
Definition collate_fn {R : RandomSource} (self : t) (batch : list Example)
  : result (torch.Tensor * torch.Tensor * BatchEncoding) :=
  '(imgs_low_res, imgs, annotations) ← zip_star batch;
  imgs_low_res ← torch_stack imgs_low_res;
  imgs ← torch_stack imgs;
  annotations ← tokenizer_call (tokenizer self) annotations (max_length self);
  Ok (imgs_low_res, imgs, annotations).

(** [__len__]: the assertion, then the length. *)
Definition __len__ {R : RandomSource} (self : t) : result Z :=
  if bool_decide (length (filtered_images self)
                  = length (filtered_annotations self))
  then Ok (Z.of_nat (length (filtered_images self)))
  else Raise AssertionError.

End CUBDataset.

(** ** Concrete collaborators and a small corpus *)

Module Sample.

(** A byte-level tokenizer: [101], the character codes cut to
    [max_length - 2], [102]; rows padded with [0] to the longest. *)
Definition encode_text (max_length : Z) (text : string) : list Z :=
  101 :: take (Z.to_nat (max_length - 2))
              (map (fun c => Z.of_nat (nat_of_ascii c)) (list_ascii_of_string text))
      ++ [102].

Definition pad_to (n : nat) (row : list Z) : list Z :=
  row ++ replicate (n - length row) 0.

Definition mask_to (n : nat) (row : list Z) : list Z :=
  replicate (length row) 1 ++ replicate (n - length row) 0.

Definition byte_call (texts : list string) (max_length : Z)
  : result BatchEncoding :=
  let rows := map (encode_text max_length) texts in
  let n := foldr Nat.max 0%nat (map length rows) in
  Ok {| input_ids := map (pad_to n) rows;
        attention_mask := map (mask_to n) rows |}.

Lemma byte_call_rows texts max_length enc :
  byte_call texts max_length = Ok enc ->
  length (input_ids enc) = length texts.
Proof.
  unfold byte_call; intros [= <-]; simpl.
  by rewrite !length_map.
Qed.

Definition byte_tokenizer : Tokenizer :=
  {| tokenizer_call := byte_call; tokenizer_rows := byte_call_rows |}.

Definition rgb : PIL.Image :=
  {| PIL.mode := PIL.RGB; PIL.width := 2; PIL.height := 2; PIL.pixels := [] |}.
Definition gray : PIL.Image :=
  {| PIL.mode := PIL.L; PIL.width := 2; PIL.height := 2; PIL.pixels := [] |}.
Definition rgba : PIL.Image :=
  {| PIL.mode := PIL.RGBA; PIL.width := 2; PIL.height := 2; PIL.pixels := [] |}.

(** A resize that only records the new size. *)
Definition resize (size : nat * nat) (img : Img) : result Img :=
  match img with
  | PILImg im =>
      Ok (PILImg {| PIL.mode := PIL.mode im; PIL.width := size.2;
                    PIL.height := size.1; PIL.pixels := [] |})
  | TensorImg t =>
      match torch.shape t with
      | [c; _; _] =>
          Ok (TensorImg {| torch.shape := [c; size.1; size.2];
                           torch.data := [] |})
      | _ => Raise TypeError
      end
  end.

(** [T.ToTensor()]: a channels-first tensor of the image. *)
Definition to_tensor (img : Img) : result Img :=
  match img with
  | PILImg im =>
      Ok (TensorImg {| torch.shape := [PIL.bands (PIL.mode im);
                                       PIL.height im; PIL.width im];
                       torch.data := PIL.pixels im |})
  | TensorImg _ => Raise TypeError
  end.

Definition table {A} (files : list (string * pd.DataFrame A)) (path : string)
  : result (pd.DataFrame A) :=
  match list_to_map (M := gmap string (pd.DataFrame A)) files !! path with
  | Some df => Ok df
  | None => Raise FileNotFoundError
  end.

Definition pictures (files : list (string * PIL.Image)) (path : string)
  : result PIL.Image :=
  match list_to_map (M := gmap string PIL.Image) files !! path with
  | Some im => Ok im
  | None => Raise FileNotFoundError
  end.

(** A root directory [cub] given by its four tables, its images and its
    annotation files. *)
Definition world (images_txt : pd.DataFrame string)
    (train_test_split_txt image_class_labels_txt : pd.DataFrame Z)
    (classes_txt : pd.DataFrame string)
    (image_files : list (string * PIL.Image))
    (annotation_files : list (string * string)) : World :=
  {| isdir := fun p => bool_decide (p = "cub");
     read_csv_str := table [("cub/images.txt", images_txt);
                            ("cub/classes.txt", classes_txt)];
     read_csv_int := table [("cub/train_test_split.txt", train_test_split_txt);
                            ("cub/image_class_labels.txt", image_class_labels_txt)];
     Image_open := pictures image_files;
     text_files := list_to_map annotation_files;
     from_pretrained := fun _ => Ok byte_tokenizer;
     Resize := resize |}.

Definition image_files : list (string * PIL.Image) :=
  [("cub/images/001.A/a_1.jpg", rgb);
   ("cub/images/001.A/a_2.jpg", gray);
   ("cub/images/002.B/b_1.png", rgba)].

Definition annotation_files : list (string * string) :=
  [("cub/text_c10/001.A/a_1.txt",
    String "a" (String LF (String LF (String "b" (String LF "")))));
   ("cub/text_c10/002.B/b_1.txt", "")].

Definition images_txt : pd.DataFrame string :=
  [(1, "001.A/a_1.jpg"); (2, "001.A/a_2.jpg"); (3, "002.B/b_1.png")].
Definition train_test_split_txt : pd.DataFrame Z := [(1, 0); (2, 0); (3, 1)].
Definition image_class_labels_txt : pd.DataFrame Z := [(1, 1); (2, 1); (3, 2)].
Definition classes_txt : pd.DataFrame string := [(1, "001.A"); (2, "002.B")].

Definition corpus : World :=
  world images_txt train_test_split_txt image_class_labels_txt classes_txt
        image_files annotation_files.

(** The same corpus with id 2 missing from the class-label table, resp.
    from the split table. *)
Definition no_label_for_2 : World :=
  world images_txt train_test_split_txt [(1, 1); (3, 2)] classes_txt
        image_files annotation_files.

Definition no_split_for_2 : World :=
  world images_txt [(1, 0); (3, 1)] image_class_labels_txt classes_txt
        image_files annotation_files.

(** The same corpus with the rows of the split table in reverse order:
    every id keeps its split code. *)
Definition reversed_split_txt : pd.DataFrame Z := [(3, 1); (2, 0); (1, 0)].

Definition reversed_split : World :=
  world images_txt reversed_split_txt image_class_labels_txt classes_txt
        image_files annotation_files.

(** The instance that [mode='train'] builds from [corpus], and the one
    for any other mode. *)
Definition train_set : @CUBDataset.t counter_source :=
  {| CUBDataset.root := "cub"; CUBDataset.mode := "train";
     CUBDataset.transform := None;
     CUBDataset.pretrained := "bert-base-cased";
     CUBDataset.tokenizer := byte_tokenizer; CUBDataset.max_length := 64;
     CUBDataset.images := [(1, "cub/images/001.A/a_1.jpg");
                           (2, "cub/images/001.A/a_2.jpg")];
     CUBDataset.text_annotations := [(1, "cub/text_c10/001.A/a_1.txt");
                                     (2, "cub/text_c10/001.A/a_2.txt")];
     CUBDataset.filtered_images := ["cub/images/001.A/a_1.jpg"];
     CUBDataset.filtered_annotations := ["cub/text_c10/001.A/a_1.txt"] |}.

Definition test_set : @CUBDataset.t counter_source :=
  {| CUBDataset.root := "cub"; CUBDataset.mode := "val";
     CUBDataset.transform := None;
     CUBDataset.pretrained := "bert-base-cased";
     CUBDataset.tokenizer := byte_tokenizer; CUBDataset.max_length := 64;
     CUBDataset.images := [(3, "cub/images/002.B/b_1.png")];
     CUBDataset.text_annotations := [(3, "cub/text_c10/002.B/b_1.txt")];
     CUBDataset.filtered_images := ["cub/images/002.B/b_1.png"];
     CUBDataset.filtered_annotations := ["cub/text_c10/002.B/b_1.txt"] |}.

(** The training instance with [ToTensor] as transform. *)
Definition tensor_train_set : @CUBDataset.t counter_source :=
  {| CUBDataset.root := "cub"; CUBDataset.mode := "train";
     CUBDataset.transform := Some (fun img => lift (to_tensor img));
     CUBDataset.pretrained := "bert-base-cased";
     CUBDataset.tokenizer := byte_tokenizer;
     CUBDataset.max_length := 64;
     CUBDataset.images := CUBDataset.images train_set;
     CUBDataset.text_annotations := CUBDataset.text_annotations train_set;
     CUBDataset.filtered_images := CUBDataset.filtered_images train_set;
     CUBDataset.filtered_annotations :=
       CUBDataset.filtered_annotations train_set |}.

(** torchvision's [RandomChoice(transforms)]: apply one of the transforms,
    picked by [random.choice]. *)
Definition RandomChoice {R : RandomSource} (transforms : list (Img -> Py Img))
  : Img -> Py Img :=
  fun img => let* t := random_choice transforms in t img.

(** The same two instances with a transform that uses the generator: one
    that picks between the identity and [ToTensor], one that picks the
    identity among a single choice. *)
Definition random_train_set : @CUBDataset.t counter_source :=
  {| CUBDataset.root := "cub"; CUBDataset.mode := "train";
     CUBDataset.transform :=
       Some (RandomChoice [py_ret; fun img => lift (to_tensor img)]);
     CUBDataset.pretrained := "bert-base-cased";
     CUBDataset.tokenizer := byte_tokenizer; CUBDataset.max_length := 64;
     CUBDataset.images := CUBDataset.images train_set;
     CUBDataset.text_annotations := CUBDataset.text_annotations train_set;
     CUBDataset.filtered_images := CUBDataset.filtered_images train_set;
     CUBDataset.filtered_annotations := CUBDataset.filtered_annotations train_set |}.

Definition random_test_set : @CUBDataset.t counter_source :=
  {| CUBDataset.root := "cub"; CUBDataset.mode := "val";
     CUBDataset.transform := Some (RandomChoice [py_ret]);
     CUBDataset.pretrained := "bert-base-cased";
     CUBDataset.tokenizer := byte_tokenizer; CUBDataset.max_length := 64;
     CUBDataset.images := CUBDataset.images test_set;
     CUBDataset.text_annotations := CUBDataset.text_annotations test_set;
     CUBDataset.filtered_images := CUBDataset.filtered_images test_set;
     CUBDataset.filtered_annotations := CUBDataset.filtered_annotations test_set |}.

(** The corpus without any annotation file on disk. *)
Definition no_annotations : World :=
  world images_txt train_test_split_txt image_class_labels_txt classes_txt
        image_files [].

(** Two examples as [__getitem__] builds them under a tensor transform. *)
Definition pixels_a : torch.Tensor :=
  {| torch.shape := [3; 1; 2]%nat; torch.data := [1; 2; 3; 4; 5; 6] |}.
Definition pixels_b : torch.Tensor :=
  {| torch.shape := [3; 1; 2]%nat; torch.data := [7; 8; 9; 10; 11; 12] |}.
Definition low_res : torch.Tensor :=
  {| torch.shape := [3; 128; 128]%nat; torch.data := [] |}.

Definition example_a : CUBDataset.Example :=
  (TensorImg pixels_a, TensorImg low_res, String "a" (String LF "")).
Definition example_b : CUBDataset.Example :=
  (TensorImg pixels_b, TensorImg low_res, String "b" (String LF "")).

End Sample.

(** A store that holds its length counter and no record, with the
    collaborators of [LMDBDataset] for it. *)
Module SampleStore.

Definition digit_value (c : ascii) : option Z :=
  let n := nat_of_ascii c in
  if bool_decide (48 <= n <= 57)%nat then Some (Z.of_nat n - 48) else None.

Fixpoint digits_value (acc : Z) (s : string) : result Z :=
  match s with
  | EmptyString => Ok acc
  | String c s' =>
      match digit_value c with
      | Some d => digits_value (10 * acc + d) s'
      | None => Raise ValueError
      end
  end.

(** [int(b.decode('utf-8'))] on plain decimal digits. *)
Definition int_of_digits (b : string) : result Z :=
  match b with
  | EmptyString => Raise ValueError
  | _ => digits_value 0 b
  end.

Definition counter_only : lmdb.Environment :=
  {| lmdb.records := {[ "length" := "5" ]} |}.

Definition lmdb_open (path : string) : result lmdb.Environment :=
  if bool_decide (path = "codes.lmdb") then Ok counter_only
  else Raise (OtherError "lmdb.Error").

Definition unpickle (b : string) : result (CodeRow (list Z)) :=
  Raise (OtherError "UnpicklingError").

Definition from_numpy (a : list Z) : list Z := a.

End SampleStore.

(** ** Notions used in the statements *)

(** A pair survives the second loop when its image opens and the decoded
    array does not have two dimensions. *)
Definition survives (w : World) (pair : string * string) : bool :=
  match Image_open w pair.1 with
  | Ok im => negb (bool_decide (length (np_array_shape im) = 2%nat))
  | Raise _ => false
  end.

(** The candidates as the specification words them: the lines of the file
    that are not blank. *)
Definition nonempty_lines (content : string) : list string :=
  List.filter (fun line => negb (blank_line line)) (readlines content).

(** The image part of [__getitem__]: open, transform, resize.  Only the
    transform can move the generator. *)
Definition image_steps {R : RandomSource} (w : World) (self : CUBDataset.t)
    (img_path : string) : Py (Img * Img) :=
  let* img := lift (PILImg <$> Image_open w img_path) in
  let* img := match CUBDataset.transform self with
              | Some f => f img
              | None => py_ret img
              end in
  let* img_low_res := lift (Resize w (128%nat, 128%nat) img) in
  py_ret (img, img_low_res).

(** A loader whose transform, if any, does not use the generator: it gives
    the same result in every state and leaves the state as it is. *)
Definition generator_free {R : RandomSource} (self : CUBDataset.t) : Prop :=
  match CUBDataset.transform self with
  | None => True
  | Some f => exists f0 : Img -> result Img, forall img g, f img g = (f0 img, g)
  end.

(** The rows of [xs] at the positions where [mask] holds. *)
Definition masked {A} (xs : list A) (mask : list bool) : list A :=
  map fst (List.filter snd (zip xs mask)).

(** The mask of [select_split]: position by position, does the split table
    hold the requested code there? *)
Definition split_mask (train_test_map : pd.DataFrame Z) (code : Z) : list bool :=
  map (fun c => bool_decide (c = code)) (pd.values (pd.col1 train_test_map)).

(** The image series before the split selection: every id of the
    image-path table with the path of its image file, in table order. *)
Definition full_images (root : string) (img_path_map : pd.DataFrame string)
  : pd.Series string :=
  zip (pd.index img_path_map)
      (map (fun img_path => os_path.join root ["images"; img_path])
           (pd.values (pd.col1 img_path_map))).

(** The split restriction as the specification words it: the split code of
    an id is looked up by id in the split table, and the ids whose code is
    the requested one are kept. *)
Definition split_code_of (train_test_map : pd.DataFrame Z) (id : Z) : option Z :=
  snd <$> head (pd.rows_with_label train_test_map id).

Definition ids_with_code (train_test_map : pd.DataFrame Z) (code : Z)
    (index : list Z) : list Z :=
  List.filter (fun id => bool_decide (split_code_of train_test_map id = Some code))
              index.

(** * Properties *)

(** ** The result monad and Python lists *)

Lemma bind_Ok_inv {A B} (m : result A) (f : A -> result B) (b : B) :
  (m ≫= f) = Ok b -> exists a, m = Ok a /\ f a = Ok b.
Proof. destruct m as [a|e]; simpl; [eauto | discriminate]. Qed.

Lemma list_getitem_nonneg {A} (l : list A) (idx : Z) (x : A) :
  0 <= idx -> l !! Z.to_nat idx = Some x -> list_getitem l idx = Ok x.
Proof.
  intros Hidx Hx. unfold list_getitem.
  pose proof (lookup_lt_Some _ _ _ Hx) as Hlt.
  destruct (idx <? 0) eqn:Hneg; [lia |].
  destruct (idx <? 0) eqn:Hneg'; [lia |].
  destruct (Z.of_nat (length l) <=? idx) eqn:Hge; [lia |].
  simpl. by rewrite Hx.
Qed.

(** A negative index in [[-len, -1]] reads the element [len + idx]. *)
Lemma list_getitem_negative {A} (l : list A) (idx : Z) :
  - Z.of_nat (length l) <= idx <= -1 ->
  list_getitem l idx = list_getitem l (Z.of_nat (length l) + idx)
  /\ exists x, l !! Z.to_nat (Z.of_nat (length l) + idx) = Some x
               /\ list_getitem l idx = Ok x.
Proof.
  intros Hidx. unfold list_getitem.
  set (n := Z.of_nat (length l)) in *.
  destruct (idx <? 0) eqn:Hneg; [| lia].
  destruct (n + idx <? 0) eqn:Hneg'; [lia |].
  rewrite (Z.add_comm idx n), Hneg'.
  destruct (n <=? n + idx) eqn:Hge; [lia |]. simpl.
  destruct (lookup_lt_is_Some_2 l (Z.to_nat (n + idx))) as [x Hx]; [lia |].
  rewrite Hx. eauto.
Qed.

(** ** LMDBDataset *)

(** C1, as stated, fails: the failure on a missing key is not an
    index-out-of-range error.  In a store that holds the length counter 5
    and no record, index 0 lies below the length, its key is missing, and
    [__getitem__] raises [TypeError], which is not [IndexError] (nor a
    subclass of it, nor of [LookupError]). *)
Lemma LMDBDataset_getitem_not_index_error :
  0 <= 0 < 5
  /\ lmdb.txn_get SampleStore.counter_only (encode_utf8 (str 0)) = None
  /\ LMDBDataset.__getitem__ SampleStore.unpickle SampleStore.from_numpy
       {| LMDBDataset.env := SampleStore.counter_only; LMDBDataset.length := 5 |} 0
     = Raise TypeError
  /\ LMDBDataset.__getitem__ SampleStore.unpickle SampleStore.from_numpy
       {| LMDBDataset.env := SampleStore.counter_only; LMDBDataset.length := 5 |} 0
     <> Raise IndexError
  /\ LMDBDataset.__getitem__ SampleStore.unpickle SampleStore.from_numpy
       {| LMDBDataset.env := SampleStore.counter_only; LMDBDataset.length := 5 |} 0
     <> Raise KeyError.
Proof.
  split; [lia |]. split; [reflexivity |]. split; [reflexivity |].
  split; discriminate.
Qed.

(** C1, amended.  For every open handle, whatever its cached length, and
    every integer index whose key [str(index)] is not in the store,
    [__getitem__] fails with [TypeError]: [txn.get] gives [None] and
    [pickle.loads] raises on it.  The length counter plays no part, so this
    holds for an index below the length too. *)
Theorem LMDBDataset_getitem_missing_key {ndarray tensor : Type}
    (unpickle : string -> result (CodeRow ndarray))
    (from_numpy : ndarray -> tensor)
    (env : lmdb.Environment) (len index : Z) :
  lmdb.txn_get env (encode_utf8 (str index)) = None ->
  LMDBDataset.__getitem__ unpickle from_numpy
    {| LMDBDataset.env := env; LMDBDataset.length := len |} index
  = Raise TypeError.
Proof.
  intros Hmissing. unfold LMDBDataset.__getitem__; simpl.
  by rewrite Hmissing.
Qed.

Lemma LMDBDataset_getitem_missing_key_witness :
  LMDBDataset.__init__ SampleStore.lmdb_open SampleStore.int_of_digits "codes.lmdb"
  = Ok {| LMDBDataset.env := SampleStore.counter_only; LMDBDataset.length := 5 |}
  /\ 0 <= 0 < 5
  /\ LMDBDataset.__getitem__ SampleStore.unpickle SampleStore.from_numpy
       {| LMDBDataset.env := SampleStore.counter_only; LMDBDataset.length := 5 |} 0
     = Raise TypeError.
Proof.
  split; [reflexivity |]. split; [lia |].
  apply (LMDBDataset_getitem_missing_key SampleStore.unpickle
           SampleStore.from_numpy SampleStore.counter_only 5 0).
  reflexivity.
Defined.

(** ** CUBDataset: the two loops and the shape of a construction *)

Lemma remove_grayscale_Ok w pairs : forall fi fa fi' fa',
  CUBDataset.remove_grayscale w pairs fi fa = Ok (fi', fa') ->
  Forall (fun pair => is_Ok (Image_open w pair.1)) pairs
  /\ fi' = fi ++ map fst (List.filter (survives w) pairs)
  /\ fa' = fa ++ map snd (List.filter (survives w) pairs).
Proof.
  induction pairs as [| [img_path annotation] rest IH]; intros fi fa fi' fa' H.
  - injection H as <- <-. by rewrite !app_nil_r.
  - simpl in H. unfold survives at 1 2; simpl.
    destruct (Image_open w img_path) as [im|e] eqn:Him; [| discriminate].
    simpl in H.
    destruct (bool_decide (length (np_array_shape im) = 2%nat)) eqn:Hdim; simpl.
    + destruct (IH _ _ _ _ H) as (Hall & -> & ->).
      split; [| done]. constructor; [by simpl; rewrite Him | done].
    + destruct (IH _ _ _ _ H) as (Hall & -> & ->).
      split; [constructor; [by simpl; rewrite Him | done] |].
      by rewrite <- !app_assoc.
Qed.

Lemma remove_grayscale_total w pairs : forall fi fa,
  Forall (fun pair => is_Ok (Image_open w pair.1)) pairs ->
  CUBDataset.remove_grayscale w pairs fi fa
  = Ok (fi ++ map fst (List.filter (survives w) pairs),
        fa ++ map snd (List.filter (survives w) pairs)).
Proof.
  induction pairs as [| [img_path annotation] rest IH]; intros fi fa Hall.
  - by rewrite !app_nil_r.
  - inversion Hall as [| ? ? Hhd Htl]; subst. simpl in Hhd.
    destruct (Image_open w img_path) as [im|e] eqn:Him; [| done].
    assert (survives w (img_path, annotation)
            = negb (bool_decide (length (np_array_shape im) = 2%nat))) as Hs.
    { unfold survives; simpl. by rewrite Him. }
    simpl. rewrite Him, Hs. simpl.
    destruct (bool_decide (length (np_array_shape im) = 2%nat)); simpl.
    + by apply IH.
    + rewrite IH by done. by rewrite <- !app_assoc.
Qed.

Lemma collect_paths_spec root rows : forall images text_annotations,
  CUBDataset.collect_paths root rows images text_annotations
  = (images ++ map (fun row => os_path.join root ["images"; row.1]) rows,
     text_annotations
       ++ map (fun row =>
                 os_path.join root
                   ["text_c10"; row.2;
                    (os_path.basename (os_path.splitext row.1).1 ++ ".txt")%string])
              rows).
Proof.
  induction rows as [| [img_path cls_] rest IH]; intros images text_annotations.
  - by rewrite !app_nil_r.
  - simpl. rewrite IH. by rewrite <- !app_assoc.
Qed.

(** What a successful construction went through, step by step. *)
Lemma init_Ok_inv {R : RandomSource} w root mode tr pre ml g self :
  (CUBDataset.__init__ w root mode tr pre ml g).1 = Ok self ->
  exists img_path_map train_test_map img_label_map label_cls_map
         img_cls_map images text_annotations,
    let index := pd.index img_path_map in
    let rows := zip (pd.values (pd.col1 img_path_map)) (pd.values img_cls_map) in
    isdir w root = true
    /\ from_pretrained w pre = Ok (CUBDataset.tokenizer self)
    /\ CUBDataset.read_tables w root
       = Ok (img_path_map, train_test_map, img_label_map, label_cls_map)
    /\ CUBDataset.class_names index img_label_map label_cls_map = Ok img_cls_map
    /\ pd.mk_Series (CUBDataset.collect_paths root rows [] []).1 index = Ok images
    /\ pd.mk_Series (CUBDataset.collect_paths root rows [] []).2 index
       = Ok text_annotations
    /\ CUBDataset.select_split mode index train_test_map images text_annotations
       = Ok (CUBDataset.images self, CUBDataset.text_annotations self)
    /\ CUBDataset.remove_grayscale w
         (zip (pd.values (CUBDataset.images self))
              (pd.values (CUBDataset.text_annotations self))) [] []
       = Ok (CUBDataset.filtered_images self, CUBDataset.filtered_annotations self)
    /\ CUBDataset.mode self = mode
    /\ CUBDataset.root self = root.
Proof.
  unfold CUBDataset.__init__, lift; simpl.
  destruct (isdir w root); simpl; [| discriminate].
  intros H.
  apply bind_Ok_inv in H as (tok & Htok & H).
  apply bind_Ok_inv in H as ([[[ipm ttm] ilm] lcm] & Htab & H).
  apply bind_Ok_inv in H as (icm & Hicm & H).
  destruct (CUBDataset.collect_paths root _ [] []) as [ims0 tas0] eqn:Hcp.
  apply bind_Ok_inv in H as (ims & Hims & H).
  apply bind_Ok_inv in H as (tas & Htas & H).
  apply bind_Ok_inv in H as ([ims' tas'] & Hsel & H).
  apply bind_Ok_inv in H as ([fi fa] & Hrg & H).
  injection H as <-. simpl.
  exists ipm, ttm, ilm, lcm, icm, ims, tas. simpl.
  rewrite Hcp. simpl. by repeat split.
Qed.

Lemma Sample_init_train :
  (CUBDataset.__init__ (R := counter_source) Sample.corpus
     "cub" "train" None "bert-base-cased" 64 0%nat).1 = Ok Sample.train_set.
Proof. reflexivity. Qed.

Lemma Sample_init_test :
  (CUBDataset.__init__ (R := counter_source) Sample.corpus
     "cub" "val" None "bert-base-cased" 64 0%nat).1 = Ok Sample.test_set.
Proof. reflexivity. Qed.

(** ** C2: the two filtered lists have the same length *)

(** C2. After every successful construction the two filtered lists have
    the same length, and [__len__] then returns that length; on any
    instance, constructed or not, [__len__] compares the two lengths first
    and raises [AssertionError] exactly when they differ. *)
Theorem CUBDataset_len_invariant {R : RandomSource} (w : World) :
  (forall root mode tr pre ml g self,
      (CUBDataset.__init__ w root mode tr pre ml g).1 = Ok self ->
      length (CUBDataset.filtered_images self)
      = length (CUBDataset.filtered_annotations self)
      /\ CUBDataset.__len__ self
         = Ok (Z.of_nat (length (CUBDataset.filtered_images self))))
  /\ (forall self : CUBDataset.t,
         CUBDataset.__len__ self = Raise AssertionError
         <-> length (CUBDataset.filtered_images self)
             <> length (CUBDataset.filtered_annotations self))
  /\ (forall (self : CUBDataset.t) n,
         CUBDataset.__len__ self = Ok n ->
         length (CUBDataset.filtered_images self)
         = length (CUBDataset.filtered_annotations self)
         /\ n = Z.of_nat (length (CUBDataset.filtered_images self))).
Proof.
  assert (Hlen : forall self : CUBDataset.t,
             length (CUBDataset.filtered_images self)
             = length (CUBDataset.filtered_annotations self) ->
             CUBDataset.__len__ self
             = Ok (Z.of_nat (length (CUBDataset.filtered_images self)))).
  { intros self Heq. unfold CUBDataset.__len__.
    by rewrite bool_decide_eq_true_2. }
  split; [| split].
  - intros root mode tr pre ml g self Hinit.
    destruct (init_Ok_inv _ _ _ _ _ _ _ _ Hinit)
      as (? & ? & ? & ? & ? & ? & ? & _ & _ & _ & _ & _ & _ & _ & Hrg & _).
    apply remove_grayscale_Ok in Hrg as (_ & Hfi & Hfa).
    assert (length (CUBDataset.filtered_images self)
            = length (CUBDataset.filtered_annotations self)) as Heq.
    { rewrite Hfi, Hfa. simpl. by rewrite !length_map. }
    split; [done | by apply Hlen].
  - intros self. unfold CUBDataset.__len__. case_bool_decide as Heq.
    + split; [discriminate | done].
    + split; [done | reflexivity].
  - intros self n. unfold CUBDataset.__len__. case_bool_decide as Heq.
    + intros [= <-]. done.
    + discriminate.
Qed.

Lemma CUBDataset_len_invariant_witness :
  length (CUBDataset.filtered_images Sample.train_set)
  = length (CUBDataset.filtered_annotations Sample.train_set)
  /\ CUBDataset.__len__ Sample.train_set = Ok 1.
Proof.
  exact (proj1 (CUBDataset_len_invariant (R := counter_source) Sample.corpus)
           "cub" "train" None "bert-base-cased" 64 0%nat Sample.train_set
           eq_refl).
Defined.

(** ** Reading lines and choosing one *)

Lemma translate_newlines_empty s : translate_newlines s = "" -> s = "".
Proof.
  destruct s as [| c s']; [done |]. simpl.
  case_bool_decide; [| discriminate].
  destruct s' as [| d s'']; [discriminate |]. by case_bool_decide.
Qed.

Lemma lines_from_nil s : forall cur, lines_from cur s = [] -> cur = "" /\ s = "".
Proof.
  induction s as [| c s' IH]; intros cur; simpl.
  - by case_bool_decide.
  - case_bool_decide as Hc; [discriminate |].
    intros Hnil. apply IH in Hnil as [Hcur _]. by destruct cur.
Qed.

(** [readlines] gives no line only for the empty file. *)
Lemma readlines_nil content : readlines content = [] <-> content = "".
Proof.
  split; [| by intros ->].
  intros H. apply lines_from_nil in H as [_ H].
  by apply translate_newlines_empty.
Qed.

Lemma lines_from_nonempty s : forall cur,
  Forall (fun line => line <> "") (lines_from cur s).
Proof.
  induction s as [| c s' IH]; intros cur; simpl.
  - case_bool_decide; [constructor | by constructor].
  - case_bool_decide; [| apply IH].
    constructor; [by destruct cur | apply IH].
Qed.

(** Every element of [readlines] has at least one character: a line keeps
    its terminator, so a blank line is the one-character string [\n]. *)
Lemma readlines_nonempty content :
  Forall (fun line => line <> "") (readlines content).
Proof. apply lines_from_nonempty. Qed.

Lemma random_choice_nil {R : RandomSource} {A} g :
  random_choice (A := A) [] g = (Raise IndexError, g).
Proof. reflexivity. Qed.

(** On a sequence that is not empty, [random.choice] returns the element at
    the position that [_randbelow(len(seq))] draws. *)
Lemma random_choice_draw {R : RandomSource} {A} (seq : list A) g :
  seq <> [] ->
  let i := (randbelow g (length seq)).1 in
  (i < length seq)%nat
  /\ exists x, seq !! i = Some x
               /\ random_choice seq g = (Ok x, (randbelow g (length seq)).2).
Proof.
  intros Hne. simpl.
  assert (0 < length seq)%nat as Hpos by (destruct seq; [done | simpl; lia]).
  pose proof (randbelow_lt g (length seq) Hpos) as Hlt.
  split; [done |].
  destruct (lookup_lt_is_Some_2 seq _ Hlt) as [x Hx].
  exists x. split; [done |].
  unfold random_choice. destruct seq as [| y seq']; [done |].
  destruct (randbelow g (length (y :: seq'))) as [i g'] eqn:Hdraw. simpl in *.
  f_equal. apply list_getitem_nonneg; [lia |]. by rewrite Nat2Z.id.
Qed.

(** ** CUBDataset.__getitem__ step by step *)

Lemma getitem_unfold {R : RandomSource} w self idx g :
  CUBDataset.__getitem__ w self idx g =
  match list_getitem (CUBDataset.filtered_images self) idx with
  | Raise e => (Raise e, g)
  | Ok img_path =>
      match list_getitem (CUBDataset.filtered_annotations self) idx with
      | Raise e => (Raise e, g)
      | Ok annotation_path =>
          match image_steps w self img_path g with
          | (Raise e, g1) => (Raise e, g1)
          | (Ok (img, img_low_res), g1) =>
              match open_read w annotation_path with
              | Raise e => (Raise e, g1)
              | Ok fp =>
                  match random_choice (readlines fp) g1 with
                  | (Ok annotation, g') => (Ok (img, img_low_res, annotation), g')
                  | (Raise e, g') => (Raise e, g')
                  end
              end
          end
      end
  end.
Proof.
  unfold CUBDataset.__getitem__, image_steps, py_bind, lift, py_ret.
  destruct (list_getitem (CUBDataset.filtered_images self) idx)
    as [img_path|]; [| done].
  destruct (list_getitem (CUBDataset.filtered_annotations self) idx)
    as [annotation_path|]; [| done].
  destruct (Image_open w img_path) as [im|e]; simpl; [| done].
  destruct (match CUBDataset.transform self with
            | Some f => f (PILImg im)
            | None => fun g0 => (Ok (PILImg im), g0)
            end g) as [[img|e] g1]; simpl; [| done].
  destruct (Resize w (128%nat, 128%nat) img); simpl; [| done].
  destruct (open_read w annotation_path) as [fp|]; simpl; [| done].
  by destruct (random_choice (readlines fp) g1) as [[?|?] ?].
Qed.

(** The image part step by step. *)
Lemma image_steps_unfold {R : RandomSource} w self img_path g :
  image_steps w self img_path g =
  match Image_open w img_path with
  | Raise e => (Raise e, g)
  | Ok im =>
      match (match CUBDataset.transform self with
             | Some f => f (PILImg im)
             | None => py_ret (PILImg im)
             end) g with
      | (Raise e, g1) => (Raise e, g1)
      | (Ok img, g1) =>
          match Resize w (128%nat, 128%nat) img with
          | Raise e => (Raise e, g1)
          | Ok img_low_res => (Ok (img, img_low_res), g1)
          end
      end
  end.
Proof.
  unfold image_steps, py_bind, lift, py_ret.
  destruct (Image_open w img_path) as [im|e]; simpl; [| done].
  destruct (match CUBDataset.transform self with
            | Some f => f (PILImg im)
            | None => fun g0 => (Ok (PILImg im), g0)
            end g) as [[img|e] g1]; simpl; [| done].
  by destruct (Resize w (128%nat, 128%nat) img).
Qed.

(** With a transform that does not use the generator, or with none, the
    image part gives the same result in every state of the generator and
    leaves the state as it is. *)
Lemma image_steps_generator_free_result {R : RandomSource} w self img_path :
  generator_free self ->
  exists r, forall g, image_steps w self img_path g = (r, g).
Proof.
  intros Hfree. unfold generator_free in Hfree.
  destruct (Image_open w img_path) as [im|e] eqn:Him.
  - destruct (CUBDataset.transform self) as [f|] eqn:Htr.
    + destruct Hfree as [f0 Hf].
      destruct (f0 (PILImg im)) as [img|e] eqn:Hf0.
      * destruct (Resize w (128%nat, 128%nat) img) as [low|e] eqn:Hres.
        -- exists (Ok (img, low)). intros g.
           by rewrite image_steps_unfold, Him, Htr, Hf, Hf0, Hres.
        -- exists (Raise e). intros g.
           by rewrite image_steps_unfold, Him, Htr, Hf, Hf0, Hres.
      * exists (Raise e). intros g.
        by rewrite image_steps_unfold, Him, Htr, Hf, Hf0.
    + destruct (Resize w (128%nat, 128%nat) (PILImg im)) as [low|e] eqn:Hres.
      * exists (Ok (PILImg im, low)). intros g.
        rewrite image_steps_unfold, Him, Htr. unfold py_ret. by rewrite Hres.
      * exists (Raise e). intros g.
        rewrite image_steps_unfold, Him, Htr. unfold py_ret. by rewrite Hres.
  - exists (Raise e). intros g. by rewrite image_steps_unfold, Him.
Qed.

Lemma image_steps_generator_free {R : RandomSource} w self img_path g :
  generator_free self ->
  (image_steps w self img_path g).2 = g.
Proof.
  intros Hfree.
  destruct (image_steps_generator_free_result w self img_path Hfree) as [r Hr].
  by rewrite Hr.
Qed.

(** ** C3: the caption *)

(** C3, as stated, fails: in the sample corpus the annotation file of the
    first training row has a blank second line, and with the generator in a
    state whose draw is 1 the caption returned is that blank line, which is
    not among the non-empty lines of the file. *)
Lemma CUBDataset_getitem_blank_caption :
  let content := String "a" (String LF (String LF (String "b" (String LF "")))) in
  list_getitem (CUBDataset.filtered_annotations Sample.train_set) 0
  = Ok "cub/text_c10/001.A/a_1.txt"
  /\ text_files Sample.corpus !! "cub/text_c10/001.A/a_1.txt" = Some content
  /\ nonempty_lines content = [String "a" (String LF ""); String "b" (String LF "")]
  /\ (exists img img_low_res,
         (CUBDataset.__getitem__ (R := counter_source) Sample.corpus
            Sample.train_set 0 1%nat).1
         = Ok (img, img_low_res, String LF ""))
  /\ ~ In (String LF "") (nonempty_lines content).
Proof.
  simpl. split; [reflexivity |]. split; [reflexivity |].
  split; [reflexivity |]. split.
  - eexists _, _. reflexivity.
  - vm_compute. intros [H | [H | []]]; discriminate H.
Qed.

(** C3, amended.  For an index that the two filtered lists resolve,
    [__getitem__] opens the annotation file at that position and reads all
    of its lines, blank ones included, each with its terminator.  If the
    file is absent or empty the call fails (after the image is loaded, with
    [FileNotFoundError] resp. the [IndexError] of [random.choice]).
    Otherwise the caption is the line at the position that
    [_randbelow(len(lines))] draws in the state in which the image part
    left the generator (the state of the call itself when the transform
    does not use the generator), so that a uniform draw chooses uniformly
    among all the lines; and whatever caption a call returns is a line of
    that file at the drawn position. *)
Theorem CUBDataset_getitem_caption {R : RandomSource} (w : World)
    (self : CUBDataset.t) (idx : Z) (g : RandomState)
    (img_path annotation_path : string) :
  list_getitem (CUBDataset.filtered_images self) idx = Ok img_path ->
  list_getitem (CUBDataset.filtered_annotations self) idx = Ok annotation_path ->
  (text_files w !! annotation_path = None
   \/ text_files w !! annotation_path = Some "" ->
   raises (CUBDataset.__getitem__ w self idx g).1)
  /\ (forall img img_low_res g1,
         image_steps w self img_path g = (Ok (img, img_low_res), g1) ->
         match text_files w !! annotation_path with
         | None =>
             CUBDataset.__getitem__ w self idx g = (Raise FileNotFoundError, g1)
         | Some content =>
             let lines := readlines content in
             let draw := randbelow g1 (length lines) in
             if bool_decide (content = "") then
               CUBDataset.__getitem__ w self idx g = (Raise IndexError, g1)
             else
               (draw.1 < length lines)%nat
               /\ exists caption,
                   lines !! draw.1 = Some caption
                   /\ caption <> ""
                   /\ CUBDataset.__getitem__ w self idx g
                      = (Ok (img, img_low_res, caption), draw.2)
         end)
  /\ (forall img img_low_res caption g',
         CUBDataset.__getitem__ w self idx g
         = (Ok (img, img_low_res, caption), g') ->
         exists content g1,
           image_steps w self img_path g = (Ok (img, img_low_res), g1)
           /\ (generator_free self -> g1 = g)
           /\ text_files w !! annotation_path = Some content
           /\ readlines content !! (randbelow g1 (length (readlines content))).1
              = Some caption
           /\ In caption (readlines content)).
Proof.
  intros Hfi Hfa.
  assert (Hprecise : forall img img_low_res g1,
    image_steps w self img_path g = (Ok (img, img_low_res), g1) ->
    match text_files w !! annotation_path with
    | None =>
        CUBDataset.__getitem__ w self idx g = (Raise FileNotFoundError, g1)
    | Some content =>
        if bool_decide (content = "") then
          CUBDataset.__getitem__ w self idx g = (Raise IndexError, g1)
        else
          ((randbelow g1 (length (readlines content))).1
           < length (readlines content))%nat
          /\ exists caption,
              readlines content !! (randbelow g1 (length (readlines content))).1
              = Some caption
              /\ caption <> ""
              /\ CUBDataset.__getitem__ w self idx g
                 = (Ok (img, img_low_res, caption),
                    (randbelow g1 (length (readlines content))).2)
    end).
  { intros img img_low_res g1 Himg.
    rewrite getitem_unfold, Hfi, Hfa, Himg. unfold open_read.
    destruct (text_files w !! annotation_path) as [content|]; [| done].
    case_bool_decide as Hcontent; [by subst |].
    assert (readlines content <> []) as Hlines
      by (by rewrite readlines_nil).
    destruct (random_choice_draw (readlines content) g1 Hlines)
      as (Hlt & caption & Hcap & Hchoice).
    split; [done |]. exists caption. split; [done |]. split.
    - pose proof (readlines_nonempty content) as Hall.
      rewrite Forall_forall in Hall. apply Hall.
      apply list_elem_of_lookup. eauto.
    - by rewrite Hchoice. }
  split; [| split].
  - intros Hfile. rewrite getitem_unfold, Hfi, Hfa.
    destruct (image_steps w self img_path g) as [[[img low]|e] g1]; [| done].
    unfold open_read.
    destruct Hfile as [-> | ->]; [done |].
    change (readlines "") with (@nil string). by rewrite random_choice_nil.
  - exact Hprecise.
  - intros img img_low_res caption g' Hget.
    assert (exists g1,
      image_steps w self img_path g = (Ok (img, img_low_res), g1))
      as [g1 Himg].
    { rewrite getitem_unfold, Hfi, Hfa in Hget.
      destruct (image_steps w self img_path g) as [[[img0 low0]|e] g1];
        [| discriminate].
      destruct (open_read w annotation_path) as [fp|]; [| discriminate].
      destruct (random_choice (readlines fp) g1) as [[a|e] g0];
        [| discriminate].
      exists g1. by injection Hget as -> -> _ _. }
    specialize (Hprecise img img_low_res g1 Himg).
    destruct (text_files w !! annotation_path) as [content|];
      [| by rewrite Hget in Hprecise].
    case_bool_decide; [by rewrite Hget in Hprecise |].
    destruct Hprecise as (_ & caption' & Hcap & _ & Hget').
    rewrite Hget in Hget'. injection Hget' as -> _.
    exists content, g1. split; [done |]. split.
    { intros Hfree.
      pose proof (image_steps_generator_free w self img_path g Hfree) as Hg.
      by rewrite Himg in Hg. }
    split; [done |]. split; [done |].
    apply list_elem_of_In, list_elem_of_lookup. eauto.
Qed.

Lemma CUBDataset_getitem_caption_witness :
  raises (CUBDataset.__getitem__ (R := counter_source) Sample.corpus
            Sample.test_set 0 0%nat).1
  /\ exists content,
       text_files Sample.corpus !! "cub/text_c10/001.A/a_1.txt" = Some content
       /\ In (String "b" (String LF "")) (readlines content).
Proof.
  destruct (CUBDataset_getitem_caption (R := counter_source) Sample.corpus
              Sample.test_set 0 0%nat
              "cub/images/002.B/b_1.png" "cub/text_c10/002.B/b_1.txt"
              eq_refl eq_refl) as (Hfail & _ & _).
  split; [apply Hfail; right; reflexivity |].
  destruct (CUBDataset_getitem_caption (R := counter_source) Sample.corpus
              Sample.train_set 0 2%nat
              "cub/images/001.A/a_1.jpg" "cub/text_c10/001.A/a_1.txt"
              eq_refl eq_refl) as (_ & _ & Hline).
  destruct (Hline (PILImg Sample.rgb)
              (PILImg {| PIL.mode := PIL.RGB; PIL.width := 128;
                         PIL.height := 128; PIL.pixels := [] |})
              (String "b" (String LF "")) 3%nat eq_refl)
    as (content & g1 & _ & _ & Hcontent & _ & Hin).
  exists content. split; [exact Hcontent | exact Hin].
Defined.

(** ** pandas: selection by label and by mask *)

Lemma rows_with_label_nil {A} (s : pd.Series A) k :
  ~ In k (pd.index s) -> pd.rows_with_label s k = [].
Proof.
  unfold pd.rows_with_label, pd.index.
  induction s as [| [k' v] s' IH]; simpl; [done |].
  intros Hk. case_bool_decide as Heq; simpl in *.
  - destruct Hk. by left.
  - apply IH. intros Hin. destruct Hk. by right.
Qed.

(** With unique labels, a label selects the one row that carries it. *)
Lemma rows_with_label_unique {A} (s : pd.Series A) k v :
  NoDup (pd.index s) -> In (k, v) s -> pd.rows_with_label s k = [(k, v)].
Proof.
  unfold pd.rows_with_label, pd.index.
  induction s as [| [k' v'] s' IH]; simpl; [done |].
  intros Hnd Hin. apply NoDup_cons in Hnd as [Hk' Hnd].
  destruct Hin as [[= -> ->] | Hin].
  - rewrite bool_decide_eq_true_2 by done. f_equal.
    apply (rows_with_label_nil s' k).
    by rewrite <- list_elem_of_In.
  - case_bool_decide as Heq; simpl in Heq.
    + subst k'. destruct Hk'. apply list_elem_of_In.
      change (In (k, v).1 (map fst s')). by apply in_map.
    + by apply IH.
Qed.

(** A key that labels no row makes [loc] raise [KeyError]. *)
Lemma loc_KeyError {A} (s : pd.Series A) keys :
  (exists k, In k keys /\ ~ In k (pd.index s)) -> pd.loc s keys = Raise KeyError.
Proof.
  unfold pd.loc. intros (k & Hin & Hk).
  induction keys as [| k' keys' IH]; [done |]. simpl.
  destruct (pd.rows_with_label s k') as [| r rs] eqn:Hrows; [done |]. simpl.
  destruct Hin as [-> | Hin].
  - by rewrite (rows_with_label_nil s k) in Hrows.
  - specialize (IH Hin).
    destruct (mapM _ keys') as [rows|e]; simpl in *; [discriminate | done].
Qed.

(** With unique labels that cover the keys, [loc] gives one row per key. *)
Lemma loc_unique_length {A} (s : pd.Series A) keys :
  NoDup (pd.index s) -> (forall k, In k keys -> In k (pd.index s)) ->
  exists rows, pd.loc s keys = Ok rows /\ length rows = length keys.
Proof.
  unfold pd.loc. intros Hnd.
  induction keys as [| k keys' IH]; intros Hkeys; simpl.
  - by exists [].
  - assert (In k (pd.index s)) as Hk by (apply Hkeys; by left).
    apply in_map_iff in Hk as ([k0 v] & Hfst & Hrow). simpl in Hfst. subst k0.
    rewrite (rows_with_label_unique s k v Hnd Hrow). simpl.
    destruct IH as (rows & Hloc & Hlen); [intros; apply Hkeys; by right |].
    destruct (mapM _ keys') as [rs|]; simpl in *; [| discriminate].
    injection Hloc as <-. eexists. split; [done |]. simpl. by rewrite Hlen.
Qed.

(** With unique labels, asking for the labels of rows of the series gives
    these rows back, in the order asked. *)
Lemma loc_members {A} (s : pd.Series A) (rows : list (Z * A)) :
  NoDup (pd.index s) -> (forall r, In r rows -> In r s) ->
  pd.loc s (pd.index rows) = Ok rows.
Proof.
  unfold pd.loc. intros Hnd.
  induction rows as [| [k v] rows' IH]; intros Hrows; simpl; [done |].
  rewrite (rows_with_label_unique s k v Hnd) by (apply Hrows; by left). simpl.
  specialize (IH (fun r Hr => Hrows r (or_intror Hr))).
  destruct (mapM _ (pd.index rows')) as [rs|]; simpl in *; [| discriminate].
  by injection IH as ->.
Qed.

Lemma masked_index {A} (s : pd.Series A) : forall mask,
  masked (pd.index s) mask = pd.index (masked s mask).
Proof.
  unfold masked, pd.index.
  induction s as [| r s' IH]; intros [| b mask']; simpl; try done.
  destruct b; simpl; by rewrite IH.
Qed.

Lemma masked_sublist {A} (xs : list A) : forall mask,
  masked xs mask `sublist_of` xs.
Proof.
  unfold masked.
  induction xs as [| x xs' IH]; intros [| b mask']; simpl;
    try apply sublist_nil_l.
  destruct b; simpl; [apply sublist_skip | apply sublist_cons]; apply IH.
Qed.

Lemma masked_In {A} (xs : list A) mask x : In x (masked xs mask) -> In x xs.
Proof.
  intros Hin. apply list_elem_of_In. apply list_elem_of_In in Hin.
  eapply elem_of_sublist; [done | apply masked_sublist].
Qed.

Lemma index_getitem_masked {A} (index : list A) (mask : pd.Series bool) :
  length mask = length index ->
  pd.index_getitem index mask = Ok (masked index (pd.values mask)).
Proof.
  intros Hlen. unfold pd.index_getitem. by rewrite bool_decide_eq_true_2.
Qed.

Lemma index_getitem_IndexError {A} (index : list A) (mask : pd.Series bool) :
  length mask <> length index -> pd.index_getitem index mask = Raise IndexError.
Proof.
  intros Hlen. unfold pd.index_getitem. by rewrite bool_decide_eq_false_2.
Qed.

Lemma eq_scalar_values s code :
  pd.values (pd.eq_scalar s code) = split_mask s code.
Proof.
  unfold pd.values, pd.eq_scalar, split_mask, pd.values, pd.col1.
  rewrite !map_map. by apply map_ext.
Qed.

(** With unique ids, the split selection keeps the rows at the positions
    where the split table holds the requested code. *)
Lemma select_split_unique {A} mode (train_test_map : pd.DataFrame Z)
    (images text_annotations : pd.Series A) index :
  pd.index images = index -> pd.index text_annotations = index ->
  NoDup index -> length train_test_map = length index ->
  CUBDataset.select_split mode index train_test_map images text_annotations
  = Ok (masked images (split_mask train_test_map (CUBDataset.filter_code mode)),
        masked text_annotations
          (split_mask train_test_map (CUBDataset.filter_code mode))).
Proof.
  intros Hi Ht Hnd Hlen. unfold CUBDataset.select_split.
  rewrite index_getitem_masked
    by (unfold pd.eq_scalar, pd.col1; by rewrite length_map).
  simpl. rewrite eq_scalar_values.
  rewrite <- Hi at 1. rewrite masked_index, loc_members;
    [| by rewrite Hi | apply masked_In]. simpl.
  rewrite <- Ht at 1. rewrite masked_index, loc_members;
    [| by rewrite Ht | apply masked_In]. done.
Qed.

(** ** C4: ids are matched by position, not joined *)

Lemma mk_Series_Ok {A} (data : list A) index :
  length data = length index -> pd.mk_Series data index = Ok (zip index data).
Proof. intros Hlen. unfold pd.mk_Series. by rewrite bool_decide_eq_true_2. Qed.

Lemma mk_Series_ValueError {A} (data : list A) index :
  length data <> length index -> pd.mk_Series data index = Raise ValueError.
Proof. intros Hlen. unfold pd.mk_Series. by rewrite bool_decide_eq_false_2. Qed.

Lemma zip_values {A} (index : list Z) (data : list A) :
  length data = length index -> pd.values (zip index data) = data.
Proof. intros Hlen. unfold pd.values. apply snd_zip. lia. Qed.

Lemma zip_index {A} (index : list Z) (data : list A) :
  length data = length index -> pd.index (zip index data) = index.
Proof. intros Hlen. unfold pd.index. apply fst_zip. lia. Qed.

(** C4, as stated, fails: with id 2 missing from the class-label table
    construction raises [ValueError], and with id 2 missing from the split
    table it raises [IndexError]; in neither case is the id skipped. *)
Lemma CUBDataset_init_missing_id_fails :
  (CUBDataset.__init__ (R := counter_source) Sample.no_label_for_2
     "cub" "train" None "bert-base-cased" 64 0%nat).1 = Raise ValueError
  /\ (CUBDataset.__init__ (R := counter_source) Sample.no_split_for_2
        "cub" "train" None "bert-base-cased" 64 0%nat).1 = Raise IndexError.
Proof. split; reflexivity. Qed.

(** C4, amended.  Construction joins nothing by id: the class-label and
    split tables are matched to the image-path table by row position, and
    their own ids are never read.  With the class names uniquely keyed, a
    class-label table whose number of rows differs from that of the
    image-path table (as when an id is missing from it) makes construction
    fail with [ValueError]; otherwise a split table whose number of rows
    differs makes it fail with [IndexError]; and a class label with no row
    in the class-name table makes it fail with [KeyError].  No id is
    skipped. *)
Theorem CUBDataset_init_positional {R : RandomSource} (w : World)
    (root mode : string) (tr : option (Img -> Py Img)) (pre : string)
    (ml : Z) (g : RandomState) (tok : Tokenizer)
    (img_path_map : pd.DataFrame string) (train_test_map img_label_map : pd.DataFrame Z)
    (label_cls_map : pd.DataFrame string) :
  isdir w root = true ->
  from_pretrained w pre = Ok tok ->
  CUBDataset.read_tables w root
  = Ok (img_path_map, train_test_map, img_label_map, label_cls_map) ->
  ((exists label, In label (pd.values img_label_map)
                  /\ ~ In label (pd.index label_cls_map)) ->
   CUBDataset.__init__ w root mode tr pre ml g = (Raise KeyError, g))
  /\ (NoDup (pd.index label_cls_map) ->
      (forall label, In label (pd.values img_label_map) ->
                     In label (pd.index label_cls_map)) ->
      (length img_label_map <> length img_path_map ->
       CUBDataset.__init__ w root mode tr pre ml g = (Raise ValueError, g))
      /\ (length img_label_map = length img_path_map ->
          length train_test_map <> length img_path_map ->
          CUBDataset.__init__ w root mode tr pre ml g = (Raise IndexError, g)))
  /\ (forall (img_label_map' train_test_map' : pd.DataFrame Z),
         pd.values img_label_map' = pd.values img_label_map ->
         pd.values train_test_map' = pd.values train_test_map ->
         CUBDataset.class_names (pd.index img_path_map) img_label_map' label_cls_map
         = CUBDataset.class_names (pd.index img_path_map) img_label_map label_cls_map
         /\ forall (images text_annotations : pd.Series string),
             CUBDataset.select_split mode (pd.index img_path_map)
               train_test_map' images text_annotations
             = CUBDataset.select_split mode (pd.index img_path_map)
                 train_test_map images text_annotations).
Proof.
  intros Hdir Htok Htab.
  assert (Hstart : CUBDataset.__init__ w root mode tr pre ml g
    = (img_cls_map ← CUBDataset.class_names (pd.index img_path_map)
                       img_label_map label_cls_map;
       let '(images, text_annotations) :=
         CUBDataset.collect_paths root
           (zip (pd.values (pd.col1 img_path_map)) (pd.values img_cls_map))
           [] [] in
       images ← pd.mk_Series images (pd.index img_path_map);
       text_annotations ← pd.mk_Series text_annotations (pd.index img_path_map);
       '(images, text_annotations)
         ← CUBDataset.select_split mode (pd.index img_path_map) train_test_map
             images text_annotations;
       '(filtered_images, filtered_annotations)
         ← CUBDataset.remove_grayscale w
             (zip (pd.values images) (pd.values text_annotations)) [] [];
       Ok {| CUBDataset.root := root; CUBDataset.mode := mode;
             CUBDataset.transform := tr; CUBDataset.pretrained := pre;
             CUBDataset.tokenizer := tok; CUBDataset.max_length := ml;
             CUBDataset.images := images;
             CUBDataset.text_annotations := text_annotations;
             CUBDataset.filtered_images := filtered_images;
             CUBDataset.filtered_annotations := filtered_annotations |}, g)).
  { unfold CUBDataset.__init__, lift. by rewrite Hdir, Htok, Htab. }
  split; [| split].
  - intros Hmissing. rewrite Hstart. unfold CUBDataset.class_names, pd.col1.
    by rewrite (loc_KeyError _ _ Hmissing).
  - intros Hnd Hcover.
    destruct (loc_unique_length (pd.col1 label_cls_map)
                (pd.values (pd.col1 img_label_map)) Hnd Hcover)
      as (named & Hloc & Hlen).
    assert (length (pd.values named) = length img_label_map) as Hnamed.
    { unfold pd.values, pd.col1 in *. by rewrite length_map, Hlen, length_map. }
    assert (length (pd.index img_path_map) = length img_path_map) as Hindex
      by (unfold pd.index; by rewrite length_map).
    split.
    + intros Hne. rewrite Hstart. unfold CUBDataset.class_names.
      rewrite Hloc. simpl. rewrite mk_Series_ValueError; [done | lia].
    + intros Heq Hne. rewrite Hstart. unfold CUBDataset.class_names.
      rewrite Hloc. simpl. rewrite mk_Series_Ok by lia. simpl.
      rewrite collect_paths_spec. simpl.
      rewrite zip_values by lia.
      assert (length (zip (pd.values (pd.col1 img_path_map)) (pd.values named))
              = length (pd.index img_path_map)) as Hzip.
      { rewrite length_zip. unfold pd.values, pd.col1.
        rewrite !length_map. unfold pd.values in Hnamed.
        rewrite length_map in Hnamed. lia. }
      rewrite !mk_Series_Ok by (by rewrite length_map). simpl.
      unfold CUBDataset.select_split.
      rewrite index_getitem_IndexError; [done |].
      unfold pd.eq_scalar, pd.col1. rewrite length_map. lia.
  - intros ilm' ttm' Hilm Httm. split.
    + unfold CUBDataset.class_names, pd.col1. by rewrite Hilm.
    + intros images text_annotations. unfold CUBDataset.select_split.
      assert (Hmask : forall (s : pd.Series bool),
                 pd.index_getitem (pd.index img_path_map) s
                 = if bool_decide (length (pd.values s)
                                   = length (pd.index img_path_map))
                   then Ok (masked (pd.index img_path_map) (pd.values s))
                   else Raise IndexError).
      { intros s. unfold pd.index_getitem, pd.values.
        rewrite length_map. done. }
      rewrite !Hmask, !eq_scalar_values. unfold split_mask, pd.col1.
      by rewrite Httm.
Qed.

Lemma CUBDataset_init_positional_witness :
  CUBDataset.__init__ (R := counter_source) Sample.no_label_for_2
    "cub" "train" None "bert-base-cased" 64 0%nat = (Raise ValueError, 0%nat)
  /\ CUBDataset.__init__ (R := counter_source) Sample.no_split_for_2
       "cub" "train" None "bert-base-cased" 64 0%nat = (Raise IndexError, 0%nat).
Proof.
  split.
  - destruct (CUBDataset_init_positional (R := counter_source)
                Sample.no_label_for_2 "cub" "train" None "bert-base-cased" 64
                0%nat Sample.byte_tokenizer Sample.images_txt
                Sample.train_test_split_txt [(1, 1); (3, 2)] Sample.classes_txt
                eq_refl eq_refl eq_refl) as (_ & Hrows & _).
    apply Hrows.
    + apply (bool_decide_unpack _). reflexivity.
    + simpl. intros label [<- | [<- | []]]; simpl; tauto.
    + simpl. lia.
  - destruct (CUBDataset_init_positional (R := counter_source)
                Sample.no_split_for_2 "cub" "train" None "bert-base-cased" 64
                0%nat Sample.byte_tokenizer Sample.images_txt
                [(1, 0); (3, 1)] Sample.image_class_labels_txt Sample.classes_txt
                eq_refl eq_refl eq_refl) as (_ & Hrows & _).
    apply Hrows.
    + apply (bool_decide_unpack _). reflexivity.
    + simpl. intros label [<- | [<- | [<- | []]]]; simpl; tauto.
    + reflexivity.
    + simpl. lia.
Defined.

(** ** The selections as sublists *)

Lemma filter_zip_fst_sublist {A B} (P : A * B -> bool) (xs : list A) :
  forall ys : list B, map fst (List.filter P (zip xs ys)) `sublist_of` xs.
Proof.
  induction xs as [| x xs' IH]; intros [| y ys']; simpl;
    try apply sublist_nil_l.
  destruct (P (x, y)); simpl; [apply sublist_skip | apply sublist_cons];
    apply IH.
Qed.

Lemma filter_zip_values {A} (P : string * A -> bool) (s : pd.Series string) :
  forall ys : list A,
    map fst (List.filter P (zip (pd.values s) ys))
    = pd.values (map fst (List.filter (fun ra => P (ra.1.2, ra.2)) (zip s ys))).
Proof.
  unfold pd.values.
  induction s as [| [k v] s' IH]; intros [| y ys']; simpl; try done.
  destruct (P (v, y)); simpl; by rewrite IH.
Qed.

Lemma sublist_map {A B} (f : A -> B) (l1 l2 : list A) :
  l1 `sublist_of` l2 -> map f l1 `sublist_of` map f l2.
Proof.
  induction 1; simpl; [constructor | by apply sublist_skip | by apply sublist_cons].
Qed.

Lemma loc_index_In {A} (s : pd.Series A) keys : forall rows,
  pd.loc s keys = Ok rows -> forall k, In k (pd.index rows) <-> In k keys.
Proof.
  unfold pd.loc.
  induction keys as [| k' keys' IH]; intros rows Hloc k; simpl in *.
  - injection Hloc as <-. done.
  - destruct (pd.rows_with_label s k') as [| r rs] eqn:Hrows;
      [discriminate |]. simpl in Hloc.
    destruct (mapM _ keys') as [rss|]; simpl in *; [| discriminate].
    injection Hloc as <-.
    assert (forall row, In row (r :: rs) -> row.1 = k') as Hlabel.
    { intros row Hin. rewrite <- Hrows in Hin.
      apply filter_In in Hin as [_ Hin]. by apply bool_decide_eq_true in Hin. }
    unfold pd.index in *.
    change (In k (map fst ((r :: rs) ++ concat rss)) <-> k' = k \/ In k keys').
    rewrite map_app, in_app_iff, (IH (concat rss) eq_refl k). split.
    + intros [Hin | Hin]; [left | by right].
      apply in_map_iff in Hin as (row & <- & Hin). symmetry. by apply Hlabel.
    + intros [<- | Hin]; [left | by right].
      apply in_map_iff. exists r. split; [apply Hlabel |]; by left.
Qed.

(** The ids of the split selection, as a set: the ids at the positions
    where the split table holds the requested code. *)
Lemma select_split_index_In {A} mode index (train_test_map : pd.DataFrame Z)
    (images text_annotations images' text_annotations' : pd.Series A) :
  CUBDataset.select_split mode index train_test_map images text_annotations
  = Ok (images', text_annotations') ->
  length train_test_map = length index
  /\ forall id, In id (pd.index images')
                <-> In id (masked index
                             (split_mask train_test_map
                                (CUBDataset.filter_code mode))).
Proof.
  unfold CUBDataset.select_split. intros Hsel.
  apply bind_Ok_inv in Hsel as (valid_inds & Hvalid & Hsel).
  apply bind_Ok_inv in Hsel as (ims & Hims & Hsel).
  apply bind_Ok_inv in Hsel as (tas & Htas & Hsel).
  injection Hsel as <- <-.
  unfold pd.index_getitem in Hvalid.
  case_bool_decide as Hlen; [| discriminate]. injection Hvalid as <-.
  unfold pd.eq_scalar, pd.col1 in Hlen. rewrite length_map in Hlen.
  split; [done |]. intros id.
  rewrite (loc_index_In _ _ _ Hims id).
  fold (masked index (pd.values
          (pd.eq_scalar (pd.col1 train_test_map) (CUBDataset.filter_code mode)))).
  by rewrite eq_scalar_values.
Qed.

Lemma mk_Series_inv {A} (data : list A) index s :
  pd.mk_Series data index = Ok s ->
  s = zip index data /\ length data = length index.
Proof.
  unfold pd.mk_Series. case_bool_decide; [| discriminate]. by intros [= <-].
Qed.

(** The decoded array has two dimensions exactly for a single-channel
    image. *)
Lemma np_array_two_dims im :
  length (np_array_shape im) = 2%nat <-> PIL.bands (PIL.mode im) = 1%nat.
Proof.
  unfold np_array_shape. case_bool_decide as Hbands; simpl.
  - done.
  - split; [discriminate | done].
Qed.

Lemma survives_spec w pair im :
  Image_open w pair.1 = Ok im ->
  (survives w pair = true <-> PIL.bands (PIL.mode im) <> 1%nat)
  /\ (survives w pair = false <-> length (np_array_shape im) = 2%nat).
Proof.
  intros Him. unfold survives. rewrite Him.
  rewrite <- np_array_two_dims.
  case_bool_decide as Hdim; simpl.
  - split; split; done.
  - split; split; done.
Qed.

(** ** C5: which rows the second pass removes *)

(** C5, as stated, fails: built from the sample corpus for the test
    split, the loader keeps the row of [b_1.png], an RGBA image with four
    channels. *)
Lemma CUBDataset_init_keeps_four_channels :
  (CUBDataset.__init__ (R := counter_source) Sample.corpus
     "cub" "val" None "bert-base-cased" 64 0%nat).1 = Ok Sample.test_set
  /\ In "cub/images/002.B/b_1.png" (CUBDataset.filtered_images Sample.test_set)
  /\ Image_open Sample.corpus "cub/images/002.B/b_1.png" = Ok Sample.rgba
  /\ PIL.bands (PIL.mode Sample.rgba) = 4%nat
  /\ PIL.bands (PIL.mode Sample.rgba) <> 3%nat.
Proof.
  split; [reflexivity |]. split; [by left |]. split; [reflexivity |].
  split; [reflexivity | discriminate].
Qed.

(** C5, amended.  For every constructed loader the second pass removes
    exactly the rows of the chosen split whose decoded image array has two
    dimensions, that is, whose image has a single channel: the two filtered
    lists are the split's pairs with these rows filtered out, every
    surviving image has a channel count other than one (two, three or four;
    not necessarily three), and every row with a single-channel image is
    dropped. *)
Theorem CUBDataset_init_removes_single_channel {R : RandomSource} (w : World)
    (root mode : string) (tr : option (Img -> Py Img)) (pre : string)
    (ml : Z) (g : RandomState) (self : CUBDataset.t) :
  (CUBDataset.__init__ w root mode tr pre ml g).1 = Ok self ->
  let pairs := zip (pd.values (CUBDataset.images self))
                   (pd.values (CUBDataset.text_annotations self)) in
  CUBDataset.filtered_images self = map fst (List.filter (survives w) pairs)
  /\ CUBDataset.filtered_annotations self
     = map snd (List.filter (survives w) pairs)
  /\ (forall pair, In pair pairs ->
        exists im, Image_open w pair.1 = Ok im
                   /\ (survives w pair = true
                       <-> PIL.bands (PIL.mode im) <> 1%nat)
                   /\ (survives w pair = false
                       <-> length (np_array_shape im) = 2%nat))
  /\ (forall img_path, In img_path (CUBDataset.filtered_images self) ->
        exists im, Image_open w img_path = Ok im
                   /\ PIL.bands (PIL.mode im) <> 1%nat
                   /\ length (np_array_shape im) <> 2%nat).
Proof.
  intros Hinit pairs.
  destruct (init_Ok_inv _ _ _ _ _ _ _ _ Hinit)
    as (? & ? & ? & ? & ? & ? & ? & _ & _ & _ & _ & _ & _ & _ & Hrg & _).
  apply remove_grayscale_Ok in Hrg as (Hopen & Hfi & Hfa). simpl in Hfi, Hfa.
  fold pairs in Hopen, Hfi, Hfa.
  assert (Hpair : forall pair, In pair pairs ->
            exists im, Image_open w pair.1 = Ok im
                       /\ (survives w pair = true
                           <-> PIL.bands (PIL.mode im) <> 1%nat)
                       /\ (survives w pair = false
                           <-> length (np_array_shape im) = 2%nat)).
  { intros pair Hin. rewrite Forall_forall in Hopen.
    specialize (Hopen pair (proj2 (list_elem_of_In _ _) Hin)).
    destruct (Image_open w pair.1) as [im|] eqn:Him; [| done].
    exists im. split; [done |]. by apply survives_spec. }
  split; [done |]. split; [done |]. split; [done |].
  intros img_path Hin. rewrite Hfi in Hin.
  apply in_map_iff in Hin as (pair & <- & Hin).
  apply filter_In in Hin as [Hin Hs].
  destruct (Hpair pair Hin) as (im & Him & Htrue & Hfalse).
  exists im. split; [done |]. split; [by apply Htrue |].
  intros Hdim. apply Hfalse in Hdim. congruence.
Qed.

Lemma CUBDataset_init_removes_single_channel_witness :
  CUBDataset.filtered_images Sample.train_set
  = map fst (List.filter (survives Sample.corpus)
               (zip (pd.values (CUBDataset.images Sample.train_set))
                    (pd.values (CUBDataset.text_annotations Sample.train_set))))
  /\ survives Sample.corpus
       ("cub/images/001.A/a_2.jpg", "cub/text_c10/001.A/a_2.txt") = false.
Proof.
  split.
  - exact (proj1 (CUBDataset_init_removes_single_channel (R := counter_source)
                    Sample.corpus "cub" "train" None "bert-base-cased" 64 0%nat
                    Sample.train_set eq_refl)).
  - reflexivity.
Defined.

(** ** C6 and C7: the split restriction and the order of the survivors *)

Lemma full_images_index root img_path_map :
  pd.index (full_images root img_path_map) = pd.index img_path_map.
Proof.
  unfold full_images. apply zip_index.
  unfold pd.values, pd.index, pd.col1. by rewrite !length_map.
Qed.

Lemma map_fst_zip {A B C} (f : A -> C) (xs : list A) : forall ys : list B,
  length xs = length ys ->
  map (fun row => f row.1) (zip xs ys) = map f xs.
Proof.
  induction xs as [| x xs' IH]; intros [| y ys']; simpl; try done.
  intros [= Hlen]. by rewrite IH.
Qed.

(** A successful construction, seen from the image-path and split tables. *)
Lemma init_Ok_split {R : RandomSource} w root mode tr pre ml g self
    img_path_map train_test_map img_label_map label_cls_map :
  (CUBDataset.__init__ w root mode tr pre ml g).1 = Ok self ->
  CUBDataset.read_tables w root
  = Ok (img_path_map, train_test_map, img_label_map, label_cls_map) ->
  exists text_annotations_full : pd.Series string,
    pd.index text_annotations_full = pd.index img_path_map
    /\ CUBDataset.select_split mode (pd.index img_path_map) train_test_map
         (full_images root img_path_map) text_annotations_full
       = Ok (CUBDataset.images self, CUBDataset.text_annotations self)
    /\ CUBDataset.remove_grayscale w
         (zip (pd.values (CUBDataset.images self))
              (pd.values (CUBDataset.text_annotations self))) [] []
       = Ok (CUBDataset.filtered_images self, CUBDataset.filtered_annotations self).
Proof.
  intros Hinit Htab.
  destruct (init_Ok_inv _ _ _ _ _ _ _ _ Hinit)
    as (ipm & ttm & ilm & lcm & icm & ims & tas
        & _ & _ & Htab' & Hicm & Hims & Htas & Hsel & Hrg & _).
  rewrite Htab in Htab'. injection Htab' as <- <- <- <-.
  unfold CUBDataset.class_names in Hicm.
  apply bind_Ok_inv in Hicm as (named & _ & Hicm).
  apply mk_Series_inv in Hicm as [-> Hnamed].
  rewrite collect_paths_spec in Hims, Htas. cbn [fst snd app] in Hims, Htas.
  apply mk_Series_inv in Hims as [-> Hlen_i].
  apply mk_Series_inv in Htas as [-> Hlen_t].
  rewrite zip_values in Hsel by done.
  assert (length (pd.values (pd.col1 img_path_map)) = length (pd.values named))
    as Hlen.
  { rewrite Hnamed. unfold pd.values, pd.index, pd.col1.
    by rewrite !length_map. }
  rewrite (map_fst_zip (fun p => os_path.join root ["images"; p])) in Hsel
    by done.
  eexists. split; [| split; [exact Hsel | exact Hrg]].
  apply zip_index. by rewrite zip_values in Hlen_t.
Qed.

(** C6. For every constructed loader, the image paths in
    [filtered_images] are the values of a series [kept] of (id, path) rows
    that is a sublist of the image series restricted to the chosen split:
    the second pass drops rows and reorders nothing.  With the ids of the
    image-path table unique, the restricted series consists of the rows of
    the table at the positions that the split mask selects, so the
    surviving ids, and the surviving paths, come in the order of the
    image-path table. *)
Theorem CUBDataset_init_order_preserving {R : RandomSource} (w : World)
    (root mode : string) (tr : option (Img -> Py Img)) (pre : string)
    (ml : Z) (g : RandomState) (self : CUBDataset.t)
    (img_path_map : pd.DataFrame string) (train_test_map img_label_map : pd.DataFrame Z)
    (label_cls_map : pd.DataFrame string) :
  (CUBDataset.__init__ w root mode tr pre ml g).1 = Ok self ->
  CUBDataset.read_tables w root
  = Ok (img_path_map, train_test_map, img_label_map, label_cls_map) ->
  exists kept : pd.Series string,
    CUBDataset.filtered_images self = pd.values kept
    /\ kept `sublist_of` CUBDataset.images self
    /\ CUBDataset.filtered_images self
       `sublist_of` pd.values (CUBDataset.images self)
    /\ (NoDup (pd.index img_path_map) ->
        CUBDataset.images self
        = masked (full_images root img_path_map)
            (split_mask train_test_map (CUBDataset.filter_code mode))
        /\ CUBDataset.images self `sublist_of` full_images root img_path_map
        /\ pd.index kept `sublist_of` pd.index img_path_map
        /\ CUBDataset.filtered_images self
           `sublist_of` map (fun img_path => os_path.join root ["images"; img_path])
                            (pd.values (pd.col1 img_path_map))).
Proof.
  intros Hinit Htab.
  destruct (init_Ok_split _ _ _ _ _ _ _ _ _ _ _ _ Hinit Htab)
    as (tas & Htas & Hsel & Hrg).
  apply remove_grayscale_Ok in Hrg as (_ & Hfi & _). simpl in Hfi.
  rewrite filter_zip_values in Hfi.
  set (kept := map fst (List.filter _ (zip (CUBDataset.images self) _))) in Hfi.
  assert (kept `sublist_of` CUBDataset.images self) as Hkept
    by apply filter_zip_fst_sublist.
  exists kept. split; [done |]. split; [done |].
  split; [rewrite Hfi; by apply sublist_map |].
  intros Hnd.
  destruct (select_split_index_In _ _ _ _ _ _ _ Hsel) as [Hlen _].
  rewrite select_split_unique in Hsel
    by (done || by rewrite full_images_index).
  injection Hsel as Himages _.
  assert (CUBDataset.images self `sublist_of` full_images root img_path_map)
    as Hsub by (rewrite <- Himages; apply masked_sublist).
  split; [done |]. split; [done |]. split.
  - rewrite <- (full_images_index root img_path_map).
    apply sublist_map. by etrans.
  - rewrite Hfi.
    replace (map _ (pd.values (pd.col1 img_path_map)))
      with (pd.values (full_images root img_path_map)).
    + apply sublist_map. by etrans.
    + unfold full_images. apply zip_values.
      unfold pd.values, pd.index, pd.col1. by rewrite !length_map.
Qed.

Lemma CUBDataset_init_order_preserving_witness :
  exists kept : pd.Series string,
    CUBDataset.filtered_images Sample.train_set = pd.values kept
    /\ kept `sublist_of` CUBDataset.images Sample.train_set
    /\ pd.index kept `sublist_of` pd.index Sample.images_txt.
Proof.
  destruct (CUBDataset_init_order_preserving (R := counter_source)
              Sample.corpus "cub" "train" None "bert-base-cased" 64 0%nat
              Sample.train_set Sample.images_txt Sample.train_test_split_txt
              Sample.image_class_labels_txt Sample.classes_txt
              eq_refl eq_refl)
    as (kept & Hvalues & Hsub & _ & Hunique).
  exists kept. split; [exact Hvalues |]. split; [exact Hsub |].
  apply Hunique. apply (bool_decide_unpack _). reflexivity.
Defined.

Lemma masked_split_mask (train_test_map : pd.DataFrame Z) code :
  masked (pd.index train_test_map) (split_mask train_test_map code)
  = map fst (List.filter (fun row => bool_decide (row.2 = code)) train_test_map).
Proof.
  unfold masked, split_mask, pd.index, pd.values, pd.col1.
  induction train_test_map as [| [id c] rest IH]; simpl; [done |].
  case_bool_decide; simpl; by rewrite IH.
Qed.

Lemma filter_map_fst {A B} (P : A -> bool) (l : list (A * B)) :
  List.filter P (map fst l) = map fst (List.filter (fun row => P row.1) l).
Proof.
  induction l as [| [a b] l' IH]; simpl; [done |].
  destruct (P a); simpl; by rewrite IH.
Qed.

(** When the ids of the split table are unique, selecting by position in
    the split table's own index is selecting by split code. *)
Lemma masked_by_id (train_test_map : pd.DataFrame Z) code :
  NoDup (pd.index train_test_map) ->
  masked (pd.index train_test_map) (split_mask train_test_map code)
  = ids_with_code train_test_map code (pd.index train_test_map).
Proof.
  intros Hnd. rewrite masked_split_mask. unfold ids_with_code, pd.index.
  rewrite filter_map_fst. f_equal. apply filter_ext_in.
  intros [id c] Hin. unfold split_code_of. cbn [fst snd].
  rewrite (rows_with_label_unique train_test_map id c Hnd Hin). simpl.
  apply bool_decide_ext. split; [by intros -> | by intros [= ->]].
Qed.

(** C7, as stated, fails: with the rows of the split table listed in
    reverse order (every id keeping its code) and [mode='train'], the
    restriction keeps the ids 2 and 3, although the split code of id 3 is
    [TEST_CODE] and id 1, whose code is [TRAIN_CODE], is left out; the
    loader ends up with the test image. *)
Lemma CUBDataset_init_split_by_position :
  (pd.index ∘ CUBDataset.images
   <$> (CUBDataset.__init__ (R := counter_source) Sample.reversed_split
          "cub" "train" None "bert-base-cased" 64 0%nat).1) = Ok [2; 3]
  /\ ids_with_code Sample.reversed_split_txt (CUBDataset.filter_code "train")
       (pd.index Sample.images_txt) = [1; 2]
  /\ split_code_of Sample.reversed_split_txt 3 = Some CUBDataset.TEST_CODE
  /\ split_code_of Sample.reversed_split_txt 1 = Some CUBDataset.TRAIN_CODE
  /\ (CUBDataset.filtered_images
      <$> (CUBDataset.__init__ (R := counter_source) Sample.reversed_split
             "cub" "train" None "bert-base-cased" 64 0%nat).1)
     = Ok ["cub/images/002.B/b_1.png"].
Proof. repeat split; reflexivity. Qed.

(** C7, amended.  The requested code is [TRAIN_CODE = 0] when the mode is
    ['train'] and [TEST_CODE = 1] for every other mode.  The split
    restriction compares by row position: it keeps exactly the ids of the
    image-path table at whose position the split table holds the requested
    code (the ids of the split table are not read).  When the ids are unique
    and the split table lists the same ids in the same order as the
    image-path table, these are exactly the ids whose split code equals the
    requested code. *)
Theorem CUBDataset_init_split_restriction {R : RandomSource} (w : World)
    (root mode : string) (tr : option (Img -> Py Img)) (pre : string)
    (ml : Z) (g : RandomState) (self : CUBDataset.t)
    (img_path_map : pd.DataFrame string) (train_test_map img_label_map : pd.DataFrame Z)
    (label_cls_map : pd.DataFrame string) :
  (CUBDataset.__init__ w root mode tr pre ml g).1 = Ok self ->
  CUBDataset.read_tables w root
  = Ok (img_path_map, train_test_map, img_label_map, label_cls_map) ->
  CUBDataset.TRAIN_CODE = 0 /\ CUBDataset.TEST_CODE = 1
  /\ (mode = "train" -> CUBDataset.filter_code mode = CUBDataset.TRAIN_CODE)
  /\ (mode <> "train" -> CUBDataset.filter_code mode = CUBDataset.TEST_CODE)
  /\ (forall id,
         In id (pd.index (CUBDataset.images self))
         <-> In id (masked (pd.index img_path_map)
                      (split_mask train_test_map (CUBDataset.filter_code mode))))
  /\ (NoDup (pd.index img_path_map) ->
      pd.index (CUBDataset.images self)
      = masked (pd.index img_path_map)
          (split_mask train_test_map (CUBDataset.filter_code mode))
      /\ (pd.index train_test_map = pd.index img_path_map ->
          pd.index (CUBDataset.images self)
          = ids_with_code train_test_map (CUBDataset.filter_code mode)
              (pd.index img_path_map))).
Proof.
  intros Hinit Htab.
  destruct (init_Ok_split _ _ _ _ _ _ _ _ _ _ _ _ Hinit Htab)
    as (tas & Htas & Hsel & _).
  split; [done |]. split; [done |].
  split; [intros ->; reflexivity |].
  split; [intros Hmode; unfold CUBDataset.filter_code;
          by rewrite bool_decide_eq_false_2 |].
  destruct (select_split_index_In _ _ _ _ _ _ _ Hsel) as [Hlen Hmem].
  split; [exact Hmem |].
  intros Hnd.
  rewrite select_split_unique in Hsel
    by (done || by rewrite full_images_index).
  injection Hsel as Himages _.
  assert (pd.index (CUBDataset.images self)
          = masked (pd.index img_path_map)
              (split_mask train_test_map (CUBDataset.filter_code mode)))
    as Hindex.
  { rewrite <- Himages, <- masked_index. by rewrite full_images_index. }
  split; [done |].
  intros Haligned. rewrite Hindex, <- Haligned.
  apply masked_by_id. by rewrite Haligned.
Qed.

Lemma CUBDataset_init_split_restriction_witness :
  pd.index (CUBDataset.images Sample.train_set)
  = ids_with_code Sample.train_test_split_txt (CUBDataset.filter_code "train")
      (pd.index Sample.images_txt).
Proof.
  destruct (CUBDataset_init_split_restriction (R := counter_source)
              Sample.corpus "cub" "train" None "bert-base-cased" 64 0%nat
              Sample.train_set Sample.images_txt Sample.train_test_split_txt
              Sample.image_class_labels_txt Sample.classes_txt
              eq_refl eq_refl)
    as (_ & _ & _ & _ & _ & Hunique).
  apply Hunique; [| reflexivity].
  apply (bool_decide_unpack _). reflexivity.
Defined.

(** ** C8: collation *)

Lemma mapM_tensors (ts : list torch.Tensor) :
  mapM (fun x => match x with
                 | TensorImg t => Ok t
                 | PILImg _ => Raise TypeError
                 end) (map TensorImg ts) = Ok ts.
Proof. induction ts as [| t ts' IH]; simpl; [done | by rewrite IH]. Qed.

(** Stacking tensors of one shape: a new leading dimension of their
    number, the data in the order given. *)
Lemma torch_stack_tensors (ts : list torch.Tensor) (s : list nat) :
  ts <> [] -> Forall (fun t => torch.shape t = s) ts ->
  torch_stack (map TensorImg ts)
  = Ok {| torch.shape := length ts :: s;
          torch.data := concat (map torch.data ts) |}.
Proof.
  intros Hne Hshape. unfold torch_stack. rewrite mapM_tensors. simpl.
  destruct ts as [| t0 ts']; [done |]. unfold torch.stack.
  assert (torch.shape t0 = s) as Hs0 by (by inversion Hshape).
  assert (forallb (fun t => bool_decide (torch.shape t = torch.shape t0))
                  (t0 :: ts') = true) as ->.
  { apply forallb_forall. intros t Hin. apply bool_decide_eq_true.
    rewrite Forall_forall in Hshape. rewrite Hs0.
    apply Hshape. by apply list_elem_of_In. }
  by rewrite Hs0.
Qed.

(** C8, as stated, fails for [N = 0]: unzipping an empty batch yields
    nothing to assign to the three names, and [collate_fn] raises
    [ValueError]. *)
Lemma CUBDataset_collate_fn_empty_batch :
  CUBDataset.collate_fn Sample.train_set [] = Raise ValueError.
Proof. reflexivity. Qed.

(** C8, amended.  For every batch of [N >= 1] examples whose first
    components are tensors of one shape and whose second components are
    tensors of one shape, [collate_fn] hands the [N] captions to the
    tokenizer in batch order; if the tokenizer raises, so does
    [collate_fn]; otherwise the result is the two stacked tensors, each
    with leading dimension [N] and with the examples' data in batch order,
    and an encoding with [N] rows. *)
Theorem CUBDataset_collate_fn_batch {R : RandomSource} (self : CUBDataset.t)
    (batch : list CUBDataset.Example) (firsts seconds : list torch.Tensor)
    (shape1 shape2 : list nat) :
  batch <> [] ->
  map (fun ex => ex.1.1) batch = map TensorImg firsts ->
  map (fun ex => ex.1.2) batch = map TensorImg seconds ->
  Forall (fun t => torch.shape t = shape1) firsts ->
  Forall (fun t => torch.shape t = shape2) seconds ->
  match tokenizer_call (CUBDataset.tokenizer self) (map snd batch)
          (CUBDataset.max_length self) with
  | Raise e => CUBDataset.collate_fn self batch = Raise e
  | Ok enc =>
      CUBDataset.collate_fn self batch
      = Ok ({| torch.shape := length batch :: shape1;
               torch.data := concat (map torch.data firsts) |},
            {| torch.shape := length batch :: shape2;
               torch.data := concat (map torch.data seconds) |},
            enc)
      /\ length (input_ids enc) = length batch
  end.
Proof.
  intros Hne Hfirsts Hseconds Hshape1 Hshape2.
  assert (length firsts = length batch) as Hlen1
    by (rewrite <- (length_map TensorImg), <- Hfirsts; apply length_map).
  assert (length seconds = length batch) as Hlen2
    by (rewrite <- (length_map TensorImg), <- Hseconds; apply length_map).
  assert (firsts <> []) as Hne1 by (intros ->; by destruct batch).
  assert (seconds <> []) as Hne2 by (intros ->; by destruct batch).
  assert (CUBDataset.zip_star batch
          = Ok (map TensorImg firsts, map TensorImg seconds, map snd batch))
    as Hzip.
  { unfold CUBDataset.zip_star. destruct batch as [| ex batch']; [done |].
    by rewrite Hfirsts, Hseconds. }
  unfold CUBDataset.collate_fn. rewrite Hzip. simpl.
  rewrite (torch_stack_tensors firsts shape1 Hne1 Hshape1). simpl.
  rewrite (torch_stack_tensors seconds shape2 Hne2 Hshape2). simpl.
  destruct (tokenizer_call (CUBDataset.tokenizer self) (map snd batch)
              (CUBDataset.max_length self)) as [enc|e] eqn:Htok; simpl;
    [| done].
  rewrite Hlen1, Hlen2. split; [done |].
  rewrite (tokenizer_rows _ _ _ _ Htok). apply length_map.
Qed.

Lemma CUBDataset_collate_fn_batch_witness :
  exists enc,
    CUBDataset.collate_fn Sample.train_set [Sample.example_a; Sample.example_b]
    = Ok ({| torch.shape := [2; 3; 1; 2]%nat;
             torch.data := [1; 2; 3; 4; 5; 6; 7; 8; 9; 10; 11; 12] |},
          {| torch.shape := [2; 3; 128; 128]%nat; torch.data := [] |},
          enc)
    /\ length (input_ids enc) = 2%nat.
Proof.
  pose proof (CUBDataset_collate_fn_batch Sample.train_set
                [Sample.example_a; Sample.example_b]
                [Sample.pixels_a; Sample.pixels_b]
                [Sample.low_res; Sample.low_res]
                [3; 1; 2]%nat [3; 128; 128]%nat) as Hbatch.
  destruct (tokenizer_call (CUBDataset.tokenizer Sample.train_set)
              (map snd [Sample.example_a; Sample.example_b])
              (CUBDataset.max_length Sample.train_set)) as [enc|e] eqn:Htok;
    [| discriminate Htok].
  exists enc. apply Hbatch.
  - discriminate.
  - reflexivity.
  - reflexivity.
  - repeat constructor.
  - repeat constructor.
Defined.

(** ** C9: construction is deterministic *)

Lemma remove_grayscale_ext w w' pairs :
  (forall path, Image_open w path = Image_open w' path) ->
  forall fi fa,
    CUBDataset.remove_grayscale w pairs fi fa
    = CUBDataset.remove_grayscale w' pairs fi fa.
Proof.
  intros Hopen.
  induction pairs as [| [img_path annotation] rest IH]; intros fi fa; simpl;
    [done |].
  rewrite <- Hopen. destruct (Image_open w img_path); simpl; [| done].
  case_bool_decide; apply IH.
Qed.

Lemma read_tables_ext w w' root :
  (forall path, read_csv_str w path = read_csv_str w' path) ->
  (forall path, read_csv_int w path = read_csv_int w' path) ->
  CUBDataset.read_tables w root = CUBDataset.read_tables w' root.
Proof.
  intros Hstr Hint. unfold CUBDataset.read_tables.
  by rewrite !Hstr, !Hint.
Qed.

(** With a transform that does not use the generator, or with none, the
    image part of an example and the success of the access do not depend on
    the generator: only the caption does. *)
Lemma getitem_image_part {R : RandomSource} w self idx g g' :
  generator_free self ->
  fst <$> (CUBDataset.__getitem__ w self idx g).1
  = fst <$> (CUBDataset.__getitem__ w self idx g').1.
Proof.
  intros Hfree. rewrite !getitem_unfold.
  destruct (list_getitem (CUBDataset.filtered_images self) idx); [| done].
  destruct (list_getitem (CUBDataset.filtered_annotations self) idx); [| done].
  destruct (image_steps_generator_free_result w self a Hfree) as [r Hr].
  rewrite !Hr. destruct r as [[img low]|]; [| done].
  destruct (open_read w a0) as [fp|]; [| done].
  destruct (readlines fp) as [| line lines] eqn:Hlines; [done |].
  assert (line :: lines <> []) as Hne by done.
  destruct (random_choice_draw (line :: lines) g Hne) as (_ & x & _ & ->).
  destruct (random_choice_draw (line :: lines) g' Hne) as (_ & x' & _ & ->).
  done.
Qed.

(** C9. Construction consults no random source: run from any two states
    of the generator it gives the same result and leaves the state as it
    was.  The two filtered sequences are determined by the mode and by what
    the root directory holds (whether it is a directory, its four tables,
    its images) together with the tokenizer name: they are the same in any
    two worlds that agree on these, whatever the transform, the maximal
    length, the annotation files and the generator.  In an access whose
    transform does not use the generator (or that has no transform), by
    contrast, the caption depends on the generator and nothing else
    does. *)
Theorem CUBDataset_init_deterministic {R : RandomSource} (w w' : World)
    (root mode : string) (tr tr' : option (Img -> Py Img)) (pre : string)
    (ml ml' : Z) (g g' : RandomState) :
  isdir w root = isdir w' root ->
  from_pretrained w pre = from_pretrained w' pre ->
  (forall path, read_csv_str w path = read_csv_str w' path) ->
  (forall path, read_csv_int w path = read_csv_int w' path) ->
  (forall path, Image_open w path = Image_open w' path) ->
  CUBDataset.__init__ w root mode tr pre ml g'
  = ((CUBDataset.__init__ w root mode tr pre ml g).1, g')
  /\ (CUBDataset.__init__ w root mode tr pre ml g).2 = g
  /\ (CUBDataset.filtered_images <$> (CUBDataset.__init__ w root mode tr pre ml g).1)
     = (CUBDataset.filtered_images
        <$> (CUBDataset.__init__ w' root mode tr' pre ml' g').1)
  /\ (CUBDataset.filtered_annotations
      <$> (CUBDataset.__init__ w root mode tr pre ml g).1)
     = (CUBDataset.filtered_annotations
        <$> (CUBDataset.__init__ w' root mode tr' pre ml' g').1)
  /\ (forall self idx,
         generator_free self ->
         fst <$> (CUBDataset.__getitem__ w self idx g).1
         = fst <$> (CUBDataset.__getitem__ w self idx g').1).
Proof.
  intros Hdir Htok Hstr Hint Hopen.
  split; [reflexivity |]. split; [reflexivity |].
  assert (Hboth : forall (field : CUBDataset.t -> list string),
    (field = CUBDataset.filtered_images
     \/ field = CUBDataset.filtered_annotations) ->
    (field <$> (CUBDataset.__init__ w root mode tr pre ml g).1)
    = (field <$> (CUBDataset.__init__ w' root mode tr' pre ml' g').1)).
  { intros field Hfield.
    unfold CUBDataset.__init__, lift; simpl.
    rewrite <- Hdir. destruct (isdir w root); simpl; [| done].
    rewrite <- Htok. destruct (from_pretrained w pre); simpl; [| done].
    rewrite <- (read_tables_ext w w' root Hstr Hint).
    destruct (CUBDataset.read_tables w root) as [[[[ipm ttm] ilm] lcm]|];
      simpl; [| done].
    destruct (CUBDataset.class_names _ _ _) as [icm|]; simpl; [| done].
    destruct (CUBDataset.collect_paths root _ [] []) as [ims0 tas0].
    destruct (pd.mk_Series ims0 _) as [ims|]; simpl; [| done].
    destruct (pd.mk_Series tas0 _) as [tas|]; simpl; [| done].
    destruct (CUBDataset.select_split _ _ _ _ _) as [[ims' tas']|]; simpl;
      [| done].
    rewrite <- (remove_grayscale_ext w w' _ Hopen).
    destruct (CUBDataset.remove_grayscale w _ [] []) as [[fi fa]|]; simpl;
      [| done].
    by destruct Hfield as [-> | ->]. }
  split; [apply Hboth; by left |]. split; [apply Hboth; by right |].
  intros self idx Hfree. by apply getitem_image_part.
Qed.

Lemma CUBDataset_init_deterministic_witness :
  (CUBDataset.filtered_images
   <$> (CUBDataset.__init__ (R := counter_source) Sample.corpus
          "cub" "train" None "bert-base-cased" 64 0%nat).1)
  = (CUBDataset.filtered_images
     <$> (CUBDataset.__init__ (R := counter_source) Sample.no_annotations
            "cub" "train" (Some (fun img => lift (Sample.to_tensor img)))
            "bert-base-cased" 32 7%nat).1)
  /\ fst <$> (CUBDataset.__getitem__ (R := counter_source) Sample.corpus
                Sample.tensor_train_set 0 0%nat).1
     = fst <$> (CUBDataset.__getitem__ (R := counter_source) Sample.corpus
                  Sample.tensor_train_set 0 7%nat).1.
Proof.
  destruct (CUBDataset_init_deterministic (R := counter_source)
              Sample.corpus Sample.no_annotations "cub" "train"
              None (Some (fun img => lift (Sample.to_tensor img)))
              "bert-base-cased" 64 32 0%nat 7%nat
              eq_refl eq_refl (fun _ => eq_refl) (fun _ => eq_refl)
              (fun _ => eq_refl))
    as (_ & _ & Himages & _ & Himage_part).
  split; [exact Himages |].
  apply Himage_part. exists Sample.to_tensor. intros img g. reflexivity.
Defined.

(** The caption, by contrast, does depend on the generator. *)
Lemma CUBDataset_getitem_depends_on_generator :
  (CUBDataset.__getitem__ (R := counter_source) Sample.corpus
     Sample.train_set 0 0%nat).1
  <> (CUBDataset.__getitem__ (R := counter_source) Sample.corpus
        Sample.train_set 0 2%nat).1.
Proof. vm_compute. discriminate. Qed.

(** With a transform that uses the generator the image depends on it
    too: the same access returns the image as opened from state 0 and a
    tensor from state 1. *)
Lemma getitem_image_depends_on_generator :
  fst <$> (CUBDataset.__getitem__ (R := counter_source) Sample.corpus
             Sample.random_train_set 0 0%nat).1
  <> fst <$> (CUBDataset.__getitem__ (R := counter_source) Sample.corpus
                Sample.random_train_set 0 1%nat).1.
Proof. vm_compute. discriminate. Qed.

(** ** C10: negative indices *)

Lemma init_Ok_lengths {R : RandomSource} w root mode tr pre ml g self :
  (CUBDataset.__init__ w root mode tr pre ml g).1 = Ok self ->
  length (CUBDataset.filtered_images self)
  = length (CUBDataset.filtered_annotations self).
Proof.
  intros Hinit.
  destruct (init_Ok_inv _ _ _ _ _ _ _ _ Hinit)
    as (? & ? & ? & ? & ? & ? & ? & _ & _ & _ & _ & _ & _ & _ & Hrg & _).
  apply remove_grayscale_Ok in Hrg as (_ & -> & ->). simpl.
  by rewrite !length_map.
Qed.

(** C10. [__getitem__] does not check its index against [[0, len)]: on a
    constructed loader with [n] rows, an index in [[-n, -1]] is resolved by
    the two lists to row [n + index] without [IndexError], the call is the
    call at [n + index] (same result, same generator state after), and it
    succeeds whenever the image of that row loads and its annotation file
    is not empty. *)
Theorem CUBDataset_getitem_negative_index {R : RandomSource} (w : World)
    (root mode : string) (tr : option (Img -> Py Img)) (pre : string)
    (ml : Z) (g0 g : RandomState) (self : CUBDataset.t) (idx : Z) :
  (CUBDataset.__init__ w root mode tr pre ml g0).1 = Ok self ->
  let n := Z.of_nat (length (CUBDataset.filtered_images self)) in
  - n <= idx <= -1 ->
  CUBDataset.__getitem__ w self idx g = CUBDataset.__getitem__ w self (n + idx) g
  /\ exists img_path annotation_path,
      CUBDataset.filtered_images self !! Z.to_nat (n + idx) = Some img_path
      /\ CUBDataset.filtered_annotations self !! Z.to_nat (n + idx)
         = Some annotation_path
      /\ list_getitem (CUBDataset.filtered_images self) idx = Ok img_path
      /\ list_getitem (CUBDataset.filtered_annotations self) idx
         = Ok annotation_path
      /\ (forall img img_low_res content,
             (image_steps w self img_path g).1 = Ok (img, img_low_res) ->
             text_files w !! annotation_path = Some content ->
             content <> "" ->
             exists caption,
               In caption (readlines content)
               /\ (CUBDataset.__getitem__ w self idx g).1
                  = Ok (img, img_low_res, caption)).
Proof.
  intros Hinit n Hidx.
  pose proof (init_Ok_lengths _ _ _ _ _ _ _ _ Hinit) as Hlen.
  destruct (list_getitem_negative (CUBDataset.filtered_images self) idx Hidx)
    as (Hfi & img_path & Hrow_i & Hget_i).
  assert (- Z.of_nat (length (CUBDataset.filtered_annotations self))
          <= idx <= -1) as Hidx' by (rewrite <- Hlen; exact Hidx).
  destruct (list_getitem_negative (CUBDataset.filtered_annotations self) idx Hidx')
    as (Hfa & annotation_path & Hrow_a & Hget_a).
  rewrite <- Hlen in Hfa, Hrow_a. fold n in Hfi, Hfa, Hrow_i, Hrow_a.
  split.
  - by rewrite !getitem_unfold, <- Hfi, <- Hfa.
  - exists img_path, annotation_path. repeat (split; [done |]).
    intros img img_low_res content Himg Hfile Hcontent.
    rewrite getitem_unfold, Hget_i, Hget_a.
    destruct (image_steps w self img_path g) as [r g1]. simpl in Himg.
    subst r. unfold open_read. rewrite Hfile.
    assert (readlines content <> []) as Hlines by (by rewrite readlines_nil).
    destruct (random_choice_draw (readlines content) g1 Hlines)
      as (_ & caption & Hcap & ->).
    exists caption. split; [| done].
    apply list_elem_of_In, list_elem_of_lookup. eauto.
Qed.

Lemma CUBDataset_getitem_negative_index_witness :
  CUBDataset.__getitem__ (R := counter_source) Sample.corpus Sample.train_set
    (-1) 2%nat
  = CUBDataset.__getitem__ (R := counter_source) Sample.corpus Sample.train_set
      0 2%nat.
Proof.
  apply (CUBDataset_getitem_negative_index (R := counter_source) Sample.corpus
           "cub" "train" None "bert-base-cased" 64 0%nat 2%nat
           Sample.train_set (-1) eq_refl).
  simpl. lia.
Defined.

(** * Further properties *)

(** ** Strings and paths *)

(** Does the character occur in the string? *)
Fixpoint occurs (c : ascii) (s : string) : bool :=
  match s with
  | EmptyString => false
  | String d s' => bool_decide (d = c) || occurs c s'
  end.

Lemma string_app_cons c (a b : string) :
  (String c a ++ b = String c (a ++ b))%string.
Proof. reflexivity. Qed.

Lemma string_app_nil_l (b : string) : ("" ++ b = b)%string.
Proof. reflexivity. Qed.

Lemma string_app_assoc (a b c : string) :
  ((a ++ b) ++ c = a ++ (b ++ c))%string.
Proof.
  induction a as [| x a' IH]; [done |].
  rewrite !string_app_cons. by f_equal.
Qed.

Lemma string_length_app (a b : string) :
  String.length (a ++ b) = (String.length a + String.length b)%nat.
Proof.
  induction a as [| x a' IH]; [done |].
  rewrite string_app_cons. simpl. by f_equal.
Qed.

Lemma occurs_app c (a b : string) :
  occurs c (a ++ b) = occurs c a || occurs c b.
Proof.
  induction a as [| x a' IH]; [done |].
  rewrite string_app_cons. simpl. rewrite IH.
  by destruct (bool_decide (x = c)).
Qed.

Lemma rfind_from_absent c s : forall pos last,
  occurs c s = false -> os_path.rfind_from c s pos last = last.
Proof.
  induction s as [| d s' IH]; intros pos last; simpl; [done |].
  case_bool_decide; simpl; [discriminate |]. apply IH.
Qed.

Lemma rfind_from_app c (a b : string) : forall pos last,
  os_path.rfind_from c (a ++ b) pos last
  = os_path.rfind_from c b (pos + String.length a)%nat
      (os_path.rfind_from c a pos last).
Proof.
  induction a as [| d a' IH]; intros pos last.
  - rewrite string_app_nil_l. simpl. by rewrite Nat.add_0_r.
  - rewrite string_app_cons. simpl. rewrite IH. f_equal. lia.
Qed.

(** The last occurrence of [c] in [a ++ c :: b], when [b] has none. *)
Lemma rfind_last c (a b : string) :
  occurs c b = false ->
  os_path.rfind c (a ++ String c b) = Some (String.length a).
Proof.
  intros Hb. unfold os_path.rfind. rewrite rfind_from_app. simpl.
  rewrite bool_decide_eq_true_2 by done. by rewrite rfind_from_absent.
Qed.

Lemma rfind_absent c s : occurs c s = false -> os_path.rfind c s = None.
Proof. apply rfind_from_absent. Qed.

Lemma substring_whole s : String.substring 0 (String.length s) s = s.
Proof. induction s as [| c s' IH]; simpl; [done | by rewrite IH]. Qed.

Lemma take_string_app (a b : string) :
  os_path.take_string (String.length a) (a ++ b) = a.
Proof.
  unfold os_path.take_string.
  induction a as [| c a' IH].
  - rewrite string_app_nil_l. by destruct b.
  - rewrite string_app_cons. simpl. by rewrite IH.
Qed.

Lemma drop_string_app (a b : string) :
  os_path.drop_string (String.length a) (a ++ b) = b.
Proof.
  unfold os_path.drop_string.
  induction a as [| c a' IH].
  - rewrite string_app_nil_l. simpl. rewrite Nat.sub_0_r.
    apply substring_whole.
  - rewrite string_app_cons. simpl. apply IH.
Qed.

Lemma all_sep_app (a b : string) :
  os_path.all_sep (a ++ b) = os_path.all_sep a && os_path.all_sep b.
Proof.
  induction a as [| c a' IH]; [done |].
  rewrite string_app_cons. simpl. rewrite IH.
  by destruct (bool_decide (c = os_path.sep)).
Qed.

Lemma all_sep_absent (s : string) :
  s <> "" -> occurs os_path.sep s = false -> os_path.all_sep s = false.
Proof.
  destruct s as [| c s']; [done |]. simpl. intros _.
  by case_bool_decide.
Qed.

Lemma rstrip_sep_cons c (s : string) :
  os_path.rstrip_sep (String c s)
  = if os_path.all_sep (String c s) then ""
    else String c (os_path.rstrip_sep s).
Proof. reflexivity. Qed.

Lemma rstrip_sep_all_sep (s : string) :
  os_path.all_sep s = true -> os_path.rstrip_sep s = "".
Proof. destruct s as [| c s']; [done |]. rewrite rstrip_sep_cons. by intros ->. Qed.

Lemma rstrip_sep_absent (s : string) :
  occurs os_path.sep s = false -> os_path.rstrip_sep s = s.
Proof.
  induction s as [| c s' IH]; [done |].
  intros Hs. simpl in Hs. apply orb_false_elim in Hs as [Hc Hs'].
  rewrite rstrip_sep_cons. simpl. rewrite Hc. simpl. by rewrite IH.
Qed.

(** Stripping keeps everything up to a last component without separator. *)
Lemma rstrip_sep_app (a b : string) :
  b <> "" -> occurs os_path.sep b = false ->
  os_path.rstrip_sep (a ++ b) = (a ++ b)%string.
Proof.
  intros Hne Hb. induction a as [| c a' IH].
  - by apply rstrip_sep_absent.
  - rewrite string_app_cons, rstrip_sep_cons, <- string_app_cons.
    rewrite all_sep_app, (all_sep_absent b Hne Hb), andb_false_r.
    by rewrite IH.
Qed.

Lemma rstrip_sep_trailing (s : string) :
  os_path.rstrip_sep (s ++ String os_path.sep "") = os_path.rstrip_sep s.
Proof.
  induction s as [| c s' IH]; [done |].
  rewrite string_app_cons, !rstrip_sep_cons, <- string_app_cons.
  rewrite all_sep_app. simpl. rewrite andb_true_r.
  destruct (bool_decide (c = os_path.sep) && os_path.all_sep s'); [done |].
  by rewrite IH.
Qed.

(** [split] of a path that ends in a component without separator. *)
Lemma split_last_component (dir name : string) :
  os_path.all_sep dir = false -> occurs os_path.sep name = false ->
  os_path.split (dir ++ String os_path.sep name)
  = (os_path.rstrip_sep dir, name).
Proof.
  intros Hdir Hname. unfold os_path.split.
  rewrite (rfind_last _ dir name Hname).
  replace (S (String.length dir))
    with (String.length (dir ++ String os_path.sep "")%string)
    by (rewrite string_length_app; simpl; lia).
  replace (dir ++ String os_path.sep name)%string
    with ((dir ++ String os_path.sep "") ++ name)%string
    by (by rewrite string_app_assoc).
  rewrite take_string_app, drop_string_app.
  assert (os_path.all_sep (dir ++ String os_path.sep "") = false) as Hall
    by (by rewrite all_sep_app, Hdir).
  rewrite Hall. simpl.
  rewrite bool_decide_eq_false_2 by (by destruct dir). simpl.
  by rewrite rstrip_sep_trailing.
Qed.

Lemma split_tail (dir name : string) :
  occurs os_path.sep name = false ->
  (os_path.split (dir ++ String os_path.sep name)).2 = name.
Proof.
  intros Hname. unfold os_path.split.
  rewrite (rfind_last _ dir name Hname). simpl.
  replace (S (String.length dir))
    with (String.length (dir ++ String os_path.sep "")%string)
    by (rewrite string_length_app; simpl; lia).
  replace (dir ++ String os_path.sep name)%string
    with ((dir ++ String os_path.sep "") ++ name)%string
    by (by rewrite string_app_assoc).
  apply drop_string_app.
Qed.

Lemma split_no_sep (name : string) :
  occurs os_path.sep name = false -> os_path.split name = ("", name).
Proof.
  intros Hname. unfold os_path.split. rewrite (rfind_absent _ _ Hname).
  unfold os_path.take_string, os_path.drop_string. simpl.
  rewrite Nat.sub_0_r, substring_whole. by destruct name.
Qed.

Lemma startswith_sep_absent (s : string) :
  occurs os_path.sep s = false -> os_path.startswith_sep s = false.
Proof.
  destruct s as [| c s']; [done |]. simpl.
  by destruct (bool_decide (c = os_path.sep)).
Qed.

Lemma endswith_sep_absent (s : string) :
  occurs os_path.sep s = false -> os_path.endswith_sep s = false.
Proof.
  induction s as [| c s' IH]; [done |]. simpl. intros Hs.
  apply orb_false_elim in Hs as [Hc Hs'].
  destruct s' as [| d s'']; [done | by apply IH].
Qed.

(** Joining two components that hold no separator puts one between them. *)
Lemma join_two_components (a b : string) :
  a <> "" -> occurs os_path.sep a = false -> occurs os_path.sep b = false ->
  os_path.join a [b] = (a ++ String os_path.sep b)%string.
Proof.
  intros Ha Hsa Hsb. unfold os_path.join, os_path.join2. simpl.
  rewrite (startswith_sep_absent b Hsb), (endswith_sep_absent a Hsa).
  by rewrite bool_decide_eq_false_2.
Qed.

(** ** ImageFileDataset *)

(** The relative path that [__getitem__] makes of a sample's path: the name
    of the directory that holds the file, joined with the file name. *)
Definition relative_path (path : string) : string :=
  os_path.join (os_path.split (os_path.split path).1).2 [(os_path.split path).2].

Lemma ImageFileDataset_getitem_unfold (self : ImageFileDataset.t) (index : Z) :
  ImageFileDataset.__getitem__ self index
  = (st ← ImageFileDataset.super_getitem self index;
     pt ← list_getitem (ImageFileDataset.samples self) index;
     Ok (st.1, st.2, relative_path pt.1)).
Proof.
  unfold ImageFileDataset.__getitem__, relative_path.
  destruct (ImageFileDataset.super_getitem self index) as [[sample t]|e];
    [| done].
  cbn -[os_path.split os_path.join].
  destruct (list_getitem (ImageFileDataset.samples self) index)
    as [[path t']|e]; [| done].
  cbn -[os_path.split os_path.join].
  destruct (os_path.split path) as [dirs filename].
  cbn -[os_path.split os_path.join].
  by destruct (os_path.split dirs) as [head class_name].
Qed.

Lemma relative_path_class_name (root class_name name : string) :
  class_name <> "" ->
  occurs os_path.sep class_name = false ->
  occurs os_path.sep name = false ->
  relative_path (root ++ String os_path.sep (class_name ++ String os_path.sep name))
  = (class_name ++ String os_path.sep name)%string.
Proof.
  intros Hcls Hsep_cls Hsep_name. unfold relative_path.
  replace (root ++ String os_path.sep (class_name ++ String os_path.sep name))%string
    with ((root ++ String os_path.sep class_name) ++ String os_path.sep name)%string
    by (by rewrite string_app_assoc).
  assert (os_path.all_sep (root ++ String os_path.sep class_name) = false)
    as Hdir.
  { rewrite all_sep_app. simpl.
    rewrite (all_sep_absent class_name Hcls Hsep_cls).
    by rewrite !andb_false_r. }
  rewrite (split_last_component _ name Hdir Hsep_name).
  cbn [fst snd].
  replace (root ++ String os_path.sep class_name)%string
    with ((root ++ String os_path.sep "") ++ class_name)%string
    by (by rewrite string_app_assoc).
  rewrite (rstrip_sep_app _ class_name Hcls Hsep_cls).
  replace ((root ++ String os_path.sep "") ++ class_name)%string
    with (root ++ String os_path.sep class_name)%string
    by (by rewrite string_app_assoc).
  rewrite (split_tail root class_name Hsep_cls).
  by apply join_two_components.
Qed.

(** X1. For a sample stored at [<root>/<class>/<name>], whatever the root,
    [__getitem__] returns what [ImageFolder] returns for that index
    together with the relative path [<class>/<name>]; it fails exactly
    when [ImageFolder]'s own [__getitem__] fails, with the same
    exception. *)
Theorem ImageFileDataset_getitem_relative_path (self : ImageFileDataset.t)
    (index target : Z) (root class_name name : string) :
  list_getitem (ImageFileDataset.samples self) index
  = Ok ((root ++ String os_path.sep (class_name ++ String os_path.sep name))%string,
        target) ->
  class_name <> "" ->
  occurs os_path.sep class_name = false ->
  occurs os_path.sep name = false ->
  ImageFileDataset.__getitem__ self index
  = (fun st => (st.1, st.2, (class_name ++ String os_path.sep name)%string))
      <$> ImageFileDataset.super_getitem self index.
Proof.
  intros Hsample Hcls Hsep_cls Hsep_name.
  rewrite ImageFileDataset_getitem_unfold, Hsample.
  destruct (ImageFileDataset.super_getitem self index) as [[sample t]|e];
    [| done].
  cbn -[relative_path].
  by rewrite relative_path_class_name.
Qed.

Lemma ImageFileDataset_getitem_relative_path_witness :
  ImageFileDataset.__getitem__
    {| ImageFileDataset.samples := [("/data/train/cat/001.png", 0);
                                     ("/data/train/dog/7.png", 1)];
       ImageFileDataset.loader := fun _ => Ok Sample.rgb;
       ImageFileDataset.transform := None;
       ImageFileDataset.target_transform := None |} (-1)
  = Ok (PILImg Sample.rgb, 1, "dog/7.png").
Proof.
  apply (ImageFileDataset_getitem_relative_path
           {| ImageFileDataset.samples := [("/data/train/cat/001.png", 0);
                                            ("/data/train/dog/7.png", 1)];
              ImageFileDataset.loader := fun _ => Ok Sample.rgb;
              ImageFileDataset.transform := None;
              ImageFileDataset.target_transform := None |}
           (-1) 1 "/data/train" "dog" "7.png");
    [reflexivity | discriminate | reflexivity | reflexivity].
Defined.

(** X2. A sample whose path has no directory part (no separator at all)
    gets its bare file name as relative path: no class prefix and no
    leading separator are added. *)
Theorem ImageFileDataset_getitem_bare_name (self : ImageFileDataset.t)
    (index target : Z) (name : string) :
  list_getitem (ImageFileDataset.samples self) index = Ok (name, target) ->
  occurs os_path.sep name = false ->
  ImageFileDataset.__getitem__ self index
  = (fun st => (st.1, st.2, name)) <$> ImageFileDataset.super_getitem self index.
Proof.
  intros Hsample Hsep.
  rewrite ImageFileDataset_getitem_unfold, Hsample.
  destruct (ImageFileDataset.super_getitem self index) as [[sample t]|e];
    [| done].
  cbn -[relative_path]. unfold relative_path.
  rewrite (split_no_sep name Hsep). cbn [fst snd].
  rewrite (split_no_sep "" eq_refl). cbn [fst snd].
  unfold os_path.join, os_path.join2. simpl.
  by rewrite (startswith_sep_absent name Hsep).
Qed.

Lemma ImageFileDataset_getitem_bare_name_witness :
  ImageFileDataset.__getitem__
    {| ImageFileDataset.samples := [("001.png", 0)];
       ImageFileDataset.loader := fun _ => Ok Sample.rgb;
       ImageFileDataset.transform := None;
       ImageFileDataset.target_transform := None |} 0
  = Ok (PILImg Sample.rgb, 0, "001.png").
Proof.
  apply (ImageFileDataset_getitem_bare_name
           {| ImageFileDataset.samples := [("001.png", 0)];
              ImageFileDataset.loader := fun _ => Ok Sample.rgb;
              ImageFileDataset.transform := None;
              ImageFileDataset.target_transform := None |} 0 0 "001.png");
    reflexivity.
Defined.

(** ** LMDBDataset: keys *)

(** A store laid out as the dataset expects: the counter under ["length"]
    and a record under the key of each index in [[0, n)], nothing else. *)
Definition holds_records (env : lmdb.Environment) (n : Z) : Prop :=
  forall key, is_Some (lmdb.records env !! key)
              <-> key = "length" \/ exists i, 0 <= i < n /\ key = str i.

Lemma str_inj (i j : Z) : str i = str j -> i = j.
Proof. apply pretty_Z_inj. Qed.

Lemma pretty_N_go_head (x : N) (c : ascii) (t : string) : forall s,
  (forall y, pretty_N_char y <> c) ->
  s <> String c t -> pretty_N_go x s <> String c t.
Proof.
  intros s Hc. revert s.
  induction (N.lt_wf_0 x) as [x _ IH]; intros s Hs.
  assert (x = 0 \/ 0 < x)%N as [-> | Hpos] by lia.
  - by rewrite pretty_N_go_0.
  - rewrite pretty_N_go_step by done. apply IH.
    + by apply N.div_lt.
    + intros [= Hchar _]. by apply (Hc _ Hchar).
Qed.

(** The key of an index is never the key of the counter. *)
Lemma str_not_length (i : Z) : str i <> "length".
Proof.
  assert (forall y, pretty_N_char y <> "l"%char) as Hl.
  { intros y. unfold pretty_N_char. by repeat case_match. }
  unfold str, pretty, pretty_Z. destruct i as [| p | p]; [done | | done].
  unfold pretty, pretty_positive, pretty, pretty_N.
  case_decide; [done |]. by apply pretty_N_go_head.
Qed.

(** X3. Records are kept apart by their index: after a record is put under
    the key of index [i], [__getitem__] at [i] decodes exactly that record,
    and at every other index it answers as before the record was put. *)
Theorem LMDBDataset_getitem_put {ndarray tensor : Type}
    (unpickle : string -> result (CodeRow ndarray))
    (from_numpy : ndarray -> tensor)
    (env : lmdb.Environment) (len i j : Z) (data : string) :
  let env' := {| lmdb.records := <[str i := data]> (lmdb.records env) |} in
  LMDBDataset.__getitem__ unpickle from_numpy
    {| LMDBDataset.env := env'; LMDBDataset.length := len |} i
  = (fun row => (from_numpy (top row), from_numpy (bottom row), filename row))
      <$> unpickle data
  /\ (j <> i ->
      LMDBDataset.__getitem__ unpickle from_numpy
        {| LMDBDataset.env := env'; LMDBDataset.length := len |} j
      = LMDBDataset.__getitem__ unpickle from_numpy
          {| LMDBDataset.env := env; LMDBDataset.length := len |} j).
Proof.
  simpl. unfold LMDBDataset.__getitem__, lmdb.txn_get, encode_utf8; simpl.
  split.
  - rewrite lookup_insert_eq. simpl. by destruct (unpickle data).
  - intros Hne. rewrite lookup_insert_ne; [done |].
    intros Heq. apply str_inj in Heq. congruence.
Qed.

Lemma LMDBDataset_getitem_put_witness :
  LMDBDataset.__getitem__ SampleStore.unpickle SampleStore.from_numpy
    {| LMDBDataset.env :=
         {| lmdb.records := <[str 3 := "x"]> (lmdb.records SampleStore.counter_only) |};
       LMDBDataset.length := 5 |} (-3)
  = LMDBDataset.__getitem__ SampleStore.unpickle SampleStore.from_numpy
      {| LMDBDataset.env := SampleStore.counter_only; LMDBDataset.length := 5 |} (-3).
Proof.
  apply (LMDBDataset_getitem_put SampleStore.unpickle SampleStore.from_numpy
           SampleStore.counter_only 5 3 (-3) "x").
  lia.
Defined.

(** X4. On a store that holds the counter and the records of the indices
    [0 .. n-1] and nothing else, [__getitem__] raises [TypeError] for every
    index outside [[0, n)]: a negative index does not count from the end,
    and the key ["length"] is never read as a record.  Inside the range the
    record under the key is the one decoded. *)
Theorem LMDBDataset_getitem_range {ndarray tensor : Type}
    (unpickle : string -> result (CodeRow ndarray))
    (from_numpy : ndarray -> tensor)
    (env : lmdb.Environment) (len n index : Z) :
  holds_records env n ->
  (index < 0 \/ n <= index ->
   LMDBDataset.__getitem__ unpickle from_numpy
     {| LMDBDataset.env := env; LMDBDataset.length := len |} index
   = Raise TypeError)
  /\ (0 <= index < n ->
      exists data,
        lmdb.records env !! str index = Some data
        /\ LMDBDataset.__getitem__ unpickle from_numpy
             {| LMDBDataset.env := env; LMDBDataset.length := len |} index
           = (fun row => (from_numpy (top row), from_numpy (bottom row),
                          filename row)) <$> unpickle data).
Proof.
  intros Hstore. unfold LMDBDataset.__getitem__, lmdb.txn_get, encode_utf8.
  simpl. split.
  - intros Hout.
    destruct (lmdb.records env !! str index) as [data|] eqn:Hdata; [| done].
    destruct (proj1 (Hstore (str index))) as [Hlen | (i & Hi & Hkey)];
      [by rewrite Hdata | by destruct (str_not_length index) |].
    apply str_inj in Hkey. lia.
  - intros Hin.
    destruct (proj2 (Hstore (str index))) as [data Hdata]; [right; eauto |].
    exists data. split; [done |]. rewrite Hdata. simpl.
    by destruct (unpickle data).
Qed.

Lemma LMDBDataset_getitem_range_witness :
  LMDBDataset.__getitem__ SampleStore.unpickle SampleStore.from_numpy
    {| LMDBDataset.env :=
         {| lmdb.records := {[ "length" := "1"; "0" := "x" ]} |};
       LMDBDataset.length := 1 |} (-1)
  = Raise TypeError.
Proof.
  refine (proj1 (LMDBDataset_getitem_range SampleStore.unpickle
                   SampleStore.from_numpy
                   {| lmdb.records := {[ "length" := "1"; "0" := "x" ]} |}
                   1 1 (-1) _) _); [| lia].
  intros key. simpl. split.
  - intros [data Hdata].
    destruct (decide (key = "length")) as [-> | Hlen]; [by left |].
    rewrite lookup_insert_ne in Hdata by done.
    destruct (decide (key = "0")) as [-> | H0].
    + right. exists 0. split; [lia | reflexivity].
    + by rewrite lookup_singleton_ne in Hdata.
  - intros [-> | (i & Hi & ->)].
    + by rewrite lookup_insert_eq.
    + assert (i = 0) as -> by lia. by eexists.
Defined.

(** ** CUBDataset.__getitem__: indices, the generator, the two views *)

Lemma list_getitem_out_of_range {A} (l : list A) (idx : Z) :
  idx < - Z.of_nat (length l) \/ Z.of_nat (length l) <= idx ->
  list_getitem l idx = Raise IndexError.
Proof.
  intros Hout. unfold list_getitem.
  destruct (idx <? 0) eqn:Hneg.
  - destruct (idx + Z.of_nat (length l) <? 0) eqn:Hlow; [done | lia].
  - destruct (idx <? 0) eqn:Hneg'; [lia |].
    destruct (Z.of_nat (length l) <=? idx) eqn:Hhigh; [done | lia].
Qed.

Lemma list_getitem_in_range {A} (l : list A) (idx : Z) :
  0 <= idx < Z.of_nat (length l) ->
  exists x, l !! Z.to_nat idx = Some x /\ list_getitem l idx = Ok x.
Proof.
  intros Hin.
  destruct (lookup_lt_is_Some_2 l (Z.to_nat idx)) as [x Hx]; [lia |].
  exists x. split; [done |]. apply list_getitem_nonneg; [lia | done].
Qed.

(** X5. With [n] the number of filtered rows, an index outside
    [[-n, n)] makes [__getitem__] raise [IndexError] at once: the result
    does not depend on any file and the generator is left as it was.  An
    index in [[0, n)] of an instance whose lists are equally long reads the
    two paths at that position. *)
Theorem CUBDataset_getitem_index_range {R : RandomSource} (w : World)
    (self : CUBDataset.t) (idx : Z) (g : RandomState) :
  let n := Z.of_nat (length (CUBDataset.filtered_images self)) in
  (idx < - n \/ n <= idx ->
   CUBDataset.__getitem__ w self idx g = (Raise IndexError, g))
  /\ (0 <= idx < n ->
      length (CUBDataset.filtered_images self)
      = length (CUBDataset.filtered_annotations self) ->
      exists img_path annotation_path,
        CUBDataset.filtered_images self !! Z.to_nat idx = Some img_path
        /\ CUBDataset.filtered_annotations self !! Z.to_nat idx
           = Some annotation_path
        /\ list_getitem (CUBDataset.filtered_images self) idx = Ok img_path
        /\ list_getitem (CUBDataset.filtered_annotations self) idx
           = Ok annotation_path).
Proof.
  intros n. split.
  - intros Hout. rewrite getitem_unfold.
    by rewrite (list_getitem_out_of_range _ idx Hout).
  - intros Hin Hlen.
    destruct (list_getitem_in_range (CUBDataset.filtered_images self) idx Hin)
      as (img_path & Hrow_i & Hget_i).
    assert (0 <= idx < Z.of_nat (length (CUBDataset.filtered_annotations self)))
      as Hin' by (rewrite <- Hlen; exact Hin).
    destruct (list_getitem_in_range (CUBDataset.filtered_annotations self) idx Hin')
      as (annotation_path & Hrow_a & Hget_a).
    by exists img_path, annotation_path.
Qed.

Lemma CUBDataset_getitem_index_range_witness :
  CUBDataset.__getitem__ (R := counter_source) Sample.no_annotations
    Sample.train_set (-2) 4%nat = (Raise IndexError, 4%nat).
Proof.
  apply (CUBDataset_getitem_index_range (R := counter_source)
           Sample.no_annotations Sample.train_set (-2) 4%nat).
  simpl. lia.
Defined.

(** The state of the generator when the transform step of an access is
    over: the state the transform leaves, if the access gets as far as
    calling one, and the state the access found otherwise. *)
Definition state_after_transform {R : RandomSource} (w : World)
    (self : CUBDataset.t) (idx : Z) (g : RandomState) : RandomState :=
  match list_getitem (CUBDataset.filtered_images self) idx,
        list_getitem (CUBDataset.filtered_annotations self) idx with
  | Ok img_path, Ok _ =>
      match Image_open w img_path, CUBDataset.transform self with
      | Ok im, Some f => (f (PILImg im) g).2
      | _, _ => g
      end
  | _, _ => g
  end.

(** A transform that uses the generator moves it even in an access that
    then fails: here the annotation file is empty, the access raises the
    [IndexError] of [random.choice], and the generator has gone from state
    9 to state 10. *)
Lemma getitem_failure_after_random_transform :
  CUBDataset.__getitem__ (R := counter_source) Sample.corpus
    Sample.random_test_set 0 9%nat = (Raise IndexError, 10%nat)
  /\ ~ generator_free Sample.random_test_set.
Proof.
  split; [reflexivity |].
  intros [f0 Hf].
  pose proof (Hf (PILImg Sample.rgb) 0%nat) as H0. discriminate H0.
Qed.

(** The image part leaves the generator where the transform left it. *)
Lemma image_steps_state {R : RandomSource} w self img_path g :
  (image_steps w self img_path g).2
  = match Image_open w img_path, CUBDataset.transform self with
    | Ok im, Some f => (f (PILImg im) g).2
    | _, _ => g
    end.
Proof.
  rewrite image_steps_unfold.
  destruct (Image_open w img_path) as [im|]; [| done].
  destruct (CUBDataset.transform self) as [f|].
  - destruct (f (PILImg im) g) as [[img|] g1]; [| done].
    by destruct (Resize w (128%nat, 128%nat) img).
  - unfold py_ret. by destruct (Resize w (128%nat, 128%nat) (PILImg im)).
Qed.

(** X6. The caption is drawn only when everything before it succeeded: an
    access that fails leaves the generator in the state in which the
    transform step left it.  That is the state the access found when the
    failure comes before the transform is called (an index out of range,
    an image that does not open), when there is no transform, and when the
    transform does not use the generator. *)
Theorem CUBDataset_getitem_failure_keeps_generator {R : RandomSource}
    (w : World) (self : CUBDataset.t) (idx : Z) (g : RandomState) (e : exn) :
  (CUBDataset.__getitem__ w self idx g).1 = Raise e ->
  (CUBDataset.__getitem__ w self idx g).2 = state_after_transform w self idx g
  /\ (generator_free self -> (CUBDataset.__getitem__ w self idx g).2 = g)
  /\ (forall img_path,
         list_getitem (CUBDataset.filtered_images self) idx = Ok img_path ->
         raises (Image_open w img_path) ->
         (CUBDataset.__getitem__ w self idx g).2 = g)
  /\ (raises (list_getitem (CUBDataset.filtered_images self) idx) ->
      (CUBDataset.__getitem__ w self idx g).2 = g).
Proof.
  intros Hfail.
  assert ((CUBDataset.__getitem__ w self idx g).2
          = state_after_transform w self idx g) as Hstate.
  { revert Hfail. unfold state_after_transform. rewrite getitem_unfold.
    destruct (list_getitem (CUBDataset.filtered_images self) idx)
      as [img_path|]; [| done].
    destruct (list_getitem (CUBDataset.filtered_annotations self) idx)
      as [annotation_path|]; [| done].
    rewrite <- image_steps_state.
    destruct (image_steps w self img_path g) as [[[img low]|] g1]; [| done].
    destruct (open_read w annotation_path) as [fp|]; [| done].
    destruct (readlines fp) as [| line lines] eqn:Hlines; [done |].
    assert (line :: lines <> []) as Hne by done.
    destruct (random_choice_draw (line :: lines) g1 Hne) as (_ & x & _ & ->).
    discriminate. }
  split; [exact Hstate |]. split; [| split].
  - intros Hfree. rewrite Hstate. unfold state_after_transform.
    destruct (list_getitem (CUBDataset.filtered_images self) idx); [| done].
    destruct (list_getitem (CUBDataset.filtered_annotations self) idx);
      [| done].
    destruct (Image_open w a) as [im|]; [| done].
    unfold generator_free in Hfree.
    destruct (CUBDataset.transform self) as [f|]; [| done].
    destruct Hfree as [f0 Hf]. by rewrite Hf.
  - intros img_path Hpath Hopen. rewrite Hstate. unfold state_after_transform.
    rewrite Hpath.
    destruct (list_getitem (CUBDataset.filtered_annotations self) idx);
      [| done].
    destruct (Image_open w img_path); [by destruct Hopen | done].
  - intros Hidx. rewrite Hstate. unfold state_after_transform.
    destruct (list_getitem (CUBDataset.filtered_images self) idx);
      [by destruct Hidx | done].
Qed.

Lemma CUBDataset_getitem_failure_keeps_generator_witness :
  (CUBDataset.__getitem__ (R := counter_source) Sample.corpus
     Sample.test_set 0 9%nat).2 = 9%nat
  /\ (CUBDataset.__getitem__ (R := counter_source) Sample.corpus
        Sample.random_test_set 0 9%nat).2 = 10%nat.
Proof.
  split.
  - exact (proj1 (proj2 (CUBDataset_getitem_failure_keeps_generator
                           (R := counter_source) Sample.corpus Sample.test_set
                           0 9%nat IndexError eq_refl)) I).
  - exact (proj1 (CUBDataset_getitem_failure_keeps_generator
                    (R := counter_source) Sample.corpus Sample.random_test_set
                    0 9%nat IndexError eq_refl)).
Defined.

(** X7. In every example that [__getitem__] returns, the low-resolution
    view is the 128x128 resize of the returned image itself, that is, of
    the image after the transform; the returned image is the transform of
    the image opened at the row's path, or that image as opened when there
    is no transform. *)
Theorem CUBDataset_getitem_views {R : RandomSource} (w : World)
    (self : CUBDataset.t) (idx : Z) (g g' : RandomState)
    (img img_low_res : Img) (caption : string) :
  CUBDataset.__getitem__ w self idx g = (Ok (img, img_low_res, caption), g') ->
  Resize w (128%nat, 128%nat) img = Ok img_low_res
  /\ exists img_path im,
      list_getitem (CUBDataset.filtered_images self) idx = Ok img_path
      /\ Image_open w img_path = Ok im
      /\ match CUBDataset.transform self with
         | Some f => (f (PILImg im) g).1 = Ok img
         | None => img = PILImg im
         end.
Proof.
  rewrite getitem_unfold.
  destruct (list_getitem (CUBDataset.filtered_images self) idx)
    as [img_path|]; [| discriminate].
  destruct (list_getitem (CUBDataset.filtered_annotations self) idx)
    as [annotation_path|]; [| discriminate].
  destruct (image_steps w self img_path g) as [[[img0 low0]|] g1] eqn:Hsteps;
    [| discriminate].
  destruct (open_read w annotation_path) as [fp|]; [| discriminate].
  destruct (random_choice (readlines fp) g1) as [[a|] g0]; [| discriminate].
  intros [= -> -> _ _].
  rewrite image_steps_unfold in Hsteps.
  destruct (Image_open w img_path) as [im|] eqn:Him; [| discriminate].
  destruct (CUBDataset.transform self) as [f|].
  - destruct (f (PILImg im) g) as [[img1|] g2] eqn:Hf; [| discriminate].
    destruct (Resize w (128%nat, 128%nat) img1) as [low1|] eqn:Hresize;
      [| discriminate].
    injection Hsteps as <- <- _. split; [done |].
    exists img_path, im. rewrite Hf. repeat split; done.
  - unfold py_ret in Hsteps.
    destruct (Resize w (128%nat, 128%nat) (PILImg im)) as [low1|] eqn:Hresize;
      [| discriminate].
    injection Hsteps as <- <- _. split; [done |].
    exists img_path, im. repeat split; done.
Qed.

Lemma CUBDataset_getitem_views_witness :
  Resize Sample.corpus (128%nat, 128%nat) (PILImg Sample.rgb)
  = Ok (PILImg {| PIL.mode := PIL.RGB; PIL.width := 128;
                  PIL.height := 128; PIL.pixels := [] |}).
Proof.
  apply (CUBDataset_getitem_views (R := counter_source) Sample.corpus
           Sample.train_set 0 0%nat 1%nat (PILImg Sample.rgb)
           (PILImg {| PIL.mode := PIL.RGB; PIL.width := 128;
                      PIL.height := 128; PIL.pixels := [] |})
           (String "a" (String LF ""))).
  reflexivity.
Defined.

(** ** CUBDataset.collate_fn: what it refuses *)

Lemma getitem_without_transform {R : RandomSource} w self idx g g' ex :
  CUBDataset.transform self = None ->
  CUBDataset.__getitem__ w self idx g = (Ok ex, g') ->
  exists im, ex.1.1 = PILImg im.
Proof.
  intros Htr. rewrite getitem_unfold.
  destruct (list_getitem (CUBDataset.filtered_images self) idx)
    as [img_path|]; [| discriminate].
  destruct (list_getitem (CUBDataset.filtered_annotations self) idx)
    as [annotation_path|]; [| discriminate].
  destruct (image_steps w self img_path g) as [[[img0 low0]|] g1] eqn:Hsteps;
    [| discriminate].
  destruct (open_read w annotation_path) as [fp|]; [| discriminate].
  destruct (random_choice (readlines fp) g1) as [[a|] g0]; [| discriminate].
  intros [= <- _]. simpl.
  rewrite image_steps_unfold, Htr in Hsteps.
  destruct (Image_open w img_path) as [im|]; [| discriminate].
  unfold py_ret in Hsteps.
  destruct (Resize w (128%nat, 128%nat) (PILImg im)); [| discriminate].
  injection Hsteps as <- _ _. by exists im.
Qed.

(** X8. Examples assembled by a loader that has no transform cannot be
    collated: their images are PIL images, and [collate_fn] raises
    [TypeError] on every non-empty batch of them, before the tokenizer is
    called. *)
Theorem CUBDataset_collate_fn_needs_transform {R : RandomSource} (w : World)
    (self : CUBDataset.t) (batch : list CUBDataset.Example) :
  CUBDataset.transform self = None ->
  batch <> [] ->
  (forall ex, In ex batch ->
     exists idx g g', CUBDataset.__getitem__ w self idx g = (Ok ex, g')) ->
  CUBDataset.collate_fn self batch = Raise TypeError.
Proof.
  intros Htr Hne Hbatch.
  destruct batch as [| ex batch']; [done |].
  destruct (Hbatch ex (or_introl eq_refl)) as (idx & g & g' & Hget).
  destruct (getitem_without_transform _ _ _ _ _ _ Htr Hget) as [im Him].
  unfold CUBDataset.collate_fn, CUBDataset.zip_star, torch_stack.
  cbn [mbind result_bind map mapM]. by rewrite Him.
Qed.

Lemma CUBDataset_collate_fn_needs_transform_witness :
  CUBDataset.collate_fn Sample.train_set
    [(PILImg Sample.rgb,
      PILImg {| PIL.mode := PIL.RGB; PIL.width := 128;
                PIL.height := 128; PIL.pixels := [] |},
      String "a" (String LF ""))]
  = Raise TypeError.
Proof.
  apply (CUBDataset_collate_fn_needs_transform (R := counter_source)
           Sample.corpus Sample.train_set); [reflexivity | discriminate |].
  intros ex [<- | []]. exists 0, 0%nat, 1%nat. reflexivity.
Defined.

Lemma torch_stack_mismatch (ts : list torch.Tensor) :
  (exists t t', In t ts /\ In t' ts /\ torch.shape t <> torch.shape t') ->
  torch_stack (map TensorImg ts) = Raise RuntimeError.
Proof.
  intros (t & t' & Ht & Ht' & Hne). unfold torch_stack.
  rewrite mapM_tensors. simpl.
  destruct ts as [| t0 ts']; [done |]. unfold torch.stack.
  destruct (forallb (fun t => bool_decide (torch.shape t = torch.shape t0))
                    (t0 :: ts')) eqn:Hall; [| done].
  rewrite forallb_forall in Hall.
  pose proof (Hall t Ht) as H1. pose proof (Hall t' Ht') as H2.
  apply bool_decide_eq_true in H1, H2. congruence.
Qed.

Lemma torch_stack_tensors_cases (ts : list torch.Tensor) :
  is_Ok (torch_stack (map TensorImg ts))
  \/ torch_stack (map TensorImg ts) = Raise RuntimeError.
Proof.
  unfold torch_stack. rewrite mapM_tensors. simpl.
  destruct ts as [| t0 ts']; [by right |]. unfold torch.stack.
  destruct (forallb _ (t0 :: ts')); [by left | by right].
Qed.

(** X9. A batch of tensor examples in which two full-size images, or two
    low-resolution views, differ in shape is refused: [collate_fn] raises
    [RuntimeError] and nothing is padded or cut. *)
Theorem CUBDataset_collate_fn_shape_mismatch {R : RandomSource}
    (self : CUBDataset.t)
    (batch : list CUBDataset.Example) (firsts seconds : list torch.Tensor) :
  map (fun ex => ex.1.1) batch = map TensorImg firsts ->
  map (fun ex => ex.1.2) batch = map TensorImg seconds ->
  (exists t t', In t firsts /\ In t' firsts
                /\ torch.shape t <> torch.shape t')
  \/ (exists t t', In t seconds /\ In t' seconds
                   /\ torch.shape t <> torch.shape t') ->
  CUBDataset.collate_fn self batch = Raise RuntimeError.
Proof.
  intros Hfirsts Hseconds Hmismatch.
  assert (batch <> []) as Hne.
  { intros ->. simpl in Hfirsts, Hseconds.
    destruct firsts; [| discriminate]. destruct seconds; [| discriminate].
    destruct Hmismatch as [(t & _ & [] & _) | (t & _ & [] & _)]. }
  unfold CUBDataset.collate_fn, CUBDataset.zip_star.
  destruct batch as [| ex batch']; [done |].
  cbn [mbind result_bind]. rewrite Hfirsts, Hseconds.
  destruct Hmismatch as [Hm | Hm].
  - by rewrite (torch_stack_mismatch firsts Hm).
  - destruct (torch_stack_tensors_cases firsts) as [Hok | ->]; [| done].
    destruct (torch_stack (map TensorImg firsts)) as [stacked|]; [| done].
    cbn [mbind result_bind]. by rewrite (torch_stack_mismatch seconds Hm).
Qed.

Lemma CUBDataset_collate_fn_shape_mismatch_witness :
  CUBDataset.collate_fn Sample.train_set
    [Sample.example_a;
     (TensorImg Sample.low_res, TensorImg Sample.low_res, String LF "")]
  = Raise RuntimeError.
Proof.
  apply (CUBDataset_collate_fn_shape_mismatch Sample.train_set _
           [Sample.pixels_a; Sample.low_res] [Sample.low_res; Sample.low_res]);
    [reflexivity | reflexivity |].
  left. exists Sample.pixels_a, Sample.low_res.
  split; [by left |]. split; [right; by left | discriminate].
Defined.

(** ** CUBDataset.__init__: the rows behind the two lists *)

(** The two files that the first loop derives from a row of the image-path
    table and the class name at the same position. *)
Definition image_file (root : string) (row : string * string) : string :=
  os_path.join root ["images"; row.1].

Definition annotation_file (root : string) (row : string * string) : string :=
  os_path.join root
    ["text_c10"; row.2;
     (os_path.basename (os_path.splitext row.1).1 ++ ".txt")%string].

(** The annotation series before the split selection. *)
Definition full_annotations (root : string) (img_path_map : pd.DataFrame string)
    (names : list string) : pd.Series string :=
  zip (pd.index img_path_map)
      (map (annotation_file root) (zip (pd.values (pd.col1 img_path_map)) names)).

(** The rest of [__init__] once the class names are attached. *)
Definition finish_init {R : RandomSource} (w : World) (root mode : string)
    (tr : option (Img -> Py Img)) (pre : string) (ml : Z) (tok : Tokenizer)
    (img_path_map : pd.DataFrame string) (train_test_map : pd.DataFrame Z)
    (names : list string) : result CUBDataset.t :=
  '(images, text_annotations)
    ← CUBDataset.select_split mode (pd.index img_path_map) train_test_map
        (full_images root img_path_map)
        (full_annotations root img_path_map names);
  '(filtered_images, filtered_annotations)
    ← CUBDataset.remove_grayscale w
        (zip (pd.values images) (pd.values text_annotations)) [] [];
  Ok {| CUBDataset.root := root; CUBDataset.mode := mode;
        CUBDataset.transform := tr; CUBDataset.pretrained := pre;
        CUBDataset.tokenizer := tok; CUBDataset.max_length := ml;
        CUBDataset.images := images;
        CUBDataset.text_annotations := text_annotations;
        CUBDataset.filtered_images := filtered_images;
        CUBDataset.filtered_annotations := filtered_annotations |}.

Lemma full_annotations_index root img_path_map names :
  length names = length img_path_map ->
  pd.index (full_annotations root img_path_map names) = pd.index img_path_map.
Proof.
  intros Hlen. unfold full_annotations. apply zip_index.
  rewrite length_map, length_zip. unfold pd.values, pd.index, pd.col1.
  rewrite !length_map. lia.
Qed.

Lemma init_forward {R : RandomSource} w root mode tr pre ml g tok
    img_path_map train_test_map img_label_map label_cls_map img_cls_map :
  isdir w root = true ->
  from_pretrained w pre = Ok tok ->
  CUBDataset.read_tables w root
  = Ok (img_path_map, train_test_map, img_label_map, label_cls_map) ->
  CUBDataset.class_names (pd.index img_path_map) img_label_map label_cls_map
  = Ok img_cls_map ->
  length (pd.values img_cls_map) = length img_path_map
  /\ CUBDataset.__init__ w root mode tr pre ml g
     = (finish_init w root mode tr pre ml tok img_path_map train_test_map
          (pd.values img_cls_map), g).
Proof.
  intros Hdir Htok Htab Hicm.
  assert (length (pd.values img_cls_map) = length img_path_map) as Hnames.
  { unfold CUBDataset.class_names in Hicm.
    apply bind_Ok_inv in Hicm as (named & _ & Hicm).
    apply mk_Series_inv in Hicm as [-> Hlen].
    rewrite zip_values by done. rewrite Hlen.
    unfold pd.index. by rewrite length_map. }
  split; [done |].
  unfold CUBDataset.__init__, lift. rewrite Hdir, Htok, Htab.
  cbn [negb mbind result_bind]. rewrite Hicm. cbn [mbind result_bind].
  rewrite collect_paths_spec. cbn [app].
  assert (length (pd.values (pd.col1 img_path_map))
          = length (pd.values img_cls_map)) as Hlen.
  { rewrite Hnames. unfold pd.values, pd.col1. by rewrite length_map. }
  assert (length (zip (pd.values (pd.col1 img_path_map)) (pd.values img_cls_map))
          = length (pd.index img_path_map)) as Hzip.
  { rewrite length_zip, <- Hlen, Nat.min_id.
    unfold pd.values, pd.index, pd.col1. by rewrite !length_map. }
  rewrite !mk_Series_Ok by (by rewrite length_map).
  cbn [mbind result_bind].
  rewrite (map_fst_zip (fun p => os_path.join root ["images"; p])) by done.
  reflexivity.
Qed.

Lemma init_Ok_rows {R : RandomSource} w root mode tr pre ml g self
    img_path_map train_test_map img_label_map label_cls_map :
  (CUBDataset.__init__ w root mode tr pre ml g).1 = Ok self ->
  CUBDataset.read_tables w root
  = Ok (img_path_map, train_test_map, img_label_map, label_cls_map) ->
  exists names,
    length names = length img_path_map
    /\ CUBDataset.class_names (pd.index img_path_map) img_label_map label_cls_map
       = Ok (zip (pd.index img_path_map) names)
    /\ finish_init w root mode tr pre ml (CUBDataset.tokenizer self)
         img_path_map train_test_map names = Ok self.
Proof.
  intros Hinit Htab.
  destruct (init_Ok_inv _ _ _ _ _ _ _ _ Hinit)
    as (ipm & ttm & ilm & lcm & icm & ims & tas
        & Hdir & Htok & Htab' & Hicm & _).
  rewrite Htab in Htab'. injection Htab' as <- <- <- <-.
  destruct (init_forward w root mode tr pre ml g _ _ _ _ _ _
              Hdir Htok Htab Hicm) as [Hnames Hrun].
  rewrite Hrun in Hinit. simpl in Hinit.
  exists (pd.values icm). split; [done |]. split; [| done].
  unfold CUBDataset.class_names in Hicm |- *.
  destruct (pd.loc _ _) as [named|]; [| discriminate]. simpl in *.
  apply mk_Series_inv in Hicm as [-> Hlen].
  rewrite zip_values by done. by apply mk_Series_Ok.
Qed.

Lemma masked_map {A B} (f : A -> B) (xs : list A) : forall mask,
  masked (map f xs) mask = map f (masked xs mask).
Proof.
  unfold masked.
  induction xs as [| x xs' IH]; intros [| b mask']; simpl; try done.
  destruct b; simpl; by rewrite IH.
Qed.

Lemma masked_length {A B} (xs : list A) (ys : list B) : forall mask,
  length xs = length ys -> length (masked xs mask) = length (masked ys mask).
Proof.
  unfold masked. revert ys.
  induction xs as [| x xs' IH]; intros [| y ys'] [| b mask'] Hlen;
    simpl in *; try done.
  destruct b; simpl; auto.
Qed.

Lemma zip_map_both {A B C} (f : A -> B) (g : A -> C) (l : list A) :
  zip (map f l) (map g l) = map (fun x => (f x, g x)) l.
Proof. induction l as [| x l' IH]; simpl; [done | by rewrite IH]. Qed.

Lemma filter_map_comm {A B} (P : B -> bool) (h : A -> B) (l : list A) :
  List.filter P (map h l) = map h (List.filter (fun x => P (h x)) l).
Proof.
  induction l as [| x l' IH]; simpl; [done |].
  destruct (P (h x)); simpl; by rewrite IH.
Qed.

Lemma filter_sublist {A} (P : A -> bool) (l : list A) :
  List.filter P l `sublist_of` l.
Proof.
  induction l as [| x l' IH]; simpl; [constructor |].
  destruct (P x); [by apply sublist_skip | by apply sublist_cons].
Qed.

Lemma full_images_values root img_path_map names :
  length names = length img_path_map ->
  pd.values (full_images root img_path_map)
  = map (image_file root) (zip (pd.values (pd.col1 img_path_map)) names).
Proof.
  intros Hlen. unfold full_images.
  rewrite zip_values
    by (unfold pd.values, pd.index, pd.col1; by rewrite !length_map).
  unfold image_file. symmetry.
  apply (map_fst_zip (fun p => os_path.join root ["images"; p])).
  unfold pd.values, pd.col1. rewrite length_map. lia.
Qed.

Lemma full_annotations_values root img_path_map names :
  length names = length img_path_map ->
  pd.values (full_annotations root img_path_map names)
  = map (annotation_file root) (zip (pd.values (pd.col1 img_path_map)) names).
Proof.
  intros Hlen. unfold full_annotations. apply zip_values.
  rewrite length_map, length_zip. unfold pd.values, pd.index, pd.col1.
  rewrite !length_map. lia.
Qed.

(** With unique ids, the pairs that enter the second loop: the two files
    of each table row that the split mask selects. *)
Lemma split_pairs root img_path_map names mask :
  length names = length img_path_map ->
  zip (pd.values (masked (full_images root img_path_map) mask))
      (pd.values (masked (full_annotations root img_path_map names) mask))
  = map (fun row => (image_file root row, annotation_file root row))
        (masked (zip (pd.values (pd.col1 img_path_map)) names) mask).
Proof.
  intros Hlen. unfold pd.values at 1 2.
  rewrite <- !masked_map.
  fold (pd.values (full_images root img_path_map)).
  fold (pd.values (full_annotations root img_path_map names)).
  rewrite (full_images_values root img_path_map names Hlen).
  rewrite (full_annotations_values root img_path_map names Hlen).
  rewrite !masked_map. apply zip_map_both.
Qed.

Lemma finish_init_unique {R : RandomSource} w root mode tr pre ml tok
    img_path_map train_test_map names :
  NoDup (pd.index img_path_map) ->
  length names = length img_path_map ->
  length train_test_map = length img_path_map ->
  let rows := masked (zip (pd.values (pd.col1 img_path_map)) names)
                (split_mask train_test_map (CUBDataset.filter_code mode)) in
  finish_init w root mode tr pre ml tok img_path_map train_test_map names
  = ('(filtered_images, filtered_annotations)
       ← CUBDataset.remove_grayscale w
           (map (fun row => (image_file root row, annotation_file root row)) rows)
           [] [];
     Ok {| CUBDataset.root := root; CUBDataset.mode := mode;
           CUBDataset.transform := tr; CUBDataset.pretrained := pre;
           CUBDataset.tokenizer := tok; CUBDataset.max_length := ml;
           CUBDataset.images :=
             masked (full_images root img_path_map)
               (split_mask train_test_map (CUBDataset.filter_code mode));
           CUBDataset.text_annotations :=
             masked (full_annotations root img_path_map names)
               (split_mask train_test_map (CUBDataset.filter_code mode));
           CUBDataset.filtered_images := filtered_images;
           CUBDataset.filtered_annotations := filtered_annotations |}).
Proof.
  intros Hnd Hnames Hsplit rows. unfold finish_init.
  rewrite select_split_unique;
    [| apply full_images_index | by apply full_annotations_index | done
     | unfold pd.index; rewrite length_map; lia ].
  cbn [mbind result_bind]. by rewrite split_pairs.
Qed.

(** X10. When the tables are well formed (unique ids, unique class ids
    that cover the labels, as many label and split rows as image rows),
    construction succeeds exactly when every image of the chosen split can
    be opened: one unreadable image in the split aborts the construction,
    and the images of the other split are never opened. *)
Theorem CUBDataset_init_succeeds_iff {R : RandomSource} (w : World)
    (root mode : string) (tr : option (Img -> Py Img)) (pre : string)
    (ml : Z) (g : RandomState) (tok : Tokenizer)
    (img_path_map : pd.DataFrame string) (train_test_map img_label_map : pd.DataFrame Z)
    (label_cls_map : pd.DataFrame string) :
  isdir w root = true ->
  from_pretrained w pre = Ok tok ->
  CUBDataset.read_tables w root
  = Ok (img_path_map, train_test_map, img_label_map, label_cls_map) ->
  NoDup (pd.index img_path_map) ->
  NoDup (pd.index label_cls_map) ->
  (forall label, In label (pd.values img_label_map) ->
                 In label (pd.index label_cls_map)) ->
  length img_label_map = length img_path_map ->
  length train_test_map = length img_path_map ->
  is_Ok (CUBDataset.__init__ w root mode tr pre ml g).1
  <-> Forall (fun img_path =>
                is_Ok (Image_open w (os_path.join root ["images"; img_path])))
             (masked (pd.values (pd.col1 img_path_map))
                (split_mask train_test_map (CUBDataset.filter_code mode))).
Proof.
  intros Hdir Htok Htab Hnd Hnd_cls Hcover Hlabels Hsplit.
  destruct (loc_unique_length (pd.col1 label_cls_map)
              (pd.values (pd.col1 img_label_map)) Hnd_cls Hcover)
    as (named & Hloc & Hlen).
  assert (length (pd.values named) = length (pd.index img_path_map)) as Hnamed.
  { unfold pd.values, pd.index, pd.col1 in *.
    rewrite !length_map in *. lia. }
  assert (CUBDataset.class_names (pd.index img_path_map) img_label_map
            label_cls_map
          = Ok (zip (pd.index img_path_map) (pd.values named))) as Hicm.
  { unfold CUBDataset.class_names. rewrite Hloc. simpl.
    by apply mk_Series_Ok. }
  destruct (init_forward w root mode tr pre ml g _ _ _ _ _ _
              Hdir Htok Htab Hicm) as [Hnames ->].
  rewrite zip_values in Hnames |- * by done. cbn [fst].
  rewrite (finish_init_unique w root mode tr pre ml tok _ _ _
             Hnd Hnames Hsplit).
  set (mask := split_mask train_test_map (CUBDataset.filter_code mode)).
  set (table := zip (pd.values (pd.col1 img_path_map)) (pd.values named)).
  assert (masked (pd.values (pd.col1 img_path_map)) mask
          = map fst (masked table mask)) as ->.
  { rewrite <- masked_map. unfold table. f_equal. symmetry. apply fst_zip.
    unfold pd.values, pd.col1 in *. rewrite !length_map in *. lia. }
  split.
  - intros Hok.
    destruct (CUBDataset.remove_grayscale w _ [] []) as [[fi fa]|] eqn:Hrg;
      [| done].
    apply remove_grayscale_Ok in Hrg as (Hopen & _).
    rewrite Forall_map in Hopen |- *.
    eapply Forall_impl; [exact Hopen |]. by intros [img_path cls].
  - intros Hopen. rewrite remove_grayscale_total; [done |].
    rewrite Forall_map in Hopen |- *.
    eapply Forall_impl; [exact Hopen |]. by intros [img_path cls].
Qed.

Lemma CUBDataset_init_succeeds_iff_witness :
  is_Ok (CUBDataset.__init__ (R := counter_source) Sample.corpus
           "cub" "train" None "bert-base-cased" 64 0%nat).1
  <-> Forall (fun img_path =>
                is_Ok (Image_open Sample.corpus
                         (os_path.join "cub" ["images"; img_path])))
             ["001.A/a_1.jpg"; "001.A/a_2.jpg"].
Proof.
  apply (CUBDataset_init_succeeds_iff (R := counter_source) Sample.corpus
           "cub" "train" None "bert-base-cased" 64 0%nat Sample.byte_tokenizer
           Sample.images_txt Sample.train_test_split_txt
           Sample.image_class_labels_txt Sample.classes_txt);
    try reflexivity.
  - apply (bool_decide_unpack _). reflexivity.
  - apply (bool_decide_unpack _). reflexivity.
  - simpl. intros label [<- | [<- | [<- | []]]]; simpl; tauto.
Defined.

Lemma loc_index {A} (s : pd.Series A) keys : forall rows,
  pd.loc s keys = Ok rows ->
  pd.index rows
  = concat (map (fun k => List.filter (fun i => bool_decide (i = k)) (pd.index s))
                keys).
Proof.
  unfold pd.loc, pd.index.
  induction keys as [| k keys' IH]; intros rows Hloc; simpl in *.
  - by injection Hloc as <-.
  - destruct (pd.rows_with_label s k) as [| r rs] eqn:Hrows;
      [discriminate |]. simpl in Hloc.
    destruct (mapM _ keys') as [rss|]; simpl in *; [| discriminate].
    injection Hloc as <-.
    change (map fst ((r :: rs) ++ concat rss)
            = List.filter (fun i => bool_decide (i = k)) (map fst s)
              ++ concat (map (fun k0 => List.filter (fun i => bool_decide (i = k0))
                                          (map fst s)) keys')).
    rewrite map_app, (IH (concat rss) eq_refl), <- Hrows.
    unfold pd.rows_with_label. by rewrite filter_map_fst.
Qed.

(** X11. The two series and the two filtered lists stay aligned, whatever
    the tables hold: after a successful construction the image series and
    the annotation series of the chosen split carry the same ids in the
    same order, and the pairs formed position by position from the two
    filtered lists are, in order, pairs of that split (an image is never
    paired with the annotation of another row). *)
Theorem CUBDataset_init_pairs_aligned {R : RandomSource} (w : World)
    (root mode : string) (tr : option (Img -> Py Img)) (pre : string)
    (ml : Z) (g : RandomState) (self : CUBDataset.t) :
  (CUBDataset.__init__ w root mode tr pre ml g).1 = Ok self ->
  pd.index (CUBDataset.images self) = pd.index (CUBDataset.text_annotations self)
  /\ zip (CUBDataset.filtered_images self) (CUBDataset.filtered_annotations self)
     `sublist_of` zip (pd.values (CUBDataset.images self))
                      (pd.values (CUBDataset.text_annotations self)).
Proof.
  intros Hinit. split.
  - destruct (init_Ok_inv _ _ _ _ _ _ _ _ Hinit)
      as (ipm & ttm & ilm & lcm & icm & ims & tas
          & _ & _ & Htab & _ & _ & _ & _).
    destruct (init_Ok_split _ _ _ _ _ _ _ _ _ _ _ _ Hinit Htab)
      as (tas_full & Htas & Hsel & _).
    unfold CUBDataset.select_split in Hsel.
    apply bind_Ok_inv in Hsel as (valid_inds & _ & Hsel).
    apply bind_Ok_inv in Hsel as (ims' & Hims & Hsel).
    apply bind_Ok_inv in Hsel as (tas' & Htas' & Hsel).
    injection Hsel as <- <-.
    rewrite (loc_index _ _ _ Hims), (loc_index _ _ _ Htas').
    by rewrite full_images_index, Htas.
  - destruct (init_Ok_inv _ _ _ _ _ _ _ _ Hinit)
      as (? & ? & ? & ? & ? & ? & ? & _ & _ & _ & _ & _ & _ & _ & Hrg & _).
    apply remove_grayscale_Ok in Hrg as (_ & -> & ->). simpl.
    rewrite zip_fst_snd. apply filter_sublist.
Qed.

Lemma CUBDataset_init_pairs_aligned_witness :
  zip (CUBDataset.filtered_images Sample.train_set)
      (CUBDataset.filtered_annotations Sample.train_set)
  `sublist_of` zip (pd.values (CUBDataset.images Sample.train_set))
                   (pd.values (CUBDataset.text_annotations Sample.train_set)).
Proof.
  exact (proj2 (CUBDataset_init_pairs_aligned (R := counter_source)
                  Sample.corpus "cub" "train" None "bert-base-cased" 64 0%nat
                  Sample.train_set eq_refl)).
Defined.

(** X12. With unique ids, every filtered pair is derived from one row of
    the image-path table and the class name attached at that row's
    position: there is a sublist [rows] of the table rows (image path,
    class name), in table order, such that [filtered_images] holds the
    image file and [filtered_annotations] the annotation file of each of
    these rows. *)
Theorem CUBDataset_init_files_of_rows {R : RandomSource} (w : World)
    (root mode : string) (tr : option (Img -> Py Img)) (pre : string)
    (ml : Z) (g : RandomState) (self : CUBDataset.t)
    (img_path_map : pd.DataFrame string) (train_test_map img_label_map : pd.DataFrame Z)
    (label_cls_map : pd.DataFrame string) :
  (CUBDataset.__init__ w root mode tr pre ml g).1 = Ok self ->
  CUBDataset.read_tables w root
  = Ok (img_path_map, train_test_map, img_label_map, label_cls_map) ->
  NoDup (pd.index img_path_map) ->
  exists (names : list string) (rows : list (string * string)),
    length names = length img_path_map
    /\ CUBDataset.class_names (pd.index img_path_map) img_label_map label_cls_map
       = Ok (zip (pd.index img_path_map) names)
    /\ rows `sublist_of` zip (pd.values (pd.col1 img_path_map)) names
    /\ CUBDataset.filtered_images self = map (image_file root) rows
    /\ CUBDataset.filtered_annotations self = map (annotation_file root) rows.
Proof.
  intros Hinit Htab Hnd.
  destruct (init_Ok_rows _ _ _ _ _ _ _ _ _ _ _ _ Hinit Htab)
    as (names & Hnames & Hicm & Hfinish).
  destruct (init_Ok_split _ _ _ _ _ _ _ _ _ _ _ _ Hinit Htab)
    as (tas_full & _ & Hsel & _).
  destruct (select_split_index_In _ _ _ _ _ _ _ Hsel) as [Hsplit _].
  unfold pd.index in Hsplit. rewrite length_map in Hsplit.
  rewrite (finish_init_unique w root mode tr pre ml _ _ _ _ Hnd Hnames Hsplit)
    in Hfinish.
  set (table := zip (pd.values (pd.col1 img_path_map)) names) in *.
  set (mask := split_mask train_test_map (CUBDataset.filter_code mode)) in *.
  apply bind_Ok_inv in Hfinish as ([fi fa] & Hrg & Hself).
  injection Hself as <-. simpl.
  apply remove_grayscale_Ok in Hrg as (_ & -> & ->). simpl.
  rewrite filter_map_comm, !map_map. simpl.
  exists names, (List.filter
                   (fun row => survives w (image_file root row,
                                           annotation_file root row))
                   (masked table mask)).
  split; [done |]. split; [done |]. split; [| done].
  etrans; [apply filter_sublist | apply masked_sublist].
Qed.

Lemma CUBDataset_init_files_of_rows_witness :
  exists (names : list string) (rows : list (string * string)),
    rows `sublist_of` zip ["001.A/a_1.jpg"; "001.A/a_2.jpg"; "002.B/b_1.png"]
                          names
    /\ CUBDataset.filtered_images Sample.train_set = map (image_file "cub") rows
    /\ CUBDataset.filtered_annotations Sample.train_set
       = map (annotation_file "cub") rows.
Proof.
  destruct (CUBDataset_init_files_of_rows (R := counter_source) Sample.corpus
              "cub" "train" None "bert-base-cased" 64 0%nat Sample.train_set
              Sample.images_txt Sample.train_test_split_txt
              Sample.image_class_labels_txt Sample.classes_txt
              eq_refl eq_refl)
    as (names & rows & Hlen & Hnames & Hsub & Hfi & Hfa).
  { apply (bool_decide_unpack _). reflexivity. }
  exists names, rows. split; [exact Hsub | by split].
Defined.

(** ** CUBDataset.__init__: the two splits *)

(** X13. Every mode other than ['train'] selects the same corpus: built
    in the same world with two such modes (say ['val'] and ['test'], or a
    misspelt ['Train']), the loaders have the same series and the same
    filtered lists, and one construction fails exactly when the other
    does, with the same exception. *)
Theorem CUBDataset_init_other_modes {R : RandomSource} (w : World)
    (root mode mode' : string) (tr : option (Img -> Py Img)) (pre : string)
    (ml : Z) (g : RandomState) :
  mode <> "train" -> mode' <> "train" ->
  let built := (CUBDataset.__init__ w root mode tr pre ml g).1 in
  let built' := (CUBDataset.__init__ w root mode' tr pre ml g).1 in
  (CUBDataset.filtered_images <$> built) = (CUBDataset.filtered_images <$> built')
  /\ (CUBDataset.filtered_annotations <$> built)
     = (CUBDataset.filtered_annotations <$> built')
  /\ (CUBDataset.images <$> built) = (CUBDataset.images <$> built')
  /\ (CUBDataset.text_annotations <$> built)
     = (CUBDataset.text_annotations <$> built').
Proof.
  intros Hmode Hmode'.
  assert (forall A index ttm (ims tas : pd.Series A),
             CUBDataset.select_split mode index ttm ims tas
             = CUBDataset.select_split mode' index ttm ims tas) as Hsel.
  { intros. unfold CUBDataset.select_split, CUBDataset.filter_code.
    by rewrite !bool_decide_eq_false_2. }
  unfold CUBDataset.__init__, lift; simpl.
  destruct (isdir w root); simpl; [| done].
  destruct (from_pretrained w pre); simpl; [| done].
  destruct (CUBDataset.read_tables w root) as [[[[ipm ttm] ilm] lcm]|];
    simpl; [| done].
  destruct (CUBDataset.class_names _ _ _) as [icm|]; simpl; [| done].
  destruct (CUBDataset.collect_paths root _ [] []) as [ims0 tas0].
  destruct (pd.mk_Series ims0 _) as [ims|]; simpl; [| done].
  destruct (pd.mk_Series tas0 _) as [tas|]; simpl; [| done].
  rewrite Hsel.
  destruct (CUBDataset.select_split _ _ _ _ _) as [[ims' tas']|]; simpl;
    [| done].
  by destruct (CUBDataset.remove_grayscale w _ [] []) as [[fi fa]|].
Qed.

Lemma CUBDataset_init_other_modes_witness :
  (CUBDataset.filtered_images
   <$> (CUBDataset.__init__ (R := counter_source) Sample.corpus
          "cub" "val" None "bert-base-cased" 64 0%nat).1)
  = (CUBDataset.filtered_images
     <$> (CUBDataset.__init__ (R := counter_source) Sample.corpus
            "cub" "test" None "bert-base-cased" 64 0%nat).1).
Proof.
  apply (CUBDataset_init_other_modes (R := counter_source) Sample.corpus
           "cub" "val" "test" None "bert-base-cased" 64 0%nat);
    discriminate.
Defined.

Lemma masked_exclusive {A} (P Q : Z -> bool) (xs : list A) :
  (forall c, P c = true -> Q c = false) ->
  NoDup xs ->
  forall codes x,
    In x (masked xs (map P codes)) -> ~ In x (masked xs (map Q codes)).
Proof.
  intros Hexcl. unfold masked.
  induction xs as [| x0 xs' IH]; intros Hnd [| c codes'] x; simpl;
    try done.
  apply NoDup_cons in Hnd as [Hx0 Hnd].
  assert (forall (m : list bool) y,
             In y (map fst (List.filter snd (zip xs' m))) -> In y xs')
    as Hin by (intros m y; apply (masked_In xs' m y)).
  destruct (P c) eqn:HP; simpl.
  - rewrite (Hexcl c HP). simpl. intros [<- | Hx] Hx'.
    + apply Hx0, list_elem_of_In. eauto.
    + by apply (IH Hnd codes' x).
  - destruct (Q c); simpl.
    + intros Hx [<- | Hx'].
      * apply Hx0, list_elem_of_In. eauto.
      * by apply (IH Hnd codes' x).
    + apply (IH Hnd codes' x).
Qed.

Lemma masked_lengths_exclusive {A} (P Q : Z -> bool) (xs : list A) :
  (forall c, P c = true -> Q c = false) ->
  forall codes,
    (length (masked xs (map P codes)) + length (masked xs (map Q codes))
     <= length xs)%nat.
Proof.
  intros Hexcl. unfold masked.
  induction xs as [| x0 xs' IH]; intros [| c codes']; simpl; try lia.
  specialize (IH codes').
  destruct (P c) eqn:HP; simpl.
  - rewrite (Hexcl c HP). simpl. lia.
  - destruct (Q c); simpl; lia.
Qed.

(** X14. With unique ids, the training loader and the test loader built
    from the same directory share no id, and together they hold at most as
    many rows as the image-path table (a row whose split code is neither 0
    nor 1 belongs to neither). *)
Theorem CUBDataset_init_splits_disjoint {R : RandomSource} (w : World)
    (root mode' : string) (tr tr' : option (Img -> Py Img)) (pre : string)
    (ml ml' : Z) (g g' : RandomState) (train test : CUBDataset.t)
    (img_path_map : pd.DataFrame string) (train_test_map img_label_map : pd.DataFrame Z)
    (label_cls_map : pd.DataFrame string) :
  (CUBDataset.__init__ w root "train" tr pre ml g).1 = Ok train ->
  (CUBDataset.__init__ w root mode' tr' pre ml' g').1 = Ok test ->
  mode' <> "train" ->
  CUBDataset.read_tables w root
  = Ok (img_path_map, train_test_map, img_label_map, label_cls_map) ->
  NoDup (pd.index img_path_map) ->
  (forall id, In id (pd.index (CUBDataset.images train)) ->
              ~ In id (pd.index (CUBDataset.images test)))
  /\ (length (CUBDataset.images train) + length (CUBDataset.images test)
      <= length img_path_map)%nat.
Proof.
  intros Htrain Htest Hmode Htab Hnd.
  assert (Hindex : forall mode tr0 ml0 g0 self,
    (CUBDataset.__init__ w root mode tr0 pre ml0 g0).1 = Ok self ->
    pd.index (CUBDataset.images self)
    = masked (pd.index img_path_map)
        (map (fun c => bool_decide (c = CUBDataset.filter_code mode))
             (pd.values (pd.col1 train_test_map)))).
  { intros mode tr0 ml0 g0 self Hinit.
    destruct (init_Ok_split _ _ _ _ _ _ _ _ _ _ _ _ Hinit Htab)
      as (tas & Htas & Hsel & _).
    destruct (select_split_index_In _ _ _ _ _ _ _ Hsel) as [Hlen _].
    rewrite select_split_unique in Hsel
      by (done || by rewrite full_images_index).
    injection Hsel as <- _.
    by rewrite <- masked_index, full_images_index. }
  pose proof (Hindex _ _ _ _ _ Htrain) as Hi_train.
  pose proof (Hindex _ _ _ _ _ Htest) as Hi_test.
  assert (CUBDataset.filter_code "train" = 0) as Hc_train by reflexivity.
  assert (CUBDataset.filter_code mode' = 1) as Hc_test.
  { unfold CUBDataset.filter_code. by rewrite bool_decide_eq_false_2. }
  rewrite Hc_train in Hi_train. rewrite Hc_test in Hi_test.
  assert (forall c : Z, bool_decide (c = 0) = true -> bool_decide (c = 1) = false)
    as Hexcl.
  { intros c Hc. apply bool_decide_eq_true in Hc. subst c.
    by apply bool_decide_eq_false. }
  split.
  - intros id. rewrite Hi_train, Hi_test. by apply masked_exclusive.
  - pose proof (masked_lengths_exclusive
                  (fun c => bool_decide (c = 0)) (fun c => bool_decide (c = 1))
                  (pd.index img_path_map) Hexcl
                  (pd.values (pd.col1 train_test_map))) as Hsum.
    rewrite <- Hi_train, <- Hi_test in Hsum.
    unfold pd.index in Hsum. rewrite !length_map in Hsum. exact Hsum.
Qed.

Lemma CUBDataset_init_splits_disjoint_witness :
  ~ In 1 (pd.index (CUBDataset.images Sample.test_set))
  /\ (length (CUBDataset.images Sample.train_set)
      + length (CUBDataset.images Sample.test_set)
      <= length Sample.images_txt)%nat.
Proof.
  destruct (CUBDataset_init_splits_disjoint (R := counter_source)
              Sample.corpus "cub" "val" None None "bert-base-cased" 64 64
              0%nat 0%nat Sample.train_set Sample.test_set
              Sample.images_txt Sample.train_test_split_txt
              Sample.image_class_labels_txt Sample.classes_txt
              eq_refl eq_refl) as [Hdisjoint Hsum];
    [discriminate | reflexivity | | ].
  - apply (bool_decide_unpack _). reflexivity.
  - split; [apply Hdisjoint; by left | exact Hsum].
Defined.

(** X15. After a successful construction [len] is the number of pairs of
    the chosen split whose image does not decode to a two-dimensional
    array; it never exceeds the number of rows of that split. *)
Theorem CUBDataset_len_counts_survivors {R : RandomSource} (w : World)
    (root mode : string) (tr : option (Img -> Py Img)) (pre : string)
    (ml : Z) (g : RandomState) (self : CUBDataset.t) :
  (CUBDataset.__init__ w root mode tr pre ml g).1 = Ok self ->
  CUBDataset.__len__ self
  = Ok (Z.of_nat
          (length (List.filter (survives w)
                     (zip (pd.values (CUBDataset.images self))
                          (pd.values (CUBDataset.text_annotations self))))))
  /\ (length (CUBDataset.filtered_images self)
      <= length (CUBDataset.images self))%nat.
Proof.
  intros Hinit.
  destruct (init_Ok_inv _ _ _ _ _ _ _ _ Hinit)
    as (? & ? & ? & ? & ? & ? & ? & _ & _ & _ & _ & _ & _ & _ & Hrg & _).
  apply remove_grayscale_Ok in Hrg as (_ & Hfi & Hfa). simpl in Hfi, Hfa.
  unfold CUBDataset.__len__. rewrite Hfi, Hfa, !length_map.
  rewrite bool_decide_eq_true_2 by done. split; [done |].
  etrans; [apply sublist_length, filter_sublist |].
  rewrite length_zip. unfold pd.values. rewrite !length_map. lia.
Qed.

Lemma CUBDataset_len_counts_survivors_witness :
  CUBDataset.__len__ Sample.train_set = Ok 1.
Proof.
  exact (proj1 (CUBDataset_len_counts_survivors (R := counter_source)
                  Sample.corpus "cub" "train" None "bert-base-cased" 64 0%nat
                  Sample.train_set eq_refl)).
Defined.

(** ** The annotation file of an image *)

(** Does [s] consist of dots only? *)
Fixpoint all_dots (s : string) : bool :=
  match s with
  | EmptyString => true
  | String c s' => bool_decide (c = os_path.extsep) && all_dots s'
  end.

Lemma has_non_dot_skip (a s : string) : forall to,
  os_path.has_non_dot (a ++ s) (String.length a) (String.length a + to)
  = os_path.has_non_dot s 0 to.
Proof.
  induction a as [| c a' IH]; intros to; [done |].
  rewrite string_app_cons. simpl. apply IH.
Qed.

Lemma has_non_dot_prefix (stem rest : string) :
  os_path.has_non_dot (stem ++ rest) 0 (String.length stem)
  = negb (all_dots stem).
Proof.
  induction stem as [| c stem' IH].
  - rewrite string_app_nil_l. by destruct rest.
  - rewrite string_app_cons. simpl. rewrite IH.
    by destruct (bool_decide (c = os_path.extsep)).
Qed.

(** [splitext] on [<dir>/<stem>.<ext>]. *)
Lemma splitext_stem_ext (dir stem ext : string) :
  occurs os_path.sep stem = false -> all_dots stem = false ->
  occurs os_path.sep ext = false -> occurs os_path.extsep ext = false ->
  os_path.splitext (dir ++ String os_path.sep (stem ++ String os_path.extsep ext))
  = ((dir ++ String os_path.sep stem)%string, String os_path.extsep ext).
Proof.
  intros Hstem Hdots Hext_sep Hext_dot. unfold os_path.splitext.
  assert (occurs os_path.sep (stem ++ String os_path.extsep ext) = false)
    as Hname by (rewrite occurs_app, Hstem; simpl; by rewrite Hext_sep).
  rewrite (rfind_last _ dir _ Hname).
  replace (dir ++ String os_path.sep (stem ++ String os_path.extsep ext))%string
    with ((dir ++ String os_path.sep stem) ++ String os_path.extsep ext)%string
    by (by rewrite string_app_assoc).
  rewrite (rfind_last _ (dir ++ String os_path.sep stem) ext Hext_dot).
  rewrite take_string_app, drop_string_app.
  rewrite bool_decide_eq_true_2
    by (rewrite string_length_app; simpl; lia).
  replace ((dir ++ String os_path.sep stem) ++ String os_path.extsep ext)%string
    with ((dir ++ String os_path.sep "")
          ++ (stem ++ String os_path.extsep ext))%string
    by (by rewrite !string_app_assoc).
  replace (S (String.length dir))
    with (String.length (dir ++ String os_path.sep "")%string)
    by (rewrite string_length_app; simpl; lia).
  replace (String.length (dir ++ String os_path.sep stem))
    with (String.length (dir ++ String os_path.sep "")%string
          + String.length stem)%nat
    by (rewrite !string_length_app; simpl; lia).
  by rewrite has_non_dot_skip, has_non_dot_prefix, Hdots.
Qed.

Lemma basename_last_component (dir name : string) :
  occurs os_path.sep name = false ->
  os_path.basename (dir ++ String os_path.sep name) = name.
Proof.
  intros Hname. unfold os_path.basename.
  rewrite (rfind_last _ dir name Hname).
  replace (S (String.length dir))
    with (String.length (dir ++ String os_path.sep "")%string)
    by (rewrite string_length_app; simpl; lia).
  replace (dir ++ String os_path.sep name)%string
    with ((dir ++ String os_path.sep "") ++ name)%string
    by (by rewrite string_app_assoc).
  apply drop_string_app.
Qed.

Lemma endswith_sep_app (a b : string) :
  b <> "" -> os_path.endswith_sep (a ++ b) = os_path.endswith_sep b.
Proof.
  intros Hb. induction a as [| c a' IH]; [done |].
  rewrite string_app_cons. simpl. rewrite IH.
  destruct (a' ++ b)%string eqn:Happ; [| done].
  destruct a'; [by destruct b | discriminate].
Qed.

(** Appending a component that holds no separator to a path that does not
    end in one. *)
Lemma join2_component (path b : string) :
  path <> "" -> os_path.endswith_sep path = false ->
  occurs os_path.sep b = false ->
  os_path.join2 path b = (path ++ String os_path.sep b)%string.
Proof.
  intros Hpath Hend Hb. unfold os_path.join2.
  rewrite (startswith_sep_absent b Hb), Hend.
  by rewrite bool_decide_eq_false_2.
Qed.

(** X16. For an image listed as [<dir>/<stem>.<ext>] (the stem without
    separator and not made of dots only, the extension without separator
    or dot) and a class name that is not empty and holds no separator, the
    annotation file is [<stem>.txt] in the directory of the class name
    under [<root>/text_c10]: the directory and the extension of the image
    path play no part, the class directory comes from the class table. *)
Theorem CUBDataset_annotation_file_name (root cls_ dir stem ext : string) :
  occurs os_path.sep stem = false -> all_dots stem = false ->
  occurs os_path.sep ext = false -> occurs os_path.extsep ext = false ->
  cls_ <> "" -> occurs os_path.sep cls_ = false ->
  (CUBDataset.collect_paths root
     [((dir ++ String os_path.sep (stem ++ String os_path.extsep ext))%string,
       cls_)] [] []).2
  = [(os_path.join root ["text_c10"]
      ++ String os_path.sep (cls_ ++ String os_path.sep (stem ++ ".txt")))%string].
Proof.
  intros Hstem Hdots Hext_sep Hext_dot Hcls Hcls_sep.
  rewrite collect_paths_spec. cbn [snd app map fst].
  rewrite (splitext_stem_ext dir stem ext Hstem Hdots Hext_sep Hext_dot).
  cbn [fst]. rewrite (basename_last_component dir stem Hstem).
  f_equal. unfold os_path.join. cbn [fold_left].
  set (base := os_path.join2 root "text_c10").
  assert (base <> "" /\ os_path.endswith_sep base = false) as [Hbase Hend].
  { unfold base, os_path.join2. simpl.
    destruct (bool_decide (root = "") || os_path.endswith_sep root).
    - split; [by destruct root |]. by rewrite endswith_sep_app.
    - split; [by destruct root |].
      by rewrite (endswith_sep_app root (String os_path.sep "text_c10")). }
  rewrite (join2_component base cls_ Hbase Hend Hcls_sep).
  rewrite join2_component.
  - by rewrite string_app_assoc.
  - by destruct base.
  - rewrite endswith_sep_app by (by destruct cls_).
    destruct cls_ as [| c cls']; [done |].
    rewrite <- (endswith_sep_absent (String c cls') Hcls_sep).
    symmetry. apply (endswith_sep_app (String os_path.sep "") (String c cls')).
    done.
  - rewrite occurs_app, Hstem. reflexivity.
Qed.

Lemma CUBDataset_annotation_file_name_witness :
  (CUBDataset.collect_paths "cub"
     [("001.Black_footed_Albatross/Black_Footed_Albatross_0046_18.jpg",
       "001.Black_footed_Albatross")] [] []).2
  = ["cub/text_c10/001.Black_footed_Albatross/Black_Footed_Albatross_0046_18.txt"].
Proof.
  apply (CUBDataset_annotation_file_name "cub" "001.Black_footed_Albatross"
           "001.Black_footed_Albatross" "Black_Footed_Albatross_0046_18" "jpg");
    (reflexivity || discriminate).
Defined.

(** ** The lines of an annotation file *)

(** The lines put back together, in order. *)
Definition joined (lines : list string) : string :=
  fold_right String.append "" lines.

(** Does the text end in a newline? *)
Fixpoint ends_LF (s : string) : bool :=
  match s with
  | EmptyString => false
  | String c s' =>
      match s' with
      | EmptyString => bool_decide (c = LF)
      | String _ _ => ends_LF s'
      end
  end.

(** Line [k] of a text is its last line and the text does not end in a
    newline. *)
Definition last_unterminated (content : string) (k : nat) : bool :=
  bool_decide (S k = length (readlines content))
  && negb (ends_LF (translate_newlines content)).

Lemma translate_newlines_cons c (s' : string) :
  translate_newlines (String c s')
  = if bool_decide (c = CR) then
      match s' with
      | String d s'' =>
          if bool_decide (d = LF) then String LF (translate_newlines s'')
          else String LF (translate_newlines s')
      | EmptyString => String LF EmptyString
      end
    else String c (translate_newlines s').
Proof. reflexivity. Qed.

Lemma occurs_cons c d (s : string) :
  occurs c (String d s) = bool_decide (d = c) || occurs c s.
Proof. reflexivity. Qed.

Lemma translate_newlines_no_CR_bounded (n : nat) : forall s,
  (String.length s <= n)%nat -> occurs CR (translate_newlines s) = false.
Proof.
  induction n as [| n IH]; intros s Hlen.
  - by destruct s; [| simpl in Hlen; lia].
  - destruct s as [| c s']; [done |]. simpl in Hlen.
    rewrite translate_newlines_cons.
    case_bool_decide as Hc.
    + destruct s' as [| d s'']; [done |]. simpl in Hlen.
      case_bool_decide; rewrite occurs_cons;
        (rewrite bool_decide_eq_false_2 by done); apply IH; simpl; lia.
    + rewrite occurs_cons, bool_decide_eq_false_2 by done.
      apply IH. lia.
Qed.

Lemma translate_newlines_no_CR s : occurs CR (translate_newlines s) = false.
Proof. by apply (translate_newlines_no_CR_bounded (String.length s)). Qed.

Lemma lines_from_no_CR s : forall cur,
  occurs CR cur = false -> occurs CR s = false ->
  Forall (fun line => occurs CR line = false) (lines_from cur s).
Proof.
  induction s as [| c s' IH]; intros cur Hcr Hs; simpl.
  - case_bool_decide; [constructor |]. by constructor.
  - rewrite occurs_cons in Hs. apply orb_false_elim in Hs as [Hc Hs'].
    apply bool_decide_eq_false in Hc.
    destruct (decide (c = LF)) as [-> | Hlf_c].
    + rewrite bool_decide_eq_true_2 by done.
      constructor; [| by apply IH].
      by rewrite occurs_app, Hcr.
    + rewrite bool_decide_eq_false_2 by done.
      apply IH; [| done].
      rewrite occurs_app, Hcr, occurs_cons.
      by rewrite bool_decide_eq_false_2.
Qed.

Lemma ends_LF_cons c (s : string) :
  ends_LF (String c s)
  = if bool_decide (s = "") then bool_decide (c = LF) else ends_LF s.
Proof. by destruct s. Qed.

Lemma lines_from_empty cur : lines_from cur "" = if bool_decide (cur = "") then [] else [cur].
Proof. reflexivity. Qed.

Lemma lines_from_cons cur c s :
  lines_from cur (String c s)
  = if bool_decide (c = LF)
    then (cur ++ String LF "")%string :: lines_from "" s
    else lines_from (cur ++ String c "")%string s.
Proof. reflexivity. Qed.

(** Every line holds no newline before its last character; it ends in one
    unless it is the last line of a text that does not. *)
Lemma lines_from_shape s : forall cur k line,
  occurs LF cur = false ->
  lines_from cur s !! k = Some line ->
  exists body,
    occurs LF body = false
    /\ line = if bool_decide (S k = length (lines_from cur s))
                 && negb (ends_LF s)
              then body else (body ++ String LF "")%string.
Proof.
  induction s as [| c s' IH]; intros cur k line Hcur Hline.
  - rewrite lines_from_empty in Hline |- *.
    case_bool_decide as Hempty; [done |].
    destruct k as [| k]; [| done]. injection Hline as <-.
    exists cur. split; [done |]. reflexivity.
  - rewrite lines_from_cons in Hline |- *. rewrite ends_LF_cons.
    destruct (decide (c = LF)) as [-> | Hc].
    + rewrite (bool_decide_eq_true_2 (LF = LF)) in Hline |- * by done.
      destruct k as [| k].
      * injection Hline as <-. exists cur. split; [done |].
        destruct (decide (s' = "")) as [-> | Hs'].
        -- rewrite (bool_decide_eq_true_2 ("" = "")) by done.
           by rewrite andb_false_r.
        -- rewrite (bool_decide_eq_false_2 (1%nat = _)); [done |].
           simpl. intros Hlen. injection Hlen as Hlen. symmetry in Hlen.
           apply length_zero_iff_nil, lines_from_nil in Hlen as [_ Hlen].
           done.
      * simpl in Hline.
        destruct (IH "" k line eq_refl Hline) as (body & Hbody & Heq).
        exists body. split; [done |].
        assert (s' <> "") as Hs' by (intros ->; done).
        rewrite (bool_decide_eq_false_2 (s' = "")) by done.
        rewrite Heq. simpl length.
        destruct (decide (S k = length (lines_from "" s'))) as [Hk | Hk].
        -- rewrite !bool_decide_eq_true_2 by (done || lia). done.
        -- rewrite !bool_decide_eq_false_2 by (done || lia). done.
    + rewrite (bool_decide_eq_false_2 (c = LF)) in Hline |- * by done.
      assert (occurs LF (cur ++ String c "") = false) as Hcur'.
      { rewrite occurs_app, Hcur, occurs_cons.
        by rewrite bool_decide_eq_false_2. }
      destruct (IH _ k line Hcur' Hline) as (body & Hbody & Heq).
      exists body. split; [done |]. rewrite Heq.
      destruct (decide (s' = "")) as [-> | Hs'].
      * by rewrite (bool_decide_eq_true_2 ("" = "")).
      * by rewrite (bool_decide_eq_false_2 (s' = "")).
Qed.

Lemma lines_from_joined s : forall cur,
  joined (lines_from cur s) = (cur ++ s)%string.
Proof.
  induction s as [| c s' IH]; intros cur; simpl.
  - case_bool_decide as Hcur; simpl.
    + by subst cur.
    + clear Hcur. induction cur as [| d cur' IHc]; [done |].
      rewrite !string_app_cons. by f_equal.
  - case_bool_decide as Hc.
    + simpl. rewrite IH, string_app_assoc. by subst c.
    + rewrite IH, string_app_assoc. done.
Qed.

Lemma getitem_caption_lookup {R : RandomSource} w self idx g g' img low caption :
  CUBDataset.__getitem__ w self idx g = (Ok (img, low, caption), g') ->
  exists annotation_path content k,
    list_getitem (CUBDataset.filtered_annotations self) idx = Ok annotation_path
    /\ text_files w !! annotation_path = Some content
    /\ readlines content !! k = Some caption.
Proof.
  rewrite getitem_unfold.
  destruct (list_getitem (CUBDataset.filtered_images self) idx)
    as [img_path|]; [| discriminate].
  destruct (list_getitem (CUBDataset.filtered_annotations self) idx)
    as [annotation_path|]; [| discriminate].
  destruct (image_steps w self img_path g) as [[[img0 low0]|] g1];
    [| discriminate].
  unfold open_read.
  destruct (text_files w !! annotation_path) as [content|] eqn:Hfile;
    [| discriminate].
  destruct (readlines content) as [| line lines] eqn:Hlines; [discriminate |].
  assert (line :: lines <> []) as Hne by done.
  destruct (random_choice_draw (line :: lines) g1 Hne) as (_ & x & Hx & ->).
  intros [= _ _ <- _]. eexists annotation_path, content, _.
  split; [done |]. split; [done |]. rewrite Hlines. exact Hx.
Qed.

Lemma getitem_caption_In {R : RandomSource} w self idx g g' img low caption :
  CUBDataset.__getitem__ w self idx g = (Ok (img, low, caption), g') ->
  exists annotation_path content,
    list_getitem (CUBDataset.filtered_annotations self) idx = Ok annotation_path
    /\ text_files w !! annotation_path = Some content
    /\ In caption (readlines content).
Proof.
  intros Hget.
  destruct (getitem_caption_lookup _ _ _ _ _ _ _ _ Hget)
    as (annotation_path & content & k & Hpath & Hfile & Hk).
  exists annotation_path, content. split; [done |]. split; [done |].
  apply list_elem_of_In, list_elem_of_lookup. eauto.
Qed.

(** X17. A caption returned by [__getitem__] is one raw line of the
    annotation file of its row, terminator included: it is the line at
    some position [k] of the file, it is not empty, it contains no carriage
    return (line ends are read as newlines), and it is a text without
    newline followed by one newline, except when it is the last line of a
    file that does not end in a line end, in which case it holds no
    newline at all. *)
Theorem CUBDataset_getitem_caption_single_line {R : RandomSource} (w : World)
    (self : CUBDataset.t) (idx : Z) (g g' : RandomState)
    (img img_low_res : Img) (caption : string) :
  CUBDataset.__getitem__ w self idx g = (Ok (img, img_low_res, caption), g') ->
  exists annotation_path content k body,
    list_getitem (CUBDataset.filtered_annotations self) idx = Ok annotation_path
    /\ text_files w !! annotation_path = Some content
    /\ readlines content !! k = Some caption
    /\ caption <> ""
    /\ occurs CR caption = false
    /\ occurs LF body = false
    /\ caption = if last_unterminated content k then body
                 else (body ++ String LF "")%string.
Proof.
  intros Hget.
  destruct (getitem_caption_lookup _ _ _ _ _ _ _ _ Hget)
    as (annotation_path & content & k & Hpath & Hfile & Hk).
  assert (caption ∈ readlines content) as Hin
    by (apply list_elem_of_lookup; eauto).
  destruct (lines_from_shape (translate_newlines content) "" k caption
              eq_refl Hk) as (body & Hbody & Heq).
  exists annotation_path, content, k, body.
  split; [done |]. split; [done |]. split; [done |]. split; [| split].
  - pose proof (readlines_nonempty content) as Hall.
    rewrite Forall_forall in Hall. by apply Hall.
  - pose proof (lines_from_no_CR (translate_newlines content) "" eq_refl
                  (translate_newlines_no_CR content)) as Hall.
    rewrite Forall_forall in Hall. by apply Hall.
  - split; [done |]. exact Heq.
Qed.

Lemma CUBDataset_getitem_caption_single_line_witness :
  exists annotation_path content k body,
    list_getitem (CUBDataset.filtered_annotations Sample.train_set) 0
    = Ok annotation_path
    /\ text_files Sample.corpus !! annotation_path = Some content
    /\ readlines content !! k = Some (String "a" (String LF ""))
    /\ String "a" (String LF "") <> ""
    /\ occurs CR (String "a" (String LF "")) = false
    /\ occurs LF body = false
    /\ String "a" (String LF "")
       = if last_unterminated content k then body
         else (body ++ String LF "")%string.
Proof.
  apply (CUBDataset_getitem_caption_single_line (R := counter_source)
           Sample.corpus Sample.train_set 0 0%nat 1%nat (PILImg Sample.rgb)
           (PILImg {| PIL.mode := PIL.RGB; PIL.width := 128;
                      PIL.height := 128; PIL.pixels := [] |})
           (String "a" (String LF ""))).
  reflexivity.
Defined.

(** The two cases on a file of two lines whose second is not terminated:
    the first line keeps its newline, the last has none. *)
Lemma readlines_unterminated_last :
  let content := String "a" (String LF (String "b" "")) in
  readlines content = [String "a" (String LF ""); String "b" ""]
  /\ last_unterminated content 0 = false
  /\ last_unterminated content 1 = true.
Proof. repeat split. Qed.

(** X18. Nothing of the annotation file is lost or repeated among the
    candidate captions: put back together in order, the lines that
    [readlines] hands to [random.choice] are the content of the file with
    its line ends read as newlines. *)
Theorem readlines_joined (content : string) :
  joined (readlines content) = translate_newlines content.
Proof. unfold readlines. by rewrite lines_from_joined. Qed.

(** ** LMDBDataset.__init__ and __len__ *)

(** X19. An opened [LMDBDataset] reports as its length the number parsed
    from the value under the key ["length"] of the store it opened, however
    many records the store holds; a store without that key makes
    [__init__] fail with [AttributeError]; and the [IOError] of the guard
    on the environment is never raised by [__init__] itself. *)
Theorem LMDBDataset_init_length
    (lmdb_open : string -> result lmdb.Environment)
    (int_of_bytes : string -> result Z) (path : string) :
  (forall self,
      LMDBDataset.__init__ lmdb_open int_of_bytes path = Ok self ->
      lmdb_open path = Ok (LMDBDataset.env self)
      /\ exists counter,
          lmdb.records (LMDBDataset.env self) !! "length" = Some counter
          /\ int_of_bytes counter = Ok (LMDBDataset.__len__ self))
  /\ (forall env,
         lmdb_open path = Ok env ->
         lmdb.records env !! "length" = None ->
         LMDBDataset.__init__ lmdb_open int_of_bytes path = Raise AttributeError)
  /\ (lmdb_open path <> Raise IOError ->
      (forall counter, int_of_bytes counter <> Raise IOError) ->
      LMDBDataset.__init__ lmdb_open int_of_bytes path <> Raise IOError).
Proof.
  unfold LMDBDataset.__init__, lmdb.txn_get, lmdb.truthy, encode_utf8.
  split; [| split].
  - intros self Hinit.
    destruct (lmdb_open path) as [env|]; [| discriminate]. simpl in Hinit.
    destruct (lmdb.records env !! "length") as [counter|] eqn:Hcounter;
      [| discriminate].
    destruct (int_of_bytes counter) as [n|] eqn:Hn; [| discriminate].
    injection Hinit as <-. simpl. split; [done |]. by exists counter.
  - intros env -> Hmissing. simpl. by rewrite Hmissing.
  - intros Hopen Hparse.
    destruct (lmdb_open path) as [env|]; simpl;
      [| intros [= ->]; by apply Hopen].
    destruct (lmdb.records env !! "length") as [counter|]; [| done].
    specialize (Hparse counter).
    destruct (int_of_bytes counter); simpl; [done |].
    intros [= ->]. by apply Hparse.
Qed.

Lemma LMDBDataset_init_length_witness :
  exists counter,
    lmdb.records SampleStore.counter_only !! "length" = Some counter
    /\ SampleStore.int_of_digits counter = Ok 5.
Proof.
  destruct (proj1 (LMDBDataset_init_length
                     SampleStore.lmdb_open SampleStore.int_of_digits "codes.lmdb")
              {| LMDBDataset.env := SampleStore.counter_only;
                 LMDBDataset.length := 5 |} eq_refl) as [_ Hcounter].
  exact Hcounter.
Defined.

(** ** collate_fn on what __getitem__ returns *)

Lemma getitem_resize {R : RandomSource} w self idx g g' ex :
  CUBDataset.__getitem__ w self idx g = (Ok ex, g') ->
  Resize w (128%nat, 128%nat) ex.1.1 = Ok ex.1.2.
Proof.
  rewrite getitem_unfold.
  destruct (list_getitem (CUBDataset.filtered_images self) idx)
    as [img_path|]; [| discriminate].
  destruct (list_getitem (CUBDataset.filtered_annotations self) idx)
    as [annotation_path|]; [| discriminate].
  destruct (image_steps w self img_path g) as [[[img0 low0]|] g1] eqn:Hsteps;
    [| discriminate].
  destruct (open_read w annotation_path) as [fp|]; [| discriminate].
  destruct (random_choice (readlines fp) g1) as [[a|] g0]; [| discriminate].
  intros [= <- _]. simpl.
  rewrite image_steps_unfold in Hsteps.
  destruct (Image_open w img_path) as [im|]; [| discriminate].
  destruct (match CUBDataset.transform self with
            | Some f => f (PILImg im)
            | None => py_ret (PILImg im)
            end g) as [[img1|] g2]; [| discriminate].
  destruct (Resize w (128%nat, 128%nat) img1) as [low1|] eqn:Hresize;
    [| discriminate].
  by injection Hsteps as <- <- _.
Qed.

Lemma collate_fn_Ok_inv {R : RandomSource} self batch first second enc :
  CUBDataset.collate_fn self batch = Ok (first, second, enc) ->
  torch_stack (map (fun ex => ex.1.1) batch) = Ok first
  /\ torch_stack (map (fun ex => ex.1.2) batch) = Ok second
  /\ tokenizer_call (CUBDataset.tokenizer self) (map snd batch)
       (CUBDataset.max_length self) = Ok enc.
Proof.
  unfold CUBDataset.collate_fn, CUBDataset.zip_star.
  destruct batch as [| ex batch']; [discriminate |].
  cbn [mbind result_bind].
  destruct (torch_stack (map (fun ex0 => ex0.1.1) (ex :: batch')))
    as [a|]; [| discriminate].
  cbn [mbind result_bind].
  destruct (torch_stack (map (fun ex0 => ex0.1.2) (ex :: batch')))
    as [b|]; [| discriminate].
  cbn [mbind result_bind].
  destruct (tokenizer_call _ _ _) as [enc0|]; [| discriminate].
  by intros [= -> -> ->].
Qed.

(** X20. On a batch of examples returned by [__getitem__], the first
    tensor that [collate_fn] returns (the one it names [imgs_low_res])
    stacks the full-size images and the second (named [imgs]) stacks their
    128x128 views: each image stacked in the second is the resize of the
    image stacked at the same position in the first.  The two names are
    exchanged with respect to the order in which [__getitem__] returns the
    views. *)
Theorem CUBDataset_collate_fn_views_order {R : RandomSource} (w : World)
    (self : CUBDataset.t) (batch : list CUBDataset.Example)
    (first second : torch.Tensor) (enc : BatchEncoding) :
  (forall ex, In ex batch ->
     exists idx g g', CUBDataset.__getitem__ w self idx g = (Ok ex, g')) ->
  CUBDataset.collate_fn self batch = Ok (first, second, enc) ->
  torch_stack (map (fun ex => ex.1.1) batch) = Ok first
  /\ torch_stack (map (fun ex => ex.1.2) batch) = Ok second
  /\ Forall2 (fun full low => Resize w (128%nat, 128%nat) full = Ok low)
       (map (fun ex => ex.1.1) batch) (map (fun ex => ex.1.2) batch).
Proof.
  intros Hbatch Hcollate.
  destruct (collate_fn_Ok_inv _ _ _ _ _ Hcollate) as (Hfirst & Hsecond & _).
  split; [done |]. split; [done |].
  clear Hcollate Hfirst Hsecond.
  induction batch as [| ex batch' IH]; simpl; [constructor |].
  constructor.
  - destruct (Hbatch ex (or_introl eq_refl)) as (idx & g & g' & Hget).
    by apply (getitem_resize _ _ _ _ _ _ Hget).
  - apply IH. intros ex' Hin. apply Hbatch. by right.
Qed.

(** The example that the training loader with [ToTensor] returns for index
    0 from generator state 0. *)
Definition tensor_example : CUBDataset.Example :=
  (TensorImg {| torch.shape := [3; 2; 2]%nat; torch.data := [] |},
   TensorImg {| torch.shape := [3; 128; 128]%nat; torch.data := [] |},
   String "a" (String LF "")).

Lemma CUBDataset_collate_fn_views_order_witness :
  torch_stack [TensorImg {| torch.shape := [3; 2; 2]%nat; torch.data := [] |}]
  = Ok {| torch.shape := [1; 3; 2; 2]%nat; torch.data := [] |}
  /\ torch_stack [TensorImg {| torch.shape := [3; 128; 128]%nat; torch.data := [] |}]
     = Ok {| torch.shape := [1; 3; 128; 128]%nat; torch.data := [] |}.
Proof.
  assert (exists enc,
             CUBDataset.collate_fn Sample.tensor_train_set [tensor_example]
             = Ok ({| torch.shape := [1; 3; 2; 2]%nat; torch.data := [] |},
                   {| torch.shape := [1; 3; 128; 128]%nat; torch.data := [] |},
                   enc)) as [enc Henc] by (eexists; reflexivity).
  destruct (CUBDataset_collate_fn_views_order (R := counter_source)
              Sample.corpus Sample.tensor_train_set [tensor_example]
              {| torch.shape := [1; 3; 2; 2]%nat; torch.data := [] |}
              {| torch.shape := [1; 3; 128; 128]%nat; torch.data := [] |} enc)
    as (Hfirst & Hsecond & _); [| exact Henc | by split].
  intros ex [<- | []]. exists 0, 0%nat, 1%nat. reflexivity.
Defined.
